(** * A shallow embedding of the Gantt-chart service

    The repository has a Node server ([server.js]) that keeps the text of the
    uploaded research files in two process-wide variables and forwards
    prompts to a generative API, a chart page ([Public/chart-renderer.js])
    that lays the returned chart out and draws a "today" marker, and a form
    page whose submit handler ([handleChartGenerate]) validates the chart
    that the server returned.

    Definitions come first, each next to the source lines it embeds; the
    lemmas and the theorems about them follow. *)

From Stdlib Require Import ZArith List Bool Lia Lqa Permutation Sorted.
From Stdlib Require Import Strings.String Strings.Ascii DecimalString QArith Qround.
Import ListNotations.
Local Open Scope string_scope.
Local Open Scope Z_scope.
#[local] Set Warnings "-register-all".

(* ================================================================== *)
(** * The JavaScript host: strings, truthiness, dates                  *)
(* ================================================================== *)

Module JS.

(** A JavaScript string is the sequence of its code units.  A code unit is
    an [ascii] here, so the model covers the strings whose code units are
    below 256; [length] is the [.length] of such a string. *)

Definition code (c : ascii) : Z := Z.of_N (N_of_ascii c).

Definition strlen (s : string) : Z := Z.of_nat (String.length s).

(** [WhiteSpace] and [LineTerminator] of ECMA-262, as far as they lie below
    256: TAB, LF, VT, FF, CR, SP and NBSP.  It is the set that [\s] matches
    and that [String.prototype.trim] removes. *)
Definition isWhiteSpace (c : ascii) : bool :=
  let n := code c in
  ((9 <=? n) && (n <=? 13)) || (n =? 32) || (n =? 160).

Definition isDigit (c : ascii) : bool :=
  let n := code c in (48 <=? n) && (n <=? 57).

Definition isLetter (c : ascii) : bool :=
  let n := code c in
  ((65 <=? n) && (n <=? 90)) || ((97 <=? n) && (n <=? 122)).

Definition isChar (a c : ascii) : bool := Ascii.eqb a c.

Definition inRange (lo hi c : ascii) : bool :=
  (code lo <=? code c) && (code c <=? code hi).

Fixpoint trimStart (s : string) : string :=
  match s with
  | String c s' => if isWhiteSpace c then trimStart s' else s
  | EmptyString => EmptyString
  end.

(** [trimEnd] keeps a character when it is not white space or when
    something that is kept follows it. *)
Fixpoint trimEnd (s : string) : string :=
  match s with
  | String c s' =>
      match trimEnd s' with
      | EmptyString => if isWhiteSpace c then EmptyString else String c EmptyString
      | r => String c r
      end
  | EmptyString => EmptyString
  end.

Definition trim (s : string) : string := trimEnd (trimStart s).

(** A regular expression of the shape [^c1 c2 ... cn$], every [ci] a
    character class: the subject matches when it has exactly [n] code units
    and the i-th one lies in the i-th class. *)
Fixpoint matchClasses (pat : list (ascii -> bool)) (s : string) : bool :=
  match pat, s with
  | [], EmptyString => true
  | p :: pat', String c s' => p c && matchClasses pat' s'
  | _, _ => false
  end.

(** [Number.prototype.toString] on an integer. *)
Definition numberToString (z : Z) : string :=
  NilZero.string_of_int (Z.to_int z).

(** [Array.prototype.indexOf] on an array of strings: the first position
    holding a string equal to [x], or [-1]. *)
Fixpoint indexOfFrom (i : Z) (l : list string) (x : string) : Z :=
  match l with
  | [] => -1
  | y :: l' => if String.eqb y x then i else indexOfFrom (i + 1) l' x
  end.

Definition indexOf (l : list string) (x : string) : Z := indexOfFrom 0 l x.

(** ** Dates (ECMA-262, section "Date Objects")

    A [Date] is its time value: the milliseconds since the epoch, in UTC.
    The fields that the getters return and that [new Date(y, m, d)] takes
    are fields of local time, which the time zone of the host relates to
    the time value.  The invalid date (time value NaN) is outside the
    model. *)

Record Date : Type := mkDate { timeValue : Z }.

(** The time zone of the host, by the offset of local time from UTC in
    milliseconds: [offsetAt t] is the offset in force at the time value [t]
    ([LocalTZA(t, true)]), and [offsetOfLocal t] is the offset that the host
    settles on for the local time value [t] ([LocalTZA(t, false)]), which
    may be a time that the clocks skip or show twice where the offset
    changes. *)
Record Zone : Type := mkZone {
  offsetAt : Z -> Z;
  offsetOfLocal : Z -> Z
}.

Definition LocalTime (tz : Zone) (t : Z) : Z := t + offsetAt tz t.

Definition UTC (tz : Zone) (t : Z) : Z := t - offsetOfLocal tz t.

(** A zone without daylight saving time. *)
Definition fixedZone (offset : Z) : Zone :=
  mkZone (fun _ => offset) (fun _ => offset).

Definition msPerDay : Z := 86400000.

Definition Day (t : Z) : Z := t / msPerDay.

Definition DayFromYear (y : Z) : Z :=
  365 * (y - 1970) + (y - 1969) / 4 - (y - 1901) / 100 + (y - 1601) / 400.

Definition DaysInYear (y : Z) : Z :=
  if negb (y mod 4 =? 0) then 365
  else if negb (y mod 100 =? 0) then 366
  else if negb (y mod 400 =? 0) then 365
  else 366.

Definition InLeapYearOf (y : Z) : Z := if DaysInYear y =? 366 then 1 else 0.

(** [YearFromTime]: the largest [y] with [DayFromYear y <= Day t].  A year
    has 365.2425 days on average, which gives an estimate that is off by at
    most one; the two comparisons settle it. *)
Definition YearFromDay (d : Z) : Z :=
  let y0 := 1970 + (400 * d) / 146097 in
  if DayFromYear (y0 + 1) <=? d then y0 + 1
  else if d <? DayFromYear y0 then y0 - 1
  else y0.

Definition YearFromTime (t : Z) : Z := YearFromDay (Day t).

Definition DayWithinYear (t : Z) : Z := Day t - DayFromYear (YearFromTime t).

Definition InLeapYear (t : Z) : Z := InLeapYearOf (YearFromTime t).

Definition MonthFromTime (t : Z) : Z :=
  let d := DayWithinYear t in
  let leap := InLeapYear t in
  if d <? 31 then 0
  else if d <? 59 + leap then 1
  else if d <? 90 + leap then 2
  else if d <? 120 + leap then 3
  else if d <? 151 + leap then 4
  else if d <? 181 + leap then 5
  else if d <? 212 + leap then 6
  else if d <? 243 + leap then 7
  else if d <? 273 + leap then 8
  else if d <? 304 + leap then 9
  else if d <? 334 + leap then 10
  else 11.

Definition DateFromTime (t : Z) : Z :=
  let d := DayWithinYear t in
  let leap := InLeapYear t in
  match MonthFromTime t with
  | 0 => d + 1
  | 1 => d - 30
  | 2 => d - 58 - leap
  | 3 => d - 89 - leap
  | 4 => d - 119 - leap
  | 5 => d - 150 - leap
  | 6 => d - 180 - leap
  | 7 => d - 211 - leap
  | 8 => d - 242 - leap
  | 9 => d - 272 - leap
  | 10 => d - 303 - leap
  | _ => d - 333 - leap
  end.

Definition WeekDay (t : Z) : Z := (Day t + 4) mod 7.

(** Days of the year that precede month [mn] (0-based). *)
Definition daysBeforeMonth (leap mn : Z) : Z :=
  match mn with
  | 0 => 0
  | 1 => 31
  | 2 => 59 + leap
  | 3 => 90 + leap
  | 4 => 120 + leap
  | 5 => 151 + leap
  | 6 => 181 + leap
  | 7 => 212 + leap
  | 8 => 243 + leap
  | 9 => 273 + leap
  | 10 => 304 + leap
  | _ => 334 + leap
  end.

(** [MakeDay]: months outside 0..11 carry into the year, and the day of
    the month is added as a plain offset, so that day 0 is the last day of
    the month before. *)
Definition MakeDay (year month date : Z) : Z :=
  let ym := year + month / 12 in
  let mn := month mod 12 in
  DayFromYear ym + daysBeforeMonth (InLeapYearOf ym) mn + date - 1.

Definition MakeDate (day time : Z) : Z := day * msPerDay + time.

(** Both [new Date(y, m, d)] and [Date.UTC(y, m, d)] read a year from 0 to
    99 as a year of the twentieth century. *)
Definition fullYear (y : Z) : Z :=
  if (0 <=? y) && (y <=? 99) then 1900 + y else y.

(** [new Date(year, month, day)]: local midnight. *)
Definition newDate (tz : Zone) (year month day : Z) : Date :=
  mkDate (UTC tz (MakeDate (MakeDay (fullYear year) month day) 0)).

(** [Date.UTC(year, month, day)]. *)
Definition Date_UTC (year month day : Z) : Z :=
  MakeDate (MakeDay (fullYear year) month day) 0.

Definition getFullYear (tz : Zone) (d : Date) : Z :=
  YearFromTime (LocalTime tz (timeValue d)).
Definition getMonth (tz : Zone) (d : Date) : Z :=
  MonthFromTime (LocalTime tz (timeValue d)).
Definition getDate (tz : Zone) (d : Date) : Z :=
  DateFromTime (LocalTime tz (timeValue d)).
Definition getDay (tz : Zone) (d : Date) : Z :=
  WeekDay (LocalTime tz (timeValue d)).

(** [a - b] on two dates: the difference of the time values. *)
Definition dateDiff (a b : Date) : Z := timeValue a - timeValue b.

(** [date.toLocaleString('en-US', { month: 'short' })]. *)
Definition monthShort (m : Z) : string :=
  match m with
  | 0 => "Jan" | 1 => "Feb" | 2 => "Mar" | 3 => "Apr"
  | 4 => "May" | 5 => "Jun" | 6 => "Jul" | 7 => "Aug"
  | 8 => "Sep" | 9 => "Oct" | 10 => "Nov" | _ => "Dec"
  end.

(** [new Date('YYYY-MM-DDTHH:mm:ss')]: a date-time without offset is local
    time. *)
Definition parseLocal (tz : Zone) (y mo d h mi s : Z) : Date :=
  mkDate (UTC tz (MakeDate (MakeDay y (mo - 1) d)
                           (((h * 60 + mi) * 60 + s) * 1000))).

(** ** Values, exceptions and property reads *)

(** What [JSON.parse] and the body parsers of the server return, with
    [undefined] for what an object lacks.  An object is the list of its own
    properties; whether it has [Object.prototype] as its prototype, as the
    objects of [JSON.parse] have, or none, as the objects have in which
    multer collects the fields of a form ([Object.create(null)]), is a
    matter of the parser, and [ToString] below, the one operation here that
    looks for an inherited method, is told. *)
Inductive Value : Type :=
  | VUndefined
  | VNull
  | VBool (b : bool)
  | VNumber (q : Q)
  | VString (s : string)
  | VArray (items : list Value)
  | VObject (props : list (string * Value)).

(** An [Error] object; what the code reads of one is its [message]. *)
Record Error : Type := mkError { message : string }.

(** How an evaluation ends: with a value, or with a thrown error (for a
    promise: fulfilled, or rejected). *)
Inductive Completion (A : Type) : Type :=
  | Normal (a : A)
  | Throws (e : Error).
Arguments Normal {A} a.
Arguments Throws {A} e.

(** [ToBoolean] *)
Definition truthy (v : Value) : bool :=
  match v with
  | VUndefined | VNull => false
  | VBool b => b
  | VNumber q => negb (Qeq_bool q 0)
  | VString s => negb (String.eqb s "")
  | VArray _ | VObject _ => true
  end.

Fixpoint lookup (k : string) (props : list (string * Value)) : Value :=
  match props with
  | [] => VUndefined
  | (k', v) :: rest => if String.eqb k' k then v else lookup k rest
  end.

(** [v.k] for a property name [k] that is not an array index: arrays and
    strings have a [length], the other primitives have no property of their
    own, and reading a property of [undefined] or [null] throws. *)
Definition getProp (v : Value) (k : string) : Completion Value :=
  match v with
  | VUndefined =>
      Throws (mkError ("Cannot read properties of undefined (reading '" ++ k ++ "')"))
  | VNull =>
      Throws (mkError ("Cannot read properties of null (reading '" ++ k ++ "')"))
  | VObject props => Normal (lookup k props)
  | VArray items =>
      Normal (if String.eqb k "length"
              then VNumber (inject_Z (Z.of_nat (List.length items)))
              else VUndefined)
  | VString s =>
      Normal (if String.eqb k "length"
              then VNumber (inject_Z (strlen s))
              else VUndefined)
  | VBool _ | VNumber _ => Normal VUndefined
  end.

(** [const { k, ... } = v] for the property [k]: the pattern throws when
    [v] is [undefined] or [null] and reads the property otherwise;
    [source] is the text of the expression that was destructured. *)
Definition destructure (v : Value) (source k : string) : Completion Value :=
  match v with
  | VUndefined =>
      Throws (mkError ("Cannot destructure property '" ++ k ++ "' of '" ++ source
                       ++ "' as it is undefined."))
  | VNull =>
      Throws (mkError ("Cannot destructure property '" ++ k ++ "' of '" ++ source
                       ++ "' as it is null."))
  | _ => getProp v k
  end.

(** Whether an object has a property of its own under the name [k]. *)
Fixpoint hasOwn (k : string) (props : list (string * Value)) : bool :=
  match props with
  | [] => false
  | (k', _) :: rest => String.eqb k' k || hasOwn k rest
  end.

Definition notPrimitive : Error :=
  mkError "Cannot convert object to primitive value".

(** [ToString], which a template literal applies to each value it splices
    in; [numberText] is [Number::toString] of the host, and [inherits]
    tells whether the objects in [v] have [Object.prototype] as their
    prototype.

    An array is joined: [Array.prototype.toString] calls [join], which
    takes [undefined] and [null] for the empty string and converts the
    other elements in turn.  An object with the prototype inherits
    [Object.prototype.toString] and becomes "[object Object]", unless a
    property of its own hides that method: then [toString] is a parsed
    value, nothing that can be called, [valueOf] (inherited, or hidden in
    the same way) gives no primitive either, and the conversion throws a
    [TypeError].  An object without prototype has no method at all; its
    conversion always throws. *)
Fixpoint ToString (numberText : Q -> string) (inherits : bool) (v : Value)
  : Completion string :=
  match v with
  | VUndefined => Normal "undefined"
  | VNull => Normal "null"
  | VBool true => Normal "true"
  | VBool false => Normal "false"
  | VNumber q => Normal (numberText q)
  | VString s => Normal s
  | VArray items =>
      (fix join (l : list Value) : Completion string :=
         match l with
         | [] => Normal ""
         | x :: rest =>
             match
               match x with
               | VUndefined | VNull => Normal ""
               | _ => ToString numberText inherits x
               end
             with
             | Throws e => Throws e
             | Normal first =>
                 match rest with
                 | [] => Normal first
                 | _ :: _ =>
                     match join rest with
                     | Throws e => Throws e
                     | Normal others => Normal (first ++ "," ++ others)
                     end
                 end
             end
         end) items
  | VObject props =>
      if inherits && negb (hasOwn "toString" props) then Normal "[object Object]"
      else Throws notPrimitive
  end.

(** [v === n] for a number literal [n]. *)
Definition strictEqNumber (v : Value) (n : Z) : bool :=
  match v with
  | VNumber q => Qeq_bool q (inject_Z n)
  | _ => false
  end.

(** [String.prototype.includes] *)
Fixpoint includes (s sub : string) : bool :=
  String.prefix sub s ||
  match s with
  | String _ s' => includes s' sub
  | EmptyString => false
  end.

(** The line feed of a [\n] escape. *)
Definition LF : string := String "010"%char EmptyString.

End JS.

(* ================================================================== *)
(** * The chart page ([Public/chart-renderer.js])                      *)
(* ================================================================== *)

Module Renderer.
Import JS.

(** ** The chart document *)

Record Bar : Type := mkBar {
  startCol : option Z;      (* [null] when the timing is unknown *)
  endCol : option Z;
  color : option string
}.

Record Row : Type := mkRow {
  title : string;
  isSwimlane : bool;
  entity : string;
  bar : option Bar
}.

Record TaskIdentifier : Type := mkTaskIdentifier {
  taskName : string;
  taskEntity : string
}.

(** ** The part of the DOM that [setupChart] builds for one row *)

(** The only listeners the chart registers on a row are
    [() => showAnalysisModal(taskIdentifier)]. *)
Inductive Listener : Type :=
  | ShowAnalysisModal (id : TaskIdentifier).

Inductive Element : Type :=
  mkElement (tagName className textContent : string)
            (attributes style : list (string * string))
            (clickListeners : list Listener)
            (children : list Element).

Definition tagName (e : Element) : string :=
  let (t, _, _, _, _, _, _) := e in t.
Definition className (e : Element) : string :=
  let (_, c, _, _, _, _, _) := e in c.
Definition textContent (e : Element) : string :=
  let (_, _, t, _, _, _, _) := e in t.
Definition attributes (e : Element) : list (string * string) :=
  let (_, _, _, a, _, _, _) := e in a.
Definition style (e : Element) : list (string * string) :=
  let (_, _, _, _, s, _, _) := e in s.
Definition clickListeners (e : Element) : list Listener :=
  let (_, _, _, _, _, l, _) := e in l.
Definition children (e : Element) : list Element :=
  let (_, _, _, _, _, _, c) := e in c.

Definition createElement (tag : string) : Element :=
  mkElement tag "" "" [] [] [] [].

Definition setClassName (c : string) (e : Element) : Element :=
  mkElement (tagName e) c (textContent e) (attributes e) (style e)
            (clickListeners e) (children e).

Definition setTextContent (t : string) (e : Element) : Element :=
  mkElement (tagName e) (className e) t (attributes e) (style e)
            (clickListeners e) (children e).

Definition setAttribute (k v : string) (e : Element) : Element :=
  mkElement (tagName e) (className e) (textContent e) (attributes e ++ [(k, v)])
            (style e) (clickListeners e) (children e).

Definition setStyle (k v : string) (e : Element) : Element :=
  mkElement (tagName e) (className e) (textContent e) (attributes e)
            (style e ++ [(k, v)]) (clickListeners e) (children e).

Definition addClickListener (l : Listener) (e : Element) : Element :=
  mkElement (tagName e) (className e) (textContent e) (attributes e) (style e)
            (clickListeners e ++ [l]) (children e).

Definition appendChild (c : Element) (e : Element) : Element :=
  mkElement (tagName e) (className e) (textContent e) (attributes e) (style e)
            (clickListeners e) (children e ++ [c]).

(** [`${x}`] for a column number that may be [null]. *)
Definition colToString (c : option Z) : string :=
  match c with
  | Some n => numberToString n
  | None => "null"
  end.

(** [bar.color || 'default'] *)
Definition colorOrDefault (c : option string) : string :=
  match c with
  | Some (String a s) => String a s
  | _ => "default"
  end.

(** The cells [for (let i = 1; i <= numCols; i++)] appends to the bar area. *)
Definition gridCells (numCols : nat) : list Element :=
  map (fun i => setAttribute "data-col" (numberToString (Z.of_nat i))
                  (createElement "span"))
      (seq 1 numCols).

(** The body of [for (const row of ganttData.data)] in [setupChart]: the
    label cell and the bar area appended to the grid for [row]. *)
Definition renderRow (numCols : nat) (row : Row) : Element * Element :=
  let kind := if isSwimlane row then "swimlane" else "task" in
  (* 1. Create Label Cell *)
  let labelEl :=
    setTextContent (title row)
      (setClassName ("gantt-row-label " ++ kind) (createElement "div")) in
  (* 2. Create Bar Area *)
  let n := numberToString (Z.of_nat numCols) in
  let barAreaEl :=
    setStyle "gridTemplateColumns" ("repeat(" ++ n ++ ", 1fr)")
      (setStyle "gridColumn" ("2 / span " ++ n)
        (setClassName ("gantt-bar-area " ++ kind) (createElement "div"))) in
  let barAreaEl := fold_left (fun e c => appendChild c e) (gridCells numCols) barAreaEl in
  (* 3. Add the bar (if it's a task and has bar data) *)
  match isSwimlane row, bar row with
  | false, Some b =>
      match startCol b with
      | Some _ =>
          let barEl :=
            setStyle "gridColumn" (colToString (startCol b) ++ " / " ++ colToString (endCol b))
              (setAttribute "data-color" (colorOrDefault (color b))
                (setClassName "gantt-bar" (createElement "div"))) in
          let barAreaEl := appendChild barEl barAreaEl in
          let taskIdentifier := mkTaskIdentifier (title row) (entity row) in
          let labelEl := addClickListener (ShowAnalysisModal taskIdentifier) labelEl in
          let barAreaEl := addClickListener (ShowAnalysisModal taskIdentifier) barAreaEl in
          let labelEl := setStyle "cursor" "pointer" labelEl in
          let barAreaEl := setStyle "cursor" "pointer" barAreaEl in
          (labelEl, barAreaEl)
      | None => (labelEl, barAreaEl)
      end
  | _, _ => (labelEl, barAreaEl)
  end.

(** The rows of the grid, in document order. *)
Definition renderRows (numCols : nat) (data : list Row) : list (Element * Element) :=
  map (renderRow numCols) data.

(** What a click on the label or on the bar area of a rendered row runs. *)
Definition clickActions (cells : Element * Element) : list Listener :=
  clickListeners (fst cells) ++ clickListeners (snd cells).

(** ** The "today" marker *)

Record Position : Type := mkPosition {
  index : Z;
  percentage : Q
}.

(** [/^\d{4}$/] *)
Definition reYear (s : string) : bool :=
  matchClasses [isDigit; isDigit; isDigit; isDigit] s.

(** [/^Q[1-4]\s\d{4}$/] *)
Definition reQuarter (s : string) : bool :=
  matchClasses [isChar "Q"; inRange "1" "4"; isWhiteSpace;
                isDigit; isDigit; isDigit; isDigit] s.

(** [/^[A-Za-z]{3}\s\d{4}$/] *)
Definition reMonth (s : string) : bool :=
  matchClasses [isLetter; isLetter; isLetter; isWhiteSpace;
                isDigit; isDigit; isDigit; isDigit] s.

(** [/^W\d{1,2}\s\d{4}$/] *)
Definition reWeek (s : string) : bool :=
  matchClasses [isChar "W"; isDigit; isWhiteSpace;
                isDigit; isDigit; isDigit; isDigit] s
  || matchClasses [isChar "W"; isDigit; isDigit; isWhiteSpace;
                   isDigit; isDigit; isDigit; isDigit] s.

(** A number of milliseconds as a number of days. *)
Definition msToDays (ms : Z) : Q := inject_Z ms / inject_Z (1000 * 60 * 60 * 24).

(** [getWeek]: the ISO 8601 week number of the date. *)
Definition getWeek (tz : Zone) (date : Date) : Z :=
  let d := Date_UTC (getFullYear tz date) (getMonth tz date) (getDate tz date) in
  (* var dayNum = d.getUTCDay() || 7; *)
  let dayNum := if WeekDay d =? 0 then 7 else WeekDay d in
  (* d.setUTCDate(d.getUTCDate() + 4 - dayNum); *)
  let d := MakeDate (MakeDay (YearFromTime d) (MonthFromTime d)
                             (DateFromTime d + 4 - dayNum))
                    (d mod msPerDay) in
  let yearStart := Date_UTC (YearFromTime d) 0 1 in
  Qceiling ((inject_Z (d - yearStart) / inject_Z 86400000 + 1) / 7).

(** [findTodayColumnPosition]; [None] is the [null] of the source.  A
    percentage is the exact quotient, of which the source computes the
    nearest double; a quotient by 0, which takes a zone whose offset moves
    by most of a year, is 0 here and not a number in the source. *)
Definition findTodayColumnPosition (tz : Zone) (today : Date)
  (timeColumns : list string)
  : option Position :=
  match timeColumns with
  | [] => None
  | firstCol :: _ =>
      let todayYear := getFullYear tz today in
      (* 1. Check for Year columns (e.g., "2025") *)
      if reYear firstCol then
        let todayYearStr := numberToString todayYear in
        let index := indexOf timeColumns todayYearStr in
        if index =? -1 then None else
        let startOfYear := newDate tz todayYear 0 1 in
        let endOfYear := newDate tz todayYear 11 31 in
        let dayOfYear := msToDays (dateDiff today startOfYear) in
        let totalDays := msToDays (dateDiff endOfYear startOfYear) in
        Some (mkPosition index (dayOfYear / totalDays))
      (* 2. Check for Quarter columns (e.g., "Q4 2025") *)
      else if reQuarter firstCol then
        let month := getMonth tz today in
        let quarter := month / 3 + 1 in
        let todayQuarterStr :=
          "Q" ++ numberToString quarter ++ " " ++ numberToString todayYear in
        let index := indexOf timeColumns todayQuarterStr in
        if index =? -1 then None else
        let quarterStartMonth := (quarter - 1) * 3 in
        let startOfQuarter := newDate tz todayYear quarterStartMonth 1 in
        let endOfQuarter := newDate tz todayYear (quarterStartMonth + 3) 0 in
        let dayInQuarter := msToDays (dateDiff today startOfQuarter) in
        let totalDays := msToDays (dateDiff endOfQuarter startOfQuarter) in
        Some (mkPosition index (dayInQuarter / totalDays))
      (* 3. Check for Month columns (e.g., "Nov 2025") *)
      else if reMonth firstCol then
        let todayMonthStr :=
          monthShort (getMonth tz today) ++ " " ++ numberToString todayYear in
        let index := indexOf timeColumns todayMonthStr in
        if index =? -1 then None else
        let endOfMonth := newDate tz todayYear (getMonth tz today + 1) 0 in
        let dayInMonth := getDate tz today in
        let totalDays := getDate tz endOfMonth in
        Some (mkPosition index (inject_Z dayInMonth / inject_Z totalDays))
      (* 4. Check for Week columns (e.g., "W46 2025") *)
      else if reWeek firstCol then
        let todayWeekStr :=
          "W" ++ numberToString (getWeek tz today) ++ " " ++ numberToString todayYear in
        let index := indexOf timeColumns todayWeekStr in
        if index =? -1 then None else
        let dayOfWeek := getDay tz today in         (* 0 (Sun) - 6 (Sat) *)
        Some (mkPosition index ((inject_Z dayOfWeek + (1 # 2)) / 7))
      else None                                     (* Unknown format *)
  end.

End Renderer.

(* ================================================================== *)
(** * The server ([server.js])                                         *)
(* ================================================================== *)

Module Server.
Import JS.

(** ** Requests, the API and the host *)

Definition Buffer : Type := list Byte.byte.

(** An uploaded file as multer hands it over. *)
Record File : Type := mkFile {
  originalname : string;
  mimetype : string;
  buffer : Buffer
}.

(** The prompts are long literal templates.  A payload records which
    endpoint built it (that fixes the system instruction, the response
    schema and the generation settings), the research text spliced into the
    user query and the texts of the request values spliced in besides. *)
Inductive Endpoint : Type := GenerateChart | GetTaskAnalysis | AskQuestion.

Record Payload : Type := mkPayload {
  endpoint : Endpoint;
  research : string;
  slots : list string
}.

Record SafetyRating : Type := mkSafetyRating {
  blocked : bool;
  category : string
}.

(** A candidate of the API's answer: the texts of [content.parts] when it
    has a [content], and its [safetyRatings] when it has any. *)
Record Candidate : Type := mkCandidate {
  content : option (list string);
  safetyRatings : option (list SafetyRating)
}.

Record ApiResult : Type := mkApiResult {
  candidates : option (list Candidate)
}.

(** A [Response] of [fetch]: [text] and [json] are what the promises of
    [response.text()] and [response.json()] settle to. *)
Record Response : Type := mkResponse {
  ok : bool;
  status : Z;
  text : Completion string;
  json : Completion ApiResult
}.

(** What the server cannot compute by itself: the collation of the
    runtime, mammoth, the UTF-8 decoder, [JSON.parse], the text of a
    number, and the API, whose answer to the n-th request of the process is
    [fetchApi n]. *)
Record Host : Type := mkHost {
  localeCompare : string -> string -> Z;
  convertToHtml : Buffer -> Completion string;
  toStringUtf8 : Buffer -> string;
  JSON_parse : string -> Completion Value;
  numberText : Q -> string;
  fetchApi : nat -> Payload -> Completion Response
}.

(** ** The process state and its effects *)

Inductive Event : Type :=
  | Fetch (payload : Payload)       (* [fetch(API_URL, ...)] *)
  | Sleep (ms : Z).                 (* [setTimeout(resolve, ms)], awaited *)

Record World : Type := mkWorld {
  researchTextCache : string;
  researchFilesCache : list string;
  fetchCount : nat;
  trace : list Event
}.

(** A computation reads and writes the world and ends normally or by
    throwing.  Output on the console is not part of the world. *)
Definition M (A : Type) : Type := World -> Completion A * World.

Definition ret {A} (a : A) : M A := fun w => (Normal a, w).

Definition throw {A} (e : Error) : M A := fun w => (Throws e, w).

Definition bind {A B} (m : M A) (k : A -> M B) : M B :=
  fun w =>
    match m w with
    | (Normal a, w') => k a w'
    | (Throws e, w') => (Throws e, w')
    end.

(** [try { m } catch (e) { handler e }] *)
Definition tryCatch {A} (m : M A) (handler : Error -> M A) : M A :=
  fun w =>
    match m w with
    | (Normal a, w') => (Normal a, w')
    | (Throws e, w') => handler e w'
    end.

(** A completion that the host or a pure function has computed. *)
Definition settle {A} (c : Completion A) : M A := fun w => (c, w).

Notation "x <- m ;; k" := (bind m (fun x => k))
  (at level 61, m at next level, right associativity).
Notation "m ;; k" := (bind m (fun _ => k))
  (at level 61, right associativity).

Definition getText : M string := fun w => (Normal (researchTextCache w), w).

Definition setText (s : string) : M unit :=
  fun w => (Normal tt, mkWorld s (researchFilesCache w) (fetchCount w) (trace w)).

Definition appendText (s : string) : M unit :=
  fun w => (Normal tt, mkWorld (researchTextCache w ++ s) (researchFilesCache w)
                               (fetchCount w) (trace w)).

Definition setFiles (l : list string) : M unit :=
  fun w => (Normal tt, mkWorld (researchTextCache w) l (fetchCount w) (trace w)).

Definition pushFile (name : string) : M unit :=
  fun w => (Normal tt, mkWorld (researchTextCache w) (researchFilesCache w ++ [name])
                               (fetchCount w) (trace w)).

Definition fetch (H : Host) (payload : Payload) : M Response :=
  fun w => (fetchApi H (fetchCount w) payload,
            mkWorld (researchTextCache w) (researchFilesCache w)
                    (S (fetchCount w)) (trace w ++ [Fetch payload])).

Definition sleep (ms : Z) : M unit :=
  fun w => (Normal tt, mkWorld (researchTextCache w) (researchFilesCache w)
                               (fetchCount w) (trace w ++ [Sleep ms])).

(** ** The completion client *)

(** Lines 61-86 of [callGeminiForJson], the same text as lines 110-135 of
    [callGeminiForText]: from the response to the text of the first part
    of the first candidate. *)
Definition responseText (response : Response) : Completion string :=
  if negb (ok response) then
    let errorText :=
      match text response with
      | Normal t => t
      | Throws _ => "Unknown error"
      end in
    Throws (mkError ("API call failed with status: "
                     ++ numberToString (status response) ++ " - " ++ errorText))
  else
    match json response with
    | Throws e => Throws e
    | Normal result =>
        match candidates result with
        | Some (mkCandidate (Some parts) ratings :: _) =>
            match
              match ratings with
              | Some l => find blocked l
              | None => None
              end
            with
            | Some blockedRating =>
                Throws (mkError ("API call blocked due to safety rating: "
                                 ++ category blockedRating))
            | None =>
                match parts with
                | t :: _ => Normal t
                | [] =>
                    Throws (mkError
                      "Cannot read properties of undefined (reading 'text')")
                end
            end
        | _ => Throws (mkError "Invalid response from AI API")
        end
    end.

(** The loop of [callGeminiForJson]; [remaining] counts the iterations
    that are left, [retryCount - attempt] of them. *)
Fixpoint callGeminiForJsonFrom (H : Host) (payload : Payload) (retryCount : Z)
  (remaining : nat) (attempt : Z) : M Value :=
  match remaining with
  | O => throw (mkError "All API retry attempts failed.")
  | S remaining' =>
      tryCatch
        (response <- fetch H payload ;;
         extractedJsonText <- settle (responseText response) ;;
         settle (JSON_parse H extractedJsonText))
        (fun error =>
           if attempt >=? retryCount - 1 then throw error
           else
             sleep (1000 * (attempt + 1)) ;;
             callGeminiForJsonFrom H payload retryCount remaining' (attempt + 1))
  end.

Definition callGeminiForJson (H : Host) (payload : Payload) (retryCount : Z)
  : M Value :=
  callGeminiForJsonFrom H payload retryCount (Z.to_nat retryCount) 0.

(** The loop of [callGeminiForText]. *)
Fixpoint callGeminiForTextFrom (H : Host) (payload : Payload) (retryCount : Z)
  (remaining : nat) (attempt : Z) : M string :=
  match remaining with
  | O => throw (mkError "All API retry attempts failed.")
  | S remaining' =>
      tryCatch
        (response <- fetch H payload ;;
         settle (responseText response))
        (fun error =>
           if attempt >=? retryCount - 1 then throw error
           else
             sleep (1000 * (attempt + 1)) ;;
             callGeminiForTextFrom H payload retryCount remaining' (attempt + 1))
  end.

Definition callGeminiForText (H : Host) (payload : Payload) (retryCount : Z)
  : M string :=
  callGeminiForTextFrom H payload retryCount (Z.to_nat retryCount) 0.

(** The default [retryCount = 3], which every caller uses. *)
Definition defaultRetryCount : Z := 3.

(** ** The handlers *)

(** What [res.status(code).json(value)] sends; [res.json(value)] alone
    answers with status 200. *)
Record Reply : Type := mkReply {
  statusCode : Z;
  sent : Value
}.

Definition errorReply (code : Z) (msg : string) : Reply :=
  mkReply code (VObject [("error", VString msg)]).

(** [req.files.sort((a, b) => a.originalname.localeCompare(b.originalname))].
    [Array.prototype.sort] is stable: [a] stays before [b] unless the
    comparator is positive on them.  [insertFile f l] puts [f], which
    stood before the elements of [l], into the sorted [l]. *)
Fixpoint insertFile (H : Host) (f : File) (l : list File) : list File :=
  match l with
  | [] => [f]
  | g :: l' =>
      if localeCompare H (originalname f) (originalname g) >? 0
      then g :: insertFile H f l'
      else f :: g :: l'
  end.

Fixpoint sortFiles (H : Host) (files : list File) : list File :=
  match files with
  | [] => []
  | f :: rest => insertFile H f (sortFiles H rest)
  end.

Definition docxMimetype : string :=
  "application/vnd.openxmlformats-officedocument.wordprocessingml.document".

Definition startMarker (name : string) : string :=
  LF ++ LF ++ "--- Start of file: " ++ name ++ " ---" ++ LF.

Definition endMarker (name : string) : string :=
  LF ++ "--- End of file: " ++ name ++ " ---" ++ LF.

(** [for (const file of sortedFiles) { ... }] *)
Fixpoint extractFiles (H : Host) (sortedFiles : list File) : M unit :=
  match sortedFiles with
  | [] => ret tt
  | file :: rest =>
      appendText (startMarker (originalname file)) ;;
      pushFile (originalname file) ;;
      (if String.eqb (mimetype file) docxMimetype then
         value <- settle (convertToHtml H (buffer file)) ;;
         appendText value
       else
         appendText (toStringUtf8 H (buffer file))) ;;
      appendText (endMarker (originalname file)) ;;
      extractFiles H rest
  end.

(** A request of [POST /generate-chart] as the two body parsers hand it
    over.  [upload.array('researchFiles')] (multer) takes a multipart
    request: it collects the text fields in an object without prototype,
    which becomes [req.body], and the files in the array [req.files]; a
    field is a string, an array (a name that comes twice) or an object
    without prototype again (a name in brackets).  It passes any other
    request on as it is: [req.files] is not set, and [req.body] is what
    [express.json()] left there, the parsed body of a JSON request, and for
    other requests nothing ([undefined]) or an empty object, by the version
    of express. *)
Inductive ChartRequest : Type :=
  | Multipart (fields : list (string * Value)) (uploaded : list File)
  | NotMultipart (parsed : Value).

Definition body (req : ChartRequest) : Value :=
  match req with
  | Multipart fields _ => VObject fields
  | NotMultipart parsed => parsed
  end.

(** Whether the objects of the body have [Object.prototype]. *)
Definition inherits (req : ChartRequest) : bool :=
  match req with
  | Multipart _ _ => false
  | NotMultipart _ => true
  end.

Definition files (req : ChartRequest) : option (list File) :=
  match req with
  | Multipart _ uploaded => Some uploaded
  | NotMultipart _ => None
  end.

(** [app.post('/generate-chart', ...)].  The extraction step yields the
    reply of its [catch] block when it failed.  The read of [req.body.prompt]
    and the template of the user query stand outside the two [try] blocks:
    what they throw leaves the handler. *)
Definition generateChart (H : Host) (req : ChartRequest) : M Reply :=
  userPrompt <- settle (getProp (body req) "prompt") ;;
  setText "" ;;                 (* Clear cache for new request *)
  setFiles [] ;;                (* Clear cache *)
  (* 1. Extract text from uploaded files (Sort for determinism) *)
  failed <-
    tryCatch
      (match files req with
       | Some fs => extractFiles H (sortFiles H fs)
       | None => ret tt
       end ;;
       ret None)
      (fun e => ret (Some (errorReply 500 "Error processing uploaded files."))) ;;
  match failed with
  | Some reply => ret reply
  | None =>
      (* 2.-4. the prompt, the schema, the payload *)
      promptText <- settle (ToString (numberText H) (inherits req) userPrompt) ;;
      cache <- getText ;;
      let payload := mkPayload GenerateChart cache [promptText] in
      (* 5. Call the API *)
      tryCatch
        (ganttData <- callGeminiForJson H payload defaultRetryCount ;;
         ret (mkReply 200 ganttData))
        (fun e => ret (errorReply 500 ("Error generating chart data: " ++ message e)))
  end.

(** [app.post('/get-task-analysis', ...)]; [body] is [req.body].  The
    destructuring and the template of the user query stand outside the
    [try] block. *)
Definition getTaskAnalysis (H : Host) (body : Value) : M Reply :=
  taskName <- settle (destructure body "req.body" "taskName") ;;
  entity <- settle (destructure body "req.body" "entity") ;;
  if negb (truthy taskName) || negb (truthy entity) then
    ret (errorReply 400 "Missing taskName or entity")
  else
    cache <- getText ;;
    entityText <- settle (ToString (numberText H) true entity) ;;
    taskNameText <- settle (ToString (numberText H) true taskName) ;;
    let payload := mkPayload GetTaskAnalysis cache [entityText; taskNameText] in
    tryCatch
      (analysisData <- callGeminiForJson H payload defaultRetryCount ;;
       ret (mkReply 200 analysisData))
      (fun e => ret (errorReply 500 ("Error generating task analysis: " ++ message e))).

(** [!v || typeof v !== 'string' || !v.trim()] *)
Definition missingText (v : Value) : bool :=
  negb (truthy v) ||
  match v with
  | VString s => negb (truthy (VString (trim s)))
  | _ => true
  end.

(** The string that [v] is, once [typeof v === 'string'] is known. *)
Definition asString (v : Value) : string :=
  match v with
  | VString s => s
  | _ => ""
  end.

(** [app.post('/ask-question', ...)]; [body] is [req.body].  The checks
    leave strings only, which the templates splice in as they are. *)
Definition askQuestion (H : Host) (body : Value) : M Reply :=
  taskName <- settle (destructure body "req.body" "taskName") ;;
  entity <- settle (destructure body "req.body" "entity") ;;
  question <- settle (destructure body "req.body" "question") ;;
  (* Enhanced input validation *)
  if missingText question then
    ret (errorReply 400 "Question is required and must be non-empty")
  else if missingText entity then
    ret (errorReply 400 "Entity is required")
  else if missingText taskName then
    ret (errorReply 400 "Task name is required")
  (* Limit question length to prevent abuse *)
  else if strlen (trim (asString question)) >? 1000 then
    ret (errorReply 400 "Question too long (max 1000 characters)")
  else
    cache <- getText ;;
    let payload :=
      mkPayload AskQuestion cache
                [asString taskName; asString entity; asString question] in
    (* 3. Call the *text* helper *)
    tryCatch
      (textResponse <- callGeminiForText H payload defaultRetryCount ;;
       ret (mkReply 200 (VObject [("answer", VString textResponse)])))
      (fun e => ret (errorReply 500 ("Error generating answer: " ++ message e))).

End Server.

(* ================================================================== *)
(** * The form page ([handleChartGenerate])                            *)
(* ================================================================== *)

Module Client.
Import JS.

(** The response of [fetch('/generate-chart', ...)] as the handler reads
    it: the [content-type] header and what [response.json()] and
    [response.text()] settle to. *)
Record FetchedResponse : Type := mkFetchedResponse {
  ok : bool;
  status : Z;
  contentType : option string;
  json : Completion Value;
  text : Completion string
}.

(** How a submit ends: [#error-message] shows a text, or the chart is
    stored in [sessionStorage] and [chart.html] is opened. *)
Inductive Outcome : Type :=
  | ShowError (text : string)
  | OpenChart (ganttData : Value).

Definition andThen {A B} (c : Completion A) (k : A -> Completion B) : Completion B :=
  match c with
  | Normal a => k a
  | Throws e => Throws e
  end.

Notation "x <- c ;; k" := (andThen c (fun x => k))
  (at level 61, c at next level, right associativity).

Definition invalidStructure : Error :=
  mkError "Invalid chart data structure received from server".

Definition nothingFound : Error :=
  mkError ("The AI was unable to find any tasks or time columns in the "
           ++ "provided documents. Please check your files or try a different prompt.").

(** Steps 5 of [handleChartGenerate]: "Validate the data structure" and
    "Check for empty data". *)
Definition validateChart (ganttData : Value) : Completion unit :=
  if negb (truthy ganttData) then Throws invalidStructure else
  timeColumns <- getProp ganttData "timeColumns" ;;
  if negb (truthy timeColumns) then Throws invalidStructure else
  data <- getProp ganttData "data" ;;
  if negb (truthy data) then Throws invalidStructure else
  columnCount <- getProp timeColumns "length" ;;
  if strictEqNumber columnCount 0 then Throws nothingFound else
  rowCount <- getProp data "length" ;;
  if strictEqNumber rowCount 0 then Throws nothingFound else
  Normal tt.

Section Handler.

(** [ToString] of the host, for a value that is not a string. *)
Variable ToString : Value -> string.

Definition toMessage (v : Value) : string :=
  match v with
  | VString s => s
  | _ => ToString v
  end.

(** The message of the error thrown for a response that is not [ok]. *)
Definition serverErrorMessage (response : FetchedResponse) : string :=
  let errorMessage := "Server error: " ++ numberToString (status response) in
  match contentType response with
  | Some ct =>
      if truthy (VString ct) && includes ct "application/json" then
        match (err <- json response ;; getProp err "error") with
        | Normal e => if truthy e then toMessage e else errorMessage
        | Throws _ => errorMessage
        end
      else
        match text response with
        | Normal t =>
            let t := substring 0 200 t in
            if truthy (VString t) then t else errorMessage
        | Throws _ => errorMessage
        end
  | None =>
      match text response with
      | Normal t =>
          let t := substring 0 200 t in
          if truthy (VString t) then t else errorMessage
      | Throws _ => errorMessage
      end
  end.

(** [handleChartGenerate] for an enabled button: [fileCount] is
    [fileInput.files.length], [promptValue] is [promptInput.value] and
    [fetched] is what the request to the server settles to. *)
Definition handleChartGenerate (fileCount : Z) (promptValue : string)
  (fetched : Completion FetchedResponse) : Outcome :=
  if fileCount =? 0 then
    ShowError "Error: Please upload at least one research document."
  else if negb (truthy (VString (trim promptValue))) then
    ShowError "Error: Please provide project instructions in the prompt."
  else
    match
      (response <- fetched ;;
       if negb (ok response) then Throws (mkError (serverErrorMessage response))
       else
         ganttData <- json response ;;
         _ <- validateChart ganttData ;;
         Normal ganttData)
    with
    | Normal ganttData => OpenChart ganttData
    | Throws error => ShowError ("Error: " ++ message error)
    end.

End Handler.

(** [response] is what the page receives when the server sends [reply]
    with [res.status(code).json(value)]: express labels the body as JSON. *)
Definition carries (response : FetchedResponse) (reply : Server.Reply) : Prop :=
  status response = Server.statusCode reply
  /\ ok response = ((200 <=? Server.statusCode reply) && (Server.statusCode reply <=? 299))
  /\ (exists ct, contentType response = Some ct /\ includes ct "application/json" = true)
  /\ json response = Normal (Server.sent reply).

End Client.

(* ================================================================== *)
(** * More of the pages: the marker line, the file picker, the chart
      page at load, the requests of the modal                          *)
(* ================================================================== *)

Module Pages.
Import JS Renderer.

(** ** [addTodayLine] *)

(** What [addTodayLine] reads of the grid: the [offsetWidth] of the
    element of class [gantt-header-label] and the [offsetHeight] of the
    first element of class [gantt-header] ([None] when [querySelector]
    finds none), whether the grid has a parent element, and the
    [clientWidth] of the grid.  Lengths are exact rationals. *)
Record Grid : Type := mkGrid {
  labelCol : option Q;
  headerRow : option Q;
  parentElement : bool;
  clientWidth : Q
}.

(** The line that is appended to the grid: its [top] and [left], in px. *)
Record TodayLine : Type := mkTodayLine {
  top : Q;
  left : Q
}.

Definition addTodayLine (tz : Zone) (gridEl : Grid) (timeColumns : list string)
  (today : Date) : option TodayLine :=
  match findTodayColumnPosition tz today timeColumns with
  | None => None                      (* Today is not in the chart's range *)
  | Some position =>
      match labelCol gridEl, headerRow gridEl with
      | Some labelColWidth, Some headerHeight =>
          (* gridEl.parentElement.getBoundingClientRect() throws without a
             parent; the catch block logs and adds nothing *)
          if negb (parentElement gridEl) then None else
          let timeColAreaWidth := (clientWidth gridEl - labelColWidth)%Q in
          let oneColWidth :=
            (timeColAreaWidth / inject_Z (Z.of_nat (List.length timeColumns)))%Q in
          let todayOffset :=
            ((inject_Z (index position) + percentage position) * oneColWidth)%Q in
          let lineLeftPosition := (labelColWidth + todayOffset)%Q in
          Some (mkTodayLine headerHeight lineLeftPosition)
      | _, _ => None
      end
  end.

(** ** [processFiles] *)

(** [String.prototype.toLowerCase] on code units below 256: the letters A
    to Z, and the letters from U+00C0 to U+00DE but the multiplication
    sign. *)
Definition lowerChar (c : ascii) : ascii :=
  let n := code c in
  if ((65 <=? n) && (n <=? 90))
     || ((192 <=? n) && (n <=? 222) && negb (n =? 215))
  then ascii_of_N (Z.to_N (n + 32))
  else c.

Fixpoint toLowerCase (s : string) : string :=
  match s with
  | EmptyString => EmptyString
  | String c s' => String (lowerChar c) (toLowerCase s')
  end.

(** [String.prototype.endsWith] *)
Fixpoint endsWith (s suffix : string) : bool :=
  String.eqb s suffix ||
  match s with
  | EmptyString => false
  | String _ s' => endsWith s' suffix
  end.

Definition SUPPORTED_FILE_MIMES : list string :=
  ["text/markdown"; "text/plain";
   "application/vnd.openxmlformats-officedocument.wordprocessingml.document"].

Definition SUPPORTED_FILE_EXTENSIONS : list string := [".md"; ".txt"; ".docx"].

(** [Array.prototype.join] *)
Fixpoint join (sep : string) (l : list string) : string :=
  match l with
  | [] => ""
  | [x] => x
  | x :: rest => x ++ sep ++ join sep rest
  end.

Definition SUPPORTED_FILES_STRING : string := join ", " SUPPORTED_FILE_EXTENSIONS.

(** A [File] of a [FileList]: its [name] and its [type]. *)
Record PickedFile : Type := mkPickedFile {
  name : string;
  type : string
}.

(** The part of the form that [processFiles] and [displayError] touch:
    the files of [#file-input], the items of [#file-list], whether
    [#dropzone-prompt] and [#file-list-container] carry the class
    [hidden], and the text and the visibility of [#error-message]. *)
Record Form : Type := mkForm {
  inputFiles : list PickedFile;
  fileList : list string;
  promptHidden : bool;
  listHidden : bool;
  errorText : string;
  errorShown : bool
}.

Definition isSupported (file : PickedFile) : bool :=
  let isValidMime := existsb (String.eqb (type file)) SUPPORTED_FILE_MIMES in
  let isValidExtension :=
    existsb (fun ext => endsWith (toLowerCase (name file)) ext)
            SUPPORTED_FILE_EXTENSIONS in
  isValidMime || isValidExtension.

Definition processFiles (files : list PickedFile) (form : Form) : Form :=
  (* Clear previous errors *)
  let form := mkForm (inputFiles form) (fileList form) (promptHidden form)
                     (listHidden form) (errorText form) false in
  match files with
  | [] =>
      (* No files selected *)
      mkForm (inputFiles form) (fileList form) false true (errorText form)
             (errorShown form)
  | _ =>
      (* 1. Validate files *)
      let validFiles := filter isSupported files in
      let invalidFiles := map name (filter (fun f => negb (isSupported f)) files) in
      match invalidFiles with
      | _ :: _ =>
          (* 2. Handle invalid files *)
          let errorMsg :=
            "The following files are not supported: " ++ join ", " invalidFiles
            ++ ". Please upload only " ++ SUPPORTED_FILES_STRING ++ " files." in
          mkForm [] (fileList form) false true errorMsg true
      | [] =>
          (* 3. If files are valid, update the list display *)
          mkForm validFiles (map name validFiles) true false (errorText form)
                 (errorShown form)
      end
  end.

(** ** The chart page at [DOMContentLoaded] (the copy with validation) *)

(** [typeof v === 'object'] *)
Definition isObject (v : Value) : bool :=
  match v with
  | VNull | VArray _ | VObject _ => true
  | _ => false
  end.

Definition isArray (v : Value) : bool :=
  match v with
  | VArray _ => true
  | _ => false
  end.

(** What the handler does with [sessionStorage.getItem('ganttData')]: the
    chart it hands to [setupChart] ([None]: the page says that no chart
    data was found), and whether it removes the item from the storage. *)
Record Loaded : Type := mkLoaded {
  chart : option Value;
  removed : bool
}.

Definition loadChart (JSON_parse : string -> Completion Value)
  (stored : option string) : Loaded :=
  match stored with
  | Some (String c s) =>
      match JSON_parse (String c s) with
      | Normal ganttData =>
          (* Validate structure *)
          if negb (truthy ganttData) || negb (isObject ganttData) then
            mkLoaded None true
          else
            match getProp ganttData "data", getProp ganttData "timeColumns" with
            | Normal data, Normal timeColumns =>
                if negb (isArray data) || negb (truthy timeColumns)
                then mkLoaded None true
                else mkLoaded (Some ganttData) false
            | _, _ => mkLoaded None true
            end
      | Throws _ => mkLoaded None true
      end
  | _ => mkLoaded None false
  end.

(** ** The requests of the modal *)

(** The body of the request of [showAnalysisModal]:
    [JSON.stringify(taskIdentifier)], as [express.json()] hands it over. *)
Definition analysisBody (taskIdentifier : TaskIdentifier) : Value :=
  VObject [("taskName", VString (taskName taskIdentifier));
           ("entity", VString (taskEntity taskIdentifier))].

(** [handleAskQuestion] up to its request: with the chat input and the
    send button in place, a value that is blank once trimmed sends
    nothing, and any other value sends the identity of the task with the
    trimmed question. *)
Definition questionBody (taskIdentifier : TaskIdentifier) (inputValue : string)
  : option Value :=
  let question := trim inputValue in
  if negb (truthy (VString question)) then None
  else Some (VObject [("taskName", VString (taskName taskIdentifier));
                      ("entity", VString (taskEntity taskIdentifier));
                      ("question", VString question)]).

End Pages.

(* ================================================================== *)
(** * The vocabulary of the statements                                 *)
(* ================================================================== *)

Module Spec.
Import JS Renderer.

(** A rendered row is clickable when a click on its label or on its bar
    area opens the analysis of the row's task identity. *)
Definition Clickable (numCols : nat) (row : Row) : Prop :=
  In (ShowAnalysisModal (mkTaskIdentifier (title row) (entity row)))
     (clickActions (renderRow numCols row)).

(** The granularity that the format of a bucket label implies. *)
Inductive Granularity : Type := Years | Quarters | Months | Weeks.

Definition granularity (label : string) : option Granularity :=
  if reYear label then Some Years
  else if reQuarter label then Some Quarters
  else if reMonth label then Some Months
  else if reWeek label then Some Weeks
  else None.

(** ISO 8601 weeks, on days counted from 1970-01-01, a Thursday: a week
    runs from Monday to Sunday, and week 1 of a year is the week that holds
    the first Thursday of that year.  So a week belongs to the year of its
    Thursday, and its number counts the Thursdays of that year up to its
    own. *)
Definition isoThursday (day : Z) : Z := day - (day + 3) mod 7 + 3.

Definition isoWeekYear (day : Z) : Z := YearFromDay (isoThursday day).

Definition isoWeek (day : Z) : Z :=
  (isoThursday day - DayFromYear (isoWeekYear day)) / 7 + 1.

(** The label of the bucket that holds [today] under a granularity: the
    year, quarter or month of the local date, or its ISO week with the year
    that week belongs to. *)
Definition bucketLabel (tz : Zone) (g : Granularity) (today : Date) : string :=
  let year := numberToString (getFullYear tz today) in
  let day := Day (LocalTime tz (timeValue today)) in
  match g with
  | Years => year
  | Quarters => "Q" ++ numberToString (getMonth tz today / 3 + 1) ++ " " ++ year
  | Months => monthShort (getMonth tz today) ++ " " ++ year
  | Weeks =>
      "W" ++ numberToString (isoWeek day) ++ " " ++ numberToString (isoWeekYear day)
  end.

(** When no marker is due: there are no columns, the first label has no
    known format, or no column carries the label of the date's bucket. *)
Definition NoMarker (tz : Zone) (today : Date) (timeColumns : list string) : Prop :=
  match timeColumns with
  | [] => True
  | firstCol :: _ =>
      match granularity firstCol with
      | None => True
      | Some g => ~ In (bucketLabel tz g today) timeColumns
      end
  end.

(** The day of the week as ISO 8601 numbers it, Monday 1 to Sunday 7. *)
Definition isoDayOfWeek (tz : Zone) (d : Date) : Z :=
  if getDay tz d =? 0 then 7 else getDay tz d.

(** The day of the week counted from the Monday that starts an ISO week:
    Monday 0 to Sunday 6. *)
Definition daysSinceMonday (tz : Zone) (d : Date) : Z := (getDay tz d + 6) mod 7.

(** The zone has one offset over the dates that a marker's offset
    subtracts: the one in force at [today] is the one the host settles on
    for the local times [start] and [last]. *)
Definition SteadyOffset (tz : Zone) (today : Date) (start last : Z) : Prop :=
  offsetOfLocal tz start = offsetAt tz (timeValue today)
  /\ offsetOfLocal tz last = offsetAt tz (timeValue today).

(** The host places the local time [t] on the calendar day [t] names: a
    local time that the clocks skip is moved by the width of the gap, which
    may not reach into another day. *)
Definition KeepsDay (tz : Zone) (t : Z) : Prop :=
  Day (LocalTime tz (UTC tz t)) = Day t.

(** ** The server *)

Import Server.

(** The two caches together: the Grounding Store. *)
Definition store (w : World) : string * list string :=
  (researchTextCache w, researchFilesCache w).

(** The text a file contributes, when its conversion succeeds. *)
Definition fileText (H : Host) (f : File) : Completion string :=
  if String.eqb (mimetype f) docxMimetype
  then convertToHtml H (buffer f)
  else Normal (toStringUtf8 H (buffer f)).

Definition Converts (H : Host) (f : File) : Prop :=
  exists v, fileText H f = Normal v.

(** The block of a file in the corpus: its text between its markers. *)
Definition block (H : Host) (f : File) : string :=
  startMarker (originalname f)
  ++ match fileText H f with Normal v => v | Throws _ => "" end
  ++ endMarker (originalname f).

Fixpoint concatBlocks (H : Host) (l : list File) : string :=
  match l with
  | [] => ""
  | f :: l' => block H f ++ concatBlocks H l'
  end.

(** How the n-th request to the API ends for each of the two clients: with
    the value the client returns, or with the error its attempt throws. *)
Definition attemptText (H : Host) (payload : Payload) (n : nat) : Completion string :=
  match fetchApi H n payload with
  | Normal response => responseText response
  | Throws e => Throws e
  end.

Definition attemptJson (H : Host) (payload : Payload) (n : nat) : Completion Value :=
  match attemptText H payload n with
  | Normal t => JSON_parse H t
  | Throws e => Throws e
  end.

(** The retry policy in words: up to three attempts, a pause of 1000 ms
    after the first failure and of 2000 ms after the second, the result of
    the first attempt that succeeds, or else the error of the third. *)
Definition retrySchedule {A} (payload : Payload) (o1 o2 o3 : Completion A)
  : Completion A * list Event :=
  match o1 with
  | Normal v => (Normal v, [Fetch payload])
  | Throws _ =>
      match o2 with
      | Normal v => (Normal v, [Fetch payload; Sleep 1000; Fetch payload])
      | Throws _ =>
          (o3, [Fetch payload; Sleep 1000; Fetch payload; Sleep 2000; Fetch payload])
      end
  end.

Definition isFetch (e : Event) : bool :=
  match e with
  | Fetch _ => true
  | Sleep _ => false
  end.

Definition fetches (l : list Event) : nat := List.length (filter isFetch l).

(** The extraction step of [generateChart]: the loop over the sorted
    files of the request. *)
Definition extraction (H : Host) (req : ChartRequest) : M unit :=
  match files req with
  | Some fs => extractFiles H (sortFiles H fs)
  | None => ret tt
  end.

(** The caches as [generateChart] leaves them at its start. *)
Definition emptied (w : World) : World :=
  mkWorld "" [] (fetchCount w) (trace w).

(** The world after a client has run through a schedule. *)
Definition after (w : World) (events : list Event) : World :=
  mkWorld (researchTextCache w) (researchFilesCache w)
          (fetchCount w + fetches events) (trace w ++ events).

(** The comparator on files that the sort of the upload uses. *)
Definition compareNames (H : Host) (f g : File) : Z :=
  localeCompare H (originalname f) (originalname g).

(** [f] is not after [g] in the order of the names. *)
Definition nameLe (H : Host) (f g : File) : Prop := compareNames H f g <= 0.

(** The hypotheses on the comparator, asked of the files of one upload
    only: any two are comparable, and the order is transitive. *)
Definition TotalOn (H : Host) (l : list File) : Prop :=
  forall f g, In f l -> In g l -> nameLe H f g \/ nameLe H g f.

Definition TransitiveOn (H : Host) (l : list File) : Prop :=
  forall f g h, In f l -> In g l -> In h l ->
    nameLe H f g -> nameLe H g h -> nameLe H f h.

(** Files whose names the comparator does not tell apart are one file. *)
Definition SeparatedOn (H : Host) (l : list File) : Prop :=
  forall f g, In f l -> In g l -> nameLe H f g -> nameLe H g f -> f = g.

(** A request that reaches a handler without a body: no parser has set
    [req.body], or the body is [null]. *)
Definition NoBody (body : Value) : Prop := body = VUndefined \/ body = VNull.

(** The field [k] of a request: what its body holds under [k], and
    [undefined] when there is no body to look into. *)
Definition field (body : Value) (k : string) : Value :=
  match getProp body k with
  | Normal v => v
  | Throws _ => VUndefined
  end.

(** A value that is no string or is blank once trimmed. *)
Definition Blank (v : Value) : Prop := forall s, v = VString s -> trim s = "".

(** A string of more than 1000 code units once trimmed. *)
Definition TooLong (v : Value) : Prop :=
  exists s, v = VString s /\ 1000 < strlen (trim s).

(** A field that is absent, [null] or the empty string. *)
Definition Missing (v : Value) : Prop :=
  v = VUndefined \/ v = VNull \/ v = VString "".

(** The messages the two validating handlers answer with. *)
Definition validationMessages : list string :=
  ["Question is required and must be non-empty"; "Entity is required";
   "Task name is required"; "Question too long (max 1000 characters)"].

End Spec.

(* ================================================================== *)
(** * Sample inputs                                                    *)
(* ================================================================== *)

Module Samples.
Import JS Renderer.

(** A task of unknown timing that carries a color, as the chart schema
    asks for it. *)
Definition unknownTimingTask : Row :=
  mkRow "Vendor selection" false "Procurement"
        (Some (mkBar None None (Some "priority-red"))).

(** A zone with the rules of New York in 2025: five hours behind UTC,
    and four from March 9th, 7:00 UTC, to November 2nd, 6:00 UTC.  The hour
    from 2:00 that the clocks skip in March is read with the offset of
    before, and so is the hour from 1:00 that they show twice in
    November. *)
Definition msPerHour : Z := 3600000.

Definition newYork : Zone :=
  mkZone
    (fun t =>
       if (MakeDate (MakeDay 2025 2 9) (7 * msPerHour) <=? t)
          && (t <? MakeDate (MakeDay 2025 10 2) (6 * msPerHour))
       then -4 * msPerHour else -5 * msPerHour)
    (fun t =>
       if (MakeDate (MakeDay 2025 2 9) (3 * msPerHour) <=? t)
          && (t <? MakeDate (MakeDay 2025 10 2) (2 * msPerHour))
       then -4 * msPerHour else -5 * msPerHour).

(** The date [setupChart] passes to [addTodayLine]:
    [new Date('2025-11-14T12:00:00')], a Friday. *)
Definition today2025 (tz : Zone) : Date := parseLocal tz 2025 11 14 12 0 0.

(** The Sunday that ends the same ISO week, week 46 of 2025. *)
Definition sunday2025 (tz : Zone) : Date := parseLocal tz 2025 11 16 12 0 0.

(** The Monday before New Year's Eve of 2024: the first day of week 1 of
    2025. *)
Definition monday2024 (tz : Zone) : Date := parseLocal tz 2024 12 30 12 0 0.

Definition quarters2025 : list string :=
  ["Q1 2025"; "Q2 2025"; "Q3 2025"; "Q4 2025"].

Definition weeks2025 : list string :=
  ["W45 2025"; "W46 2025"; "W47 2025"].

(** *** The server *)

Import Server.

(** A host without network and without a working converter: collation by
    code units, buffers read as Latin-1, numbers printed as the integers
    they are (the samples hold no other number). *)
Definition codeUnitCompare (a b : string) : Z :=
  match String.compare a b with
  | Lt => -1
  | Eq => 0
  | Gt => 1
  end.

Definition offlineHost : Host :=
  mkHost codeUnitCompare
         (fun _ => Throws (mkError "Can't find end of central directory : is this a zip file ?"))
         string_of_list_byte
         (fun _ => Throws (mkError "Unexpected end of JSON input"))
         (fun q => numberToString (Qfloor q))
         (fun _ _ => Throws (mkError "fetch failed")).

Definition notesTxt : File :=
  mkFile "notes.txt" "text/plain" (list_byte_of_string "alpha").

(** A second file of the same name, from another folder. *)
Definition notesTxt' : File :=
  mkFile "notes.txt" "text/plain" (list_byte_of_string "beta").

Definition agendaMd : File :=
  mkFile "agenda.md" "text/markdown" (list_byte_of_string "# Agenda").

(** A Word file that mammoth cannot open. *)
Definition reportDocx : File :=
  mkFile "report.docx" docxMimetype (list_byte_of_string "not a zip").

Definition upload (fs : list File) : ChartRequest :=
  Multipart [("prompt", VString "Build the roadmap")] fs.

(** The process right after start, and after an earlier upload. *)
Definition freshWorld : World := mkWorld "" [] 0 [].

Definition usedWorld : World :=
  mkWorld (startMarker "old.txt" ++ "old corpus" ++ endMarker "old.txt") ["old.txt"] 3 [].

(** *** The form page *)

(** A chart without [timeColumns]. *)
Definition chartWithoutColumns : Value :=
  VObject [("title", VString "Roadmap");
           ("data", VArray [VObject [("title", VString "Lane")]]);
           ("legend", VArray [])].

(** A chart whose [data] is empty. *)
Definition chartWithoutRows : Value :=
  VObject [("title", VString "Roadmap");
           ("timeColumns", VArray [VString "2025"]);
           ("data", VArray []);
           ("legend", VArray [])].

Definition okResponse (v : Value) : Client.FetchedResponse :=
  Client.mkFetchedResponse true 200 (Some "application/json; charset=utf-8")
    (Normal v) (Throws (mkError "body used already"))%string.

Definition failedResponse (msg : string) : Client.FetchedResponse :=
  Client.mkFetchedResponse false 500 (Some "application/json; charset=utf-8")
    (Normal (VObject [("error", VString msg)]))
    (Throws (mkError "body used already")).

End Samples.

(* ================================================================== *)
(** * Further vocabulary                                               *)
(* ================================================================== *)

Module Extra.
Import JS Server Spec.

(** The events of [m] attempts in a row, the first of them being attempt
    number [attempt] (counted from 0): a request per attempt, and after
    attempt [k] a pause of [1000 * (k + 1)] ms before the next one. *)
Fixpoint scheduleFrom (payload : Payload) (attempt : Z) (m : nat) : list Event :=
  match m with
  | O => []
  | S O => [Fetch payload]
  | S m' =>
      Fetch payload :: Sleep (1000 * (attempt + 1))
        :: scheduleFrom payload (attempt + 1) m'
  end.

(** The requests among the events. *)
Definition requests (l : list Event) : list Payload :=
  flat_map (fun e => match e with Fetch p => [p] | Sleep _ => [] end) l.

(** A reply of one of the three handlers. *)
Definition isNormal {A} (c : Completion A) : Prop :=
  match c with
  | Normal _ => True
  | Throws _ => False
  end.

(** A string that does not start with white space. *)
Definition startsClean (s : string) : Prop :=
  match s with
  | String c _ => isWhiteSpace c = false
  | EmptyString => True
  end.

(** The number of days of month [m] (0-based) of a year that is a leap
    year ([leap = 1]) or not ([leap = 0]). *)
Definition daysInMonth (leap m : Z) : Z :=
  match m with
  | 1 => 28 + leap
  | 3 | 5 | 8 | 10 => 30
  | _ => 31
  end.

(** The number of days of quarter [q] (1 to 4). *)
Definition daysInQuarter (leap q : Z) : Z :=
  match q with
  | 1 => 90 + leap
  | 2 => 91
  | _ => 92
  end.

(** The first day of the ISO week of the day [d]: its Monday. *)
Definition mondayOf (d : Z) : Z := d - (d + 3) mod 7.

(** *** Further sample inputs *)

(** A chart with one column and one task row. *)
Definition chartWithRows : Value :=
  VObject [("title", VString "Roadmap");
           ("timeColumns", VArray [VString "2025"]);
           ("data", VArray [VObject [("title", VString "Lane")]]);
           ("legend", VArray [])].

(** A grid of 1000 px with a label column of 400 px and a header row of
    40 px. *)
Definition measuredGrid : Pages.Grid :=
  Pages.mkGrid (Some (400 # 1)) (Some (40 # 1)) true (1000 # 1).

(** A response of a proxy in front of the server. *)
Definition badGateway : Client.FetchedResponse :=
  Client.mkFetchedResponse false 502 (Some "text/html")
    (Throws (mkError "Unexpected token < in JSON at position 0"))
    (Normal "<html><body>502 Bad Gateway</body></html>").

(** A selection of a text file with an upper-case extension and no type,
    and of an image. *)
Definition pickedFiles : list Pages.PickedFile :=
  [Pages.mkPickedFile "NOTES.TXT" ""; Pages.mkPickedFile "photo.png" "image/png"].

Definition emptyForm : Pages.Form := Pages.mkForm [] [] false true "" false.

(** A parser that knows one text. *)
Definition parseStoredChart (s : string) : Completion Value :=
  if String.eqb s "{chart}" then Normal chartWithRows
  else Throws (mkError "Unexpected token").

(** A request of the modal for a task of the sample upload. *)
Definition sampleQuestion : Value :=
  VObject [("taskName", VString "Vendor selection"); ("entity", VString "Procurement");
           ("question", VString "When does it start?")].

(** A request for an analysis whose task name is an object with a
    property [toString]: the body [{"taskName":{"toString":1},"entity":"x"}]. *)
Definition opaqueTaskName : Value :=
  VObject [("taskName", VObject [("toString", VNumber 1)]);
           ("entity", VString "x")].

(** The ISO week of the date belongs to the calendar year of the date,
    as it does except on up to three days on either side of New Year, and
    that year is none of the years 0 to 99, which [Date.UTC] takes for 1900
    to 1999. *)
Definition WeekOfItsYear (tz : Zone) (today : Date) : Prop :=
  ~ 0 <= getFullYear tz today <= 99
  /\ isoWeekYear (Day (LocalTime tz (timeValue today))) = getFullYear tz today.

(** The label that [findTodayColumnPosition] looks for among the
    columns. *)
Definition soughtLabel (tz : Zone) (g : Granularity) (today : Date) : string :=
  let year := numberToString (getFullYear tz today) in
  match g with
  | Years => year
  | Quarters => "Q" ++ numberToString (getMonth tz today / 3 + 1) ++ " " ++ year
  | Months => monthShort (getMonth tz today) ++ " " ++ year
  | Weeks => "W" ++ numberToString (Renderer.getWeek tz today) ++ " " ++ year
  end.

End Extra.

(* ================================================================== *)
(** * Facts about the host                                             *)
(* ================================================================== *)

Section HostFacts.
Import JS.

(** [YearFromDay] is the year ECMA-262 defines: the largest [y] whose
    first day is not after [d]. *)
Lemma YearFromDay_bounds (d : Z) :
  DayFromYear (YearFromDay d) <= d < DayFromYear (YearFromDay d + 1).
Proof.
  unfold YearFromDay.
  set (y0 := 1970 + 400 * d / 146097).
  assert (H0 : DayFromYear (y0 - 1) <= d < DayFromYear (y0 + 2)).
  { unfold DayFromYear, y0. Z.to_euclidean_division_equations. lia. }
  destruct (Z.leb_spec (DayFromYear (y0 + 1)) d).
  - replace (y0 + 1 + 1) with (y0 + 2) by lia. lia.
  - destruct (Z.ltb_spec d (DayFromYear y0)).
    + replace (y0 - 1 + 1) with y0 by lia. lia.
    + lia.
Qed.

Lemma DayFromYear_step (y : Z) :
  DayFromYear (y + 1) = DayFromYear y + DaysInYear y.
Proof.
  unfold DayFromYear, DaysInYear.
  repeat match goal with
         | |- context [if negb (?a =? ?b) then _ else _] =>
             destruct (Z.eqb_spec a b); cbn [negb]
         end;
    Z.to_euclidean_division_equations; lia.
Qed.

Lemma WeekDay_range (t : Z) : 0 <= WeekDay t <= 6.
Proof. unfold WeekDay. pose proof (Z.mod_pos_bound (Day t + 4) 7). lia. Qed.

Lemma indexOfFrom_absent (l : list string) (x : string) (i : Z) :
  0 <= i -> (indexOfFrom i l x = -1 <-> ~ In x l).
Proof.
  revert i. induction l as [|y l IH]; intros i Hi; cbn.
  - tauto.
  - destruct (String.eqb_spec y x) as [->|Hne].
    + split; [lia | intros H; exfalso; apply H; now left].
    + rewrite (IH (i + 1)) by lia. split.
      * intros H [E|E]; [congruence | tauto].
      * intros H E. apply H. now right.
Qed.

Lemma indexOf_absent (l : list string) (x : string) :
  indexOf l x = -1 <-> ~ In x l.
Proof. apply indexOfFrom_absent. lia. Qed.

Lemma indexOfFrom_found (l : list string) (x : string) (i : Z) :
  In x l -> i <= indexOfFrom i l x < i + Z.of_nat (List.length l).
Proof.
  revert i. induction l as [|y l IH]; intros i Hin; [destruct Hin|].
  cbn [indexOfFrom List.length]. destruct (String.eqb_spec y x) as [->|Hne].
  - lia.
  - destruct Hin as [E|Hin]; [congruence|].
    specialize (IH (i + 1) Hin). lia.
Qed.

End HostFacts.

(* ================================================================== *)
(** * The chart page: clickable rows and the "today" marker            *)
(* ================================================================== *)

Section RendererFacts.
Import JS Renderer Spec Samples Extra.

(** ** Click listeners *)

Lemma clickActions_renderRow (numCols : nat) (row : Row) :
  clickActions (renderRow numCols row) =
  match isSwimlane row, bar row with
  | false, Some b =>
      match startCol b with
      | Some _ =>
          [ShowAnalysisModal (mkTaskIdentifier (title row) (entity row));
           ShowAnalysisModal (mkTaskIdentifier (title row) (entity row))]
      | None => []
      end
  | _, _ => []
  end.
Proof.
  assert (Hcells : forall cells e,
             clickListeners (fold_left (fun e c => appendChild c e) cells e)
             = clickListeners e).
  { induction cells as [|c cells IH]; intros e; cbn [fold_left]; [reflexivity|].
    rewrite IH. now destruct e. }
  unfold clickActions, renderRow.
  destruct (isSwimlane row), (bar row) as [b|]; cbn; rewrite ?Hcells; try reflexivity.
  destruct (startCol b); cbn; rewrite ?Hcells; reflexivity.
Qed.

(** C4, counterexample: a task row whose bar has [startCol = endCol = null]
    and a color gets no click listener, neither on its label nor on its bar
    area, so a click on it opens nothing. *)
Lemma C4_unknown_timing_task_is_inert :
  isSwimlane unknownTimingTask = false
  /\ clickActions (renderRow 4 unknownTimingTask) = []
  /\ ~ Clickable 4 unknownTimingTask.
Proof.
  split; [reflexivity|]. split; [reflexivity|].
  unfold Clickable. cbn. tauto.
Qed.

(** C4, as the code has it: a rendered row opens the analysis of its
    {taskName, entity} identity on a click exactly when it is a task row
    that has a bar with a non-null [startCol]; then both the label and the
    bar area carry the listener, and every other row carries none. *)
Theorem C4_clickable_iff_placed_bar (numCols : nat) (row : Row) :
  (Clickable numCols row <->
   isSwimlane row = false /\ exists b c, bar row = Some b /\ startCol b = Some c)
  /\ (Clickable numCols row ->
      clickListeners (fst (renderRow numCols row)) =
        [ShowAnalysisModal (mkTaskIdentifier (title row) (entity row))]
      /\ clickListeners (snd (renderRow numCols row)) =
        [ShowAnalysisModal (mkTaskIdentifier (title row) (entity row))])
  /\ (~ Clickable numCols row -> clickActions (renderRow numCols row) = []).
Proof.
  assert (Hcells : forall cells e,
             clickListeners (fold_left (fun e c => appendChild c e) cells e)
             = clickListeners e).
  { induction cells as [|c cells IH]; intros e; cbn [fold_left]; [reflexivity|].
    rewrite IH. now destruct e. }
  unfold Clickable. rewrite clickActions_renderRow.
  unfold renderRow.
  destruct (isSwimlane row) eqn:Hs, (bar row) as [b|] eqn:Hb;
    try (split; [split; [intros [] | intros [? (b' & c & ? & ?)]; congruence]
                | split; [intros [] | reflexivity]]).
  destruct (startCol b) as [c|] eqn:Hc.
  - split; [|split].
    + split; [intros _; split; [reflexivity | now exists b, c] | intros _; now left].
    + intros _. cbn. rewrite Hcells. split; reflexivity.
    + intros H. exfalso. apply H. now left.
  - split; [|split].
    + split; [intros [] | intros [_ (b' & c & E & Hc')]; congruence].
    + intros [].
    + reflexivity.
Qed.

(** ** The formats of the bucket labels exclude one another *)

Lemma digit_not_letter (c : ascii) : isDigit c = true -> isLetter c = false.
Proof. unfold isDigit, isLetter. cbv zeta. lia. Qed.

Lemma matchClasses_cons (p : ascii -> bool) (pat : list (ascii -> bool)) (s : string) :
  matchClasses (p :: pat) s = true ->
  exists c s', s = String c s' /\ p c = true /\ matchClasses pat s' = true.
Proof.
  destruct s as [|c s']; cbn [matchClasses]; [discriminate|].
  intros H. apply andb_true_iff in H. now exists c, s'.
Qed.

Lemma reWeek_shape (s : string) :
  reWeek s = true -> exists c s', s = String "W" (String c s') /\ isDigit c = true.
Proof.
  unfold reWeek. intros H. apply orb_true_iff in H.
  destruct H as [H|H];
    apply matchClasses_cons in H; destruct H as (c0 & s0 & -> & HW & H);
    apply matchClasses_cons in H; destruct H as (c1 & s1 & -> & Hd & _);
    apply Ascii.eqb_eq in HW; subst c0; now exists c1, s1.
Qed.

Lemma reWeek_only (s : string) :
  reWeek s = true -> reYear s = false /\ reQuarter s = false /\ reMonth s = false.
Proof.
  intros H. destruct (reWeek_shape s H) as (c & s' & -> & Hd).
  unfold reYear, reQuarter, reMonth. cbn [matchClasses].
  rewrite (digit_not_letter c Hd).
  replace (isDigit "W") with false by reflexivity.
  replace (isChar "Q" "W") with false by reflexivity.
  cbn [andb]. rewrite andb_false_r. auto.
Qed.

Lemma granularity_week (s : string) : reWeek s = true -> granularity s = Some Weeks.
Proof.
  intros H. unfold granularity.
  destruct (reWeek_only s H) as (-> & -> & ->). now rewrite H.
Qed.

(** [findTodayColumnPosition] by the granularity of the first label. *)
Lemma findTodayColumnPosition_unfold (tz : Zone) (today : Date) (firstCol : string)
  (rest : list string) :
  findTodayColumnPosition tz today (firstCol :: rest) =
  match granularity firstCol with
  | None => None
  | Some g =>
      let timeColumns := firstCol :: rest in
      let index := indexOf timeColumns (soughtLabel tz g today) in
      if index =? -1 then None else
      Some (mkPosition index
        match g with
        | Years =>
            msToDays (dateDiff today (newDate tz (getFullYear tz today) 0 1))
            / msToDays (dateDiff (newDate tz (getFullYear tz today) 11 31)
                                 (newDate tz (getFullYear tz today) 0 1))
        | Quarters =>
            let m := (getMonth tz today / 3 + 1 - 1) * 3 in
            msToDays (dateDiff today (newDate tz (getFullYear tz today) m 1))
            / msToDays (dateDiff (newDate tz (getFullYear tz today) (m + 3) 0)
                                 (newDate tz (getFullYear tz today) m 1))
        | Months =>
            inject_Z (getDate tz today)
            / inject_Z (getDate tz (newDate tz (getFullYear tz today)
                                            (getMonth tz today + 1) 0))
        | Weeks => (inject_Z (getDay tz today) + (1 # 2)) / 7
        end)
  end.
Proof.
  unfold findTodayColumnPosition, granularity, soughtLabel.
  destruct (reYear firstCol); [reflexivity|].
  destruct (reQuarter firstCol); [reflexivity|].
  destruct (reMonth firstCol); [reflexivity|].
  destruct (reWeek firstCol); reflexivity.
Qed.

(** ** The "today" marker *)

Lemma granularity_none (s : string) :
  granularity s = None <->
  reYear s = false /\ reQuarter s = false /\ reMonth s = false /\ reWeek s = false.
Proof.
  unfold granularity.
  destruct (reYear s), (reQuarter s), (reMonth s), (reWeek s);
    split; try discriminate; try tauto; intros (? & ? & ? & ?); discriminate.
Qed.

(** *** Zones of a fixed offset

    In such a zone the function sees the local time only: a date gets the
    position that the date of the same local time gets under UTC. *)

Lemma LocalTime_fixed (offset t : Z) : LocalTime (fixedZone offset) t = t + offset.
Proof. reflexivity. Qed.

Lemma UTC_fixed (offset t : Z) : UTC (fixedZone offset) t = t - offset.
Proof. reflexivity. Qed.

Lemma shifted_difference (a b offset : Z) : a - offset - (b - offset) = a - b.
Proof. lia. Qed.

Lemma position_in_fixed_zone (offset t : Z) (timeColumns : list string) :
  findTodayColumnPosition (fixedZone offset) (mkDate (t - offset)) timeColumns
  = findTodayColumnPosition (fixedZone 0) (mkDate t) timeColumns.
Proof.
  unfold findTodayColumnPosition, getWeek, getFullYear, getMonth, getDate, getDay,
    newDate, dateDiff.
  cbn [timeValue]. cbv zeta.
  rewrite !LocalTime_fixed, !UTC_fixed, ?shifted_difference.
  rewrite ?Z.sub_add, ?Z.add_0_r, ?Z.sub_0_r.
  reflexivity.
Qed.

(** C6, counterexample: on Sunday 2025-11-16, in the bucket of ISO week
    46, the offset is 0.5/7: the marker stands in the first seventh of a
    week that started on Monday.  The day-of-week of ISO 8601 is 7 on that
    day (it would give 7.5/7), and counted from the Monday that starts the
    week the day is 6 (it would give 6.5/7). *)
Lemma C6_sunday_offset_is_not_iso :
  exists p,
    findTodayColumnPosition newYork (sunday2025 newYork) weeks2025 = Some p
    /\ index p = 1
    /\ getWeek newYork (sunday2025 newYork) = 46
    /\ isoDayOfWeek newYork (sunday2025 newYork) = 7
    /\ percentage p == 1 # 14
    /\ ~ percentage p == (inject_Z (isoDayOfWeek newYork (sunday2025 newYork)) + (1 # 2)) / 7
    /\ ~ percentage p
         == (inject_Z (daysSinceMonday newYork (sunday2025 newYork)) + (1 # 2)) / 7.
Proof.
  eexists. split; [vm_compute; reflexivity|].
  repeat split; vm_compute; solve [reflexivity | discriminate].
Qed.

(** C6, as the code has it: for week columns the bucket is the one labelled
    with the ISO week number of the date and the calendar year, and the
    offset within it is (d + 0.5)/7 for the day-of-week d that [getDay]
    gives, which counts from Sunday = 0 to Saturday = 6; on a Friday
    (d = 5) the offset is 5.5/7 = 11/14. *)
Theorem C6_week_offset_counts_from_sunday
  (tz : Zone) (today : Date) (firstCol : string) (rest : list string) (p : Position) :
  reWeek firstCol = true ->
  findTodayColumnPosition tz today (firstCol :: rest) = Some p ->
  index p = indexOf (firstCol :: rest)
              ("W" ++ numberToString (getWeek tz today) ++ " "
                   ++ numberToString (getFullYear tz today))
  /\ percentage p = ((inject_Z (getDay tz today) + (1 # 2)) / 7)%Q
  /\ getDay tz today = (Day (LocalTime tz (timeValue today)) + 4) mod 7
  /\ 0 <= getDay tz today <= 6
  /\ (getDay tz today = 5 -> percentage p == 11 # 14).
Proof.
  intros Hw Hp.
  rewrite findTodayColumnPosition_unfold, (granularity_week _ Hw) in Hp.
  cbv zeta in Hp.
  destruct (_ =? -1); [discriminate|].
  assert (E : mkPosition (indexOf (firstCol :: rest) (soughtLabel tz Weeks today))
                         ((inject_Z (getDay tz today) + (1 # 2)) / 7) = p).
  { exact (f_equal (fun o => match o with Some x => x | None => p end) Hp). }
  clear Hp. subst p. unfold index, percentage, soughtLabel.
  split; [reflexivity|]. split; [reflexivity|]. split; [reflexivity|].
  split; [apply WeekDay_range|].
  intros E. rewrite E. vm_compute. reflexivity.
Qed.

Lemma C6_week_offset_witness :
  let p := mkPosition 1 ((inject_Z 5 + (1 # 2)) / 7) in
  index p = indexOf weeks2025
              ("W" ++ numberToString (getWeek newYork (today2025 newYork)) ++ " "
                   ++ numberToString (getFullYear newYork (today2025 newYork)))
  /\ percentage p = ((inject_Z (getDay newYork (today2025 newYork)) + (1 # 2)) / 7)%Q
  /\ getDay newYork (today2025 newYork)
     = (Day (LocalTime newYork (timeValue (today2025 newYork))) + 4) mod 7
  /\ 0 <= getDay newYork (today2025 newYork) <= 6
  /\ (getDay newYork (today2025 newYork) = 5 -> percentage p == 11 # 14).
Proof.
  intro p.
  apply (C6_week_offset_counts_from_sunday newYork (today2025 newYork) "W45 2025"
           ["W46 2025"; "W47 2025"] p); vm_compute; reflexivity.
Defined.

(** C7, the code at the input of the claim: for the four quarters of 2025
    and 2025-11-14T12:00 the index is 3.  In a zone of a fixed offset the
    offset of the marker is 44.5/91: the numerator is the time elapsed
    since October 1st, 0:00; the denominator is the time from October 1st,
    0:00 to December 31st, 0:00, which is 91 days, one less than the 92
    days of the quarter.  The month branch divides by the true number of
    days: 14/30 for the same date.  Under the rules of New York, where the
    clocks go back an hour within the quarter, both durations are an hour
    longer: 1069 hours over 2185, which is no count of days over 92
    either. *)
Theorem C7_quarter_offset_divides_by_91 (offset : Z) :
  let tz := fixedZone offset in
  exists p,
    findTodayColumnPosition tz (today2025 tz) quarters2025 = Some p
    /\ index p = 3
    /\ percentage p == (89 # 2) / 91
    /\ msToDays (dateDiff (newDate tz 2025 12 0) (newDate tz 2025 9 1)) == 91
    /\ ~ percentage p == (89 # 2) / 92
    /\ ~ percentage p == 45 / 92
    /\ ~ percentage p == 44 / 92
    /\ (exists q,
          findTodayColumnPosition tz (today2025 tz) ["Oct 2025"; "Nov 2025"; "Dec 2025"]
          = Some q
          /\ index q = 1 /\ percentage q == 14 / 30)
    /\ exists r,
         findTodayColumnPosition newYork (today2025 newYork) quarters2025 = Some r
         /\ index r = 3
         /\ percentage r == 1069 # 2185
         /\ msToDays (dateDiff (newDate newYork 2025 12 0) (newDate newYork 2025 9 1))
            == 91 + (1 # 24)
         /\ ~ percentage r == (89 # 2) / 92
         /\ ~ percentage r == 45 / 92
         /\ ~ percentage r == 44 / 92.
Proof.
  intros tz. subst tz. unfold today2025, parseLocal, newDate, dateDiff.
  cbn [timeValue]. rewrite !UTC_fixed, shifted_difference, !position_in_fixed_zone.
  eexists. split; [vm_compute; reflexivity|].
  do 6 (split; [vm_compute; solve [reflexivity | discriminate]|]).
  split.
  - eexists. split; [vm_compute; reflexivity|].
    split; vm_compute; reflexivity.
  - eexists. split; [vm_compute; reflexivity|].
    repeat split; vm_compute; solve [reflexivity | discriminate].
Qed.

End RendererFacts.

(* ================================================================== *)
(** * The server: the completion client                                *)
(* ================================================================== *)

Section ClientOfTheApi.
Import JS Server Spec Samples.

Variable H : Host.

Lemma fetches_app (l l' : list Event) : fetches (l ++ l') = (fetches l + fetches l')%nat.
Proof. unfold fetches. now rewrite filter_app, length_app. Qed.

Lemma after_after (w : World) (l l' : list Event) :
  after (after w l) l' = after w (l ++ l').
Proof.
  unfold after. cbn [researchTextCache researchFilesCache fetchCount trace].
  rewrite fetches_app, app_assoc. f_equal. lia.
Qed.

Lemma after_one_fetch (w : World) (payload : Payload) :
  mkWorld (researchTextCache w) (researchFilesCache w) (S (fetchCount w))
          (trace w ++ [Fetch payload]) = after w [Fetch payload].
Proof. unfold after. cbn. f_equal. lia. Qed.

Lemma fetchCount_after_fetch_sleep (w : World) (payload : Payload) (ms : Z) :
  fetchCount (after w [Fetch payload; Sleep ms]) = S (fetchCount w).
Proof. cbn. lia. Qed.

(** One turn of the loop of [callGeminiForJson]. *)
Lemma callGeminiForJsonFrom_step (payload : Payload) (retryCount : Z)
  (remaining : nat) (attempt : Z) (w : World) :
  callGeminiForJsonFrom H payload retryCount (S remaining) attempt w =
  match attemptJson H payload (fetchCount w) with
  | Normal v => (Normal v, after w [Fetch payload])
  | Throws e =>
      if attempt >=? retryCount - 1 then (Throws e, after w [Fetch payload])
      else callGeminiForJsonFrom H payload retryCount remaining (attempt + 1)
             (after w [Fetch payload; Sleep (1000 * (attempt + 1))])
  end.
Proof.
  cbn [callGeminiForJsonFrom].
  unfold tryCatch, bind, fetch, settle, sleep, throw, attemptJson, attemptText.
  rewrite after_one_fetch.
  destruct (fetchApi H (fetchCount w) payload) as [r|e].
  - destruct (responseText r) as [t|e].
    + destruct (JSON_parse H t) as [v|e]; [reflexivity|].
      destruct (attempt >=? retryCount - 1); [reflexivity|].
      cbn [researchTextCache researchFilesCache fetchCount trace after].
      rewrite <- app_assoc. reflexivity.
    + destruct (attempt >=? retryCount - 1); [reflexivity|].
      cbn [researchTextCache researchFilesCache fetchCount trace after].
      rewrite <- app_assoc. reflexivity.
  - destruct (attempt >=? retryCount - 1); [reflexivity|].
    cbn [researchTextCache researchFilesCache fetchCount trace after].
    rewrite <- app_assoc. reflexivity.
Qed.

(** One turn of the loop of [callGeminiForText]. *)
Lemma callGeminiForTextFrom_step (payload : Payload) (retryCount : Z)
  (remaining : nat) (attempt : Z) (w : World) :
  callGeminiForTextFrom H payload retryCount (S remaining) attempt w =
  match attemptText H payload (fetchCount w) with
  | Normal v => (Normal v, after w [Fetch payload])
  | Throws e =>
      if attempt >=? retryCount - 1 then (Throws e, after w [Fetch payload])
      else callGeminiForTextFrom H payload retryCount remaining (attempt + 1)
             (after w [Fetch payload; Sleep (1000 * (attempt + 1))])
  end.
Proof.
  cbn [callGeminiForTextFrom].
  unfold tryCatch, bind, fetch, settle, sleep, throw, attemptText.
  rewrite after_one_fetch.
  destruct (fetchApi H (fetchCount w) payload) as [r|e].
  - destruct (responseText r) as [t|e]; [reflexivity|].
    destruct (attempt >=? retryCount - 1); [reflexivity|].
    cbn [researchTextCache researchFilesCache fetchCount trace after].
    rewrite <- app_assoc. reflexivity.
  - destruct (attempt >=? retryCount - 1); [reflexivity|].
    cbn [researchTextCache researchFilesCache fetchCount trace after].
    rewrite <- app_assoc. reflexivity.
Qed.

Lemma callGeminiForJson_schedule (payload : Payload) (w : World) :
  let n := fetchCount w in
  let s := retrySchedule payload (attemptJson H payload n)
             (attemptJson H payload (S n)) (attemptJson H payload (S (S n))) in
  callGeminiForJson H payload defaultRetryCount w = (fst s, after w (snd s)).
Proof.
  cbv zeta. unfold callGeminiForJson, defaultRetryCount, retrySchedule.
  change (Z.to_nat 3) with 3%nat.
  rewrite callGeminiForJsonFrom_step.
  destruct (attemptJson H payload (fetchCount w)) as [v|e]; [reflexivity|].
  change (0 >=? 3 - 1) with false. cbv iota.
  rewrite callGeminiForJsonFrom_step, fetchCount_after_fetch_sleep.
  destruct (attemptJson H payload (S (fetchCount w))) as [v|e'];
    [now rewrite after_after|].
  change (0 + 1 >=? 3 - 1) with false. cbv iota.
  rewrite after_after, callGeminiForJsonFrom_step.
  replace (fetchCount (after w _)) with (S (S (fetchCount w))) by (cbn; lia).
  change (0 + 1 + 1 >=? 3 - 1) with true. cbv iota.
  rewrite after_after.
  destruct (attemptJson H payload (S (S (fetchCount w)))); reflexivity.
Qed.

Lemma callGeminiForText_schedule (payload : Payload) (w : World) :
  let n := fetchCount w in
  let s := retrySchedule payload (attemptText H payload n)
             (attemptText H payload (S n)) (attemptText H payload (S (S n))) in
  callGeminiForText H payload defaultRetryCount w = (fst s, after w (snd s)).
Proof.
  cbv zeta. unfold callGeminiForText, defaultRetryCount, retrySchedule.
  change (Z.to_nat 3) with 3%nat.
  rewrite callGeminiForTextFrom_step.
  destruct (attemptText H payload (fetchCount w)) as [v|e]; [reflexivity|].
  change (0 >=? 3 - 1) with false. cbv iota.
  rewrite callGeminiForTextFrom_step, fetchCount_after_fetch_sleep.
  destruct (attemptText H payload (S (fetchCount w))) as [v|e'];
    [now rewrite after_after|].
  change (0 + 1 >=? 3 - 1) with false. cbv iota.
  rewrite after_after, callGeminiForTextFrom_step.
  replace (fetchCount (after w _)) with (S (S (fetchCount w))) by (cbn; lia).
  change (0 + 1 + 1 >=? 3 - 1) with true. cbv iota.
  rewrite after_after.
  destruct (attemptText H payload (S (S (fetchCount w)))); reflexivity.
Qed.

Lemma retrySchedule_fetches {A} (payload : Payload) (o1 o2 o3 : Completion A) :
  (1 <= fetches (snd (retrySchedule payload o1 o2 o3)) <= 3)%nat.
Proof. destruct o1, o2; cbn; lia. Qed.

(** C2: with the default [retryCount] both clients follow the retry
    policy: they issue one request per attempt and at most three of them,
    pause 1000 ms after a first failure and 2000 ms after a second, return
    the result of the first attempt that succeeds, and when the third
    attempt fails too they throw its error as it is.  They leave the caches
    alone. *)
Theorem C2_three_attempts_with_linear_backoff (payload : Payload) (w : World) :
  let n := fetchCount w in
  let json := retrySchedule payload (attemptJson H payload n)
                (attemptJson H payload (S n)) (attemptJson H payload (S (S n))) in
  let text := retrySchedule payload (attemptText H payload n)
                (attemptText H payload (S n)) (attemptText H payload (S (S n))) in
  callGeminiForJson H payload defaultRetryCount w = (fst json, after w (snd json))
  /\ callGeminiForText H payload defaultRetryCount w = (fst text, after w (snd text))
  /\ (fetches (snd json) <= 3)%nat /\ (fetches (snd text) <= 3)%nat
  /\ (forall e1 e2 e3,
        attemptJson H payload n = Throws e1 ->
        attemptJson H payload (S n) = Throws e2 ->
        attemptJson H payload (S (S n)) = Throws e3 ->
        json = (Throws e3, [Fetch payload; Sleep 1000; Fetch payload;
                            Sleep 2000; Fetch payload]))
  /\ (forall e1 e2 e3,
        attemptText H payload n = Throws e1 ->
        attemptText H payload (S n) = Throws e2 ->
        attemptText H payload (S (S n)) = Throws e3 ->
        text = (Throws e3, [Fetch payload; Sleep 1000; Fetch payload;
                            Sleep 2000; Fetch payload]))
  /\ (forall e1 e2 v,
        attemptJson H payload n = Throws e1 ->
        attemptJson H payload (S n) = Throws e2 ->
        attemptJson H payload (S (S n)) = Normal v ->
        json = (Normal v, [Fetch payload; Sleep 1000; Fetch payload;
                           Sleep 2000; Fetch payload])).
Proof.
  intros n json text.
  split; [apply callGeminiForJson_schedule|].
  split; [apply callGeminiForText_schedule|].
  split; [apply retrySchedule_fetches|].
  split; [apply retrySchedule_fetches|].
  subst json text. unfold retrySchedule.
  repeat split; intros ? ? ? -> -> ->; reflexivity.
Qed.

End ClientOfTheApi.

(* ================================================================== *)
(** * The server: the corpus                                           *)
(* ================================================================== *)

Section Corpus.
Import JS Server Spec Samples.

Variable H : Host.

Lemma append_assoc (a b c : string) : ((a ++ b) ++ c = a ++ (b ++ c))%string.
Proof. induction a as [|x a IH]; cbn; [reflexivity | now rewrite IH]. Qed.

Lemma append_nil_r (a : string) : (a ++ "" = a)%string.
Proof. induction a as [|x a IH]; cbn; [reflexivity | now rewrite IH]. Qed.

(** The loop over files that all convert appends their blocks. *)
Lemma extractFiles_converting (l : list File) (w : World) :
  Forall (Converts H) l ->
  extractFiles H l w =
  (Normal tt,
   mkWorld (researchTextCache w ++ concatBlocks H l)
           (researchFilesCache w ++ map originalname l)
           (fetchCount w) (trace w)).
Proof.
  revert w. induction l as [|f l IH]; intros w Hall.
  - cbn. rewrite append_nil_r, app_nil_r. now destruct w.
  - inversion Hall as [|? ? [v Hv] Hl]; subst.
    cbn [extractFiles concatBlocks map]. unfold block. rewrite Hv.
    unfold fileText in Hv.
    unfold bind at 1 2. unfold appendText at 1, pushFile.
    cbn [researchTextCache researchFilesCache fetchCount trace].
    destruct (String.eqb (mimetype f) docxMimetype).
    + unfold bind at 1 2, settle. rewrite Hv. unfold appendText, bind.
      cbn [researchTextCache researchFilesCache fetchCount trace].
      rewrite (IH _ Hl).
      cbn [researchTextCache researchFilesCache fetchCount trace].
      rewrite !append_assoc, <- app_assoc. reflexivity.
    + injection Hv as <-. unfold bind, appendText.
      cbn [researchTextCache researchFilesCache fetchCount trace].
      rewrite (IH _ Hl).
      cbn [researchTextCache researchFilesCache fetchCount trace].
      rewrite !append_assoc, <- app_assoc. reflexivity.
Qed.

(** The loop stops at the first file whose conversion throws; by then the
    start marker and the name of that file are in the caches. *)
Lemma extractFiles_failing (pre post : list File) (f : File) (e : Error) (w : World) :
  Forall (Converts H) pre ->
  fileText H f = Throws e ->
  extractFiles H (pre ++ f :: post) w =
  (Throws e,
   mkWorld (researchTextCache w ++ concatBlocks H pre ++ startMarker (originalname f))
           (researchFilesCache w ++ map originalname pre ++ [originalname f])
           (fetchCount w) (trace w)).
Proof.
  revert w. induction pre as [|g pre IH]; intros w Hall Hf.
  - cbn [app extractFiles concatBlocks map]. unfold fileText in Hf.
    unfold bind at 1 2. unfold appendText at 1, pushFile.
    cbn [researchTextCache researchFilesCache fetchCount trace].
    destruct (String.eqb (mimetype f) docxMimetype); [|discriminate].
    unfold bind, settle. rewrite Hf. reflexivity.
  - inversion Hall as [|? ? [v Hv] Hl]; subst.
    cbn [app extractFiles concatBlocks map]. unfold block. rewrite Hv.
    unfold fileText in Hv.
    unfold bind at 1 2. unfold appendText at 1, pushFile.
    cbn [researchTextCache researchFilesCache fetchCount trace].
    destruct (String.eqb (mimetype g) docxMimetype).
    + unfold bind at 1 2, settle. rewrite Hv. unfold appendText, bind.
      cbn [researchTextCache researchFilesCache fetchCount trace].
      rewrite (IH _ Hl Hf).
      cbn [researchTextCache researchFilesCache fetchCount trace].
      rewrite !append_assoc, <- !app_assoc. reflexivity.
    + injection Hv as <-. unfold bind, appendText.
      cbn [researchTextCache researchFilesCache fetchCount trace].
      rewrite (IH _ Hl Hf).
      cbn [researchTextCache researchFilesCache fetchCount trace].
      rewrite !append_assoc, <- !app_assoc. reflexivity.
Qed.

(** The loop reads and writes the two caches only. *)
Lemma extractFiles_frame (l : list File) (t : string) (fl : list string) :
  exists r t' fl',
    forall n' tr',
      extractFiles H l (mkWorld t fl n' tr') = (r, mkWorld t' fl' n' tr').
Proof.
  revert t fl. induction l as [|f l IH]; intros t fl.
  - exists (Normal tt), t, fl. reflexivity.
  - cbn [extractFiles].
    destruct (String.eqb (mimetype f) docxMimetype) eqn:Hm.
    + destruct (convertToHtml H (buffer f)) as [v|e] eqn:Hc.
      * destruct (IH ((t ++ startMarker (originalname f)) ++ v ++ endMarker (originalname f))%string
                     (fl ++ [originalname f])%list) as (r & t' & fl' & E).
        exists r, t', fl'. intros n' tr'.
        unfold bind, appendText, pushFile, settle.
        cbn [researchTextCache researchFilesCache fetchCount trace].
        rewrite <- E. now rewrite !append_assoc.
      * exists (Throws e), (t ++ startMarker (originalname f))%string,
               (fl ++ [originalname f])%list.
        intros n' tr'. unfold bind, appendText, pushFile, settle.
        cbn [researchTextCache researchFilesCache fetchCount trace].
        reflexivity.
    + destruct (IH ((t ++ startMarker (originalname f))
                    ++ toStringUtf8 H (buffer f) ++ endMarker (originalname f))%string
                   (fl ++ [originalname f])%list) as (r & t' & fl' & E).
      exists r, t', fl'. intros n' tr'.
      unfold bind, appendText, pushFile.
      cbn [researchTextCache researchFilesCache fetchCount trace].
      rewrite <- E. now rewrite !append_assoc.
Qed.

(** Reading a property throws for a missing body only. *)
Lemma getProp_body (v : Value) (k : string) :
  (NoBody v -> exists e, getProp v k = Throws e)
  /\ (~ NoBody v -> getProp v k = Normal (field v k)).
Proof.
  unfold NoBody, field. split.
  - intros [-> | ->]; eexists; reflexivity.
  - intros Hv. destruct v; try reflexivity; exfalso; apply Hv; auto.
Qed.

Lemma multipart_has_body (req : ChartRequest) (fs : list File) :
  files req = Some fs -> ~ NoBody (body req).
Proof.
  destruct req as [fields uploaded|parsed]; [|discriminate].
  intros _ [E|E]; discriminate E.
Qed.

(** [generateChart] step by step: the read of the prompt, the extraction
    from emptied caches, the text of the prompt, and the call of the API
    when the extraction went through. *)
Lemma generateChart_steps (req : ChartRequest) (w : World) :
  generateChart H req w =
  match getProp (body req) "prompt" with
  | Throws e => (Throws e, w)
  | Normal userPrompt =>
      match extraction H req (emptied w) with
      | (Throws _, w1) =>
          (Normal (errorReply 500 "Error processing uploaded files."), w1)
      | (Normal _, w1) =>
          match ToString (numberText H) (inherits req) userPrompt with
          | Throws e => (Throws e, w1)
          | Normal promptText =>
              match callGeminiForJson H
                      (mkPayload GenerateChart (researchTextCache w1) [promptText])
                      defaultRetryCount w1
              with
              | (Normal ganttData, w2) => (Normal (mkReply 200 ganttData), w2)
              | (Throws e, w2) =>
                  (Normal (errorReply 500
                             ("Error generating chart data: " ++ message e)), w2)
              end
          end
      end
  end.
Proof.
  unfold generateChart, extraction, emptied.
  unfold bind at 1. unfold settle at 1.
  destruct (getProp (body req) "prompt") as [userPrompt|e]; [|reflexivity].
  unfold bind at 1 2 3. unfold setText, setFiles, tryCatch.
  cbn [researchTextCache researchFilesCache fetchCount trace].
  unfold bind at 1.
  destruct (files req) as [fs|].
  - destruct (extractFiles H (sortFiles H fs) _) as [[[]|e] w1];
      unfold ret; [|reflexivity].
    unfold bind at 1. unfold settle.
    destruct (ToString (numberText H) (inherits req) userPrompt) as [promptText|e]; [|reflexivity].
    unfold bind, getText, tryCatch, ret.
    destruct (callGeminiForJson H _ defaultRetryCount w1) as [[v|e] w2]; reflexivity.
  - unfold ret at 1 2. unfold bind at 1. unfold settle.
    destruct (ToString (numberText H) (inherits req) userPrompt) as [promptText|e]; [|reflexivity].
    unfold bind, getText, tryCatch, ret.
    cbn [researchTextCache].
    destruct (callGeminiForJson H _ defaultRetryCount _) as [[v|e] w2]; reflexivity.
Qed.

(** The extraction moves the caches from their contents alone, and moves
    nothing else. *)
Lemma extraction_frame (req : ChartRequest) (t : string) (fl : list string) :
  exists r t' fl',
    forall n tr, extraction H req (mkWorld t fl n tr) = (r, mkWorld t' fl' n tr).
Proof.
  unfold extraction. destruct (files req) as [fs|].
  - apply extractFiles_frame.
  - exists (Normal tt), t, fl. reflexivity.
Qed.

Lemma store_after (w : World) (events : list Event) : store (after w events) = store w.
Proof. reflexivity. Qed.

(** The caches after a request that has a body do not depend on the world
    it started in. *)
Lemma generateChart_store (req : ChartRequest) (w w' : World) :
  ~ NoBody (body req) ->
  store (snd (generateChart H req w)) = store (snd (generateChart H req w')).
Proof.
  intros Hbody. rewrite !generateChart_steps.
  rewrite (proj2 (getProp_body (body req) "prompt") Hbody). unfold emptied.
  destruct (extraction_frame req "" []) as (r & t' & fl' & E).
  rewrite !E. destruct r as [[]|e]; [|reflexivity].
  destruct (ToString (numberText H) _ _) as [promptText|e]; [|reflexivity].
  rewrite !callGeminiForJson_schedule. cbv zeta.
  cbn [researchTextCache].
  repeat match goal with
         | |- context [retrySchedule ?p ?a ?b ?c] =>
             destruct (retrySchedule p a b c) as [[?v|?e] ?evs]
         end; reflexivity.
Qed.

(** C1, counterexample: an upload of a text file and of a Word file that
    mammoth cannot open is answered with the extraction failure, and the
    caches then hold the whole block of the text file and the start marker
    of the Word file: a prefix of the new corpus stays in the store. *)
Lemma C1_partial_corpus_is_kept :
  let result := generateChart offlineHost (upload [reportDocx; notesTxt]) usedWorld in
  fst result = Normal (errorReply 500 "Error processing uploaded files.")
  /\ researchTextCache (snd result) =
       (startMarker "notes.txt" ++ "alpha" ++ endMarker "notes.txt"
        ++ startMarker "report.docx")%string
  /\ researchFilesCache (snd result) = ["notes.txt"; "report.docx"]
  /\ researchTextCache (snd result) <> "".
Proof.
  cbv zeta. split; [vm_compute; reflexivity|].
  split; [vm_compute; reflexivity|]. split; [vm_compute; reflexivity|].
  vm_compute. discriminate.
Qed.

(** C1, as the code has it: when the conversion of a file throws, the
    request ends with status 500 and "Error processing uploaded files.",
    no request goes to the API, and the caches hold what the loop had
    appended by then: the blocks of the files sorted before the failing
    one, then its start marker, and the names of all of these. *)
Theorem C1_failed_extraction_aborts_and_keeps_prefix
  (req : ChartRequest) (w : World) (fs pre post : list File) (f : File) (e : Error) :
  files req = Some fs ->
  sortFiles H fs = (pre ++ f :: post)%list ->
  Forall (Converts H) pre ->
  fileText H f = Throws e ->
  generateChart H req w =
  (Normal (errorReply 500 "Error processing uploaded files."),
   mkWorld (concatBlocks H pre ++ startMarker (originalname f))
           (map originalname pre ++ [originalname f])
           (fetchCount w) (trace w)).
Proof.
  intros Hfs Hsort Hpre Hf.
  rewrite generateChart_steps.
  rewrite (proj2 (getProp_body (body req) "prompt") (multipart_has_body req fs Hfs)).
  unfold extraction. rewrite Hfs, Hsort.
  rewrite (extractFiles_failing pre post f e _ Hpre Hf). reflexivity.
Qed.

(** C10, counterexample: a request that reaches the handler without a
    body (no multipart upload and no JSON, where express leaves [req.body]
    unset) makes it throw at the read of [req.body.prompt], its first
    statement: the caches are not emptied, and the corpus of the upload
    before stays in the store. *)
Lemma C10_request_without_body_keeps_the_old_corpus :
  let result := generateChart offlineHost (NotMultipart VUndefined) usedWorld in
  fst result
  = Throws (mkError "Cannot read properties of undefined (reading 'prompt')")
  /\ store (snd result) = store usedWorld
  /\ researchTextCache (snd result)
     = (startMarker "old.txt" ++ "old corpus" ++ endMarker "old.txt")%string
  /\ researchFilesCache (snd result) = ["old.txt"]
  /\ store (snd result) <> ("", []).
Proof.
  cbv zeta. repeat split; try (vm_compute; reflexivity).
  vm_compute. discriminate.
Qed.

(** C10, as the code has it: for a request that has a body, which every
    multipart upload has, the handler empties both caches before it
    extracts a file, so the request behaves as if it had started with empty
    caches; the caches it leaves, whether it succeeds, fails in the
    extraction, fails at the API or throws at the text of its prompt, are
    the same whatever the caches and the history were before, and when the
    extraction succeeds they hold the blocks and the names of the
    request's files and nothing else.  A request without a body makes the
    handler throw before that, and the world stays as it was. *)
Theorem C10_store_holds_only_the_new_request
  (req : ChartRequest) (w w' : World) :
  (~ NoBody (body req) ->
   generateChart H req w = generateChart H req (emptied w)
   /\ store (snd (generateChart H req w)) = store (snd (generateChart H req w')))
  /\ (forall fs, files req = Some fs ->
        ~ NoBody (body req)
        /\ (Forall (Converts H) fs ->
            store (snd (generateChart H req w)) =
              (concatBlocks H (sortFiles H fs), map originalname (sortFiles H fs))))
  /\ (NoBody (body req) -> exists e, generateChart H req w = (Throws e, w)).
Proof.
  split; [|split].
  - intros Hbody. split; [|now apply generateChart_store].
    rewrite !generateChart_steps.
    now rewrite (proj2 (getProp_body (body req) "prompt") Hbody).
  - intros fs Hfs.
    pose proof (multipart_has_body req fs Hfs) as Hbody.
    split; [exact Hbody|]. intros Hall.
    assert (Hsorted : Forall (Converts H) (sortFiles H fs)).
    { clear Hfs. induction fs as [|f fs IH]; [constructor|].
      inversion Hall as [|? ? Hf Hrest]; subst. specialize (IH Hrest).
      cbn [sortFiles]. induction (sortFiles H fs) as [|g l IHl]; cbn [insertFile].
      - now constructor.
      - inversion IH; subst.
        destruct (_ >? 0); constructor; auto. }
    rewrite generateChart_steps.
    rewrite (proj2 (getProp_body (body req) "prompt") Hbody).
    unfold extraction. rewrite Hfs.
    rewrite (extractFiles_converting _ _ Hsorted).
    destruct (ToString (numberText H) _ _) as [promptText|e]; [|reflexivity].
    rewrite callGeminiForJson_schedule. cbv zeta.
    match goal with
    | |- context [retrySchedule ?p ?a ?b ?c] =>
        destruct (retrySchedule p a b c) as [[?v|?e] ?evs]
    end; reflexivity.
  - intros Hbody. rewrite generateChart_steps.
    destruct (proj1 (getProp_body (body req) "prompt") Hbody) as (e & ->).
    now exists e.
Qed.

End Corpus.

Section CorpusWitnesses.
Import JS Server Spec Samples.

Lemma C1_failed_extraction_witness :
  generateChart offlineHost (upload [reportDocx; notesTxt]) usedWorld =
  (Normal (errorReply 500 "Error processing uploaded files."),
   mkWorld (concatBlocks offlineHost [notesTxt] ++ startMarker "report.docx")
           (map originalname [notesTxt] ++ ["report.docx"])
           (fetchCount usedWorld) (trace usedWorld)).
Proof.
  apply (C1_failed_extraction_aborts_and_keeps_prefix offlineHost
           (upload [reportDocx; notesTxt]) usedWorld
           [reportDocx; notesTxt] [notesTxt] [] reportDocx
           (mkError "Can't find end of central directory : is this a zip file ?")).
  - reflexivity.
  - vm_compute. reflexivity.
  - constructor; [|constructor]. exists "alpha"%string. vm_compute. reflexivity.
  - vm_compute. reflexivity.
Defined.

End CorpusWitnesses.

(* ================================================================== *)
(** * The server: the order of the files                               *)
(* ================================================================== *)

Section Sorting.
Import JS Server Spec Samples.

Variable H : Host.

#[local] Abbreviation le := (nameLe H).

Lemma insertFile_perm (f : File) (l : list File) :
  Permutation (insertFile H f l) (f :: l).
Proof.
  induction l as [|g l IH]; cbn [insertFile]; [reflexivity|].
  destruct (_ >? 0); [|reflexivity].
  rewrite IH. apply perm_swap.
Qed.

Lemma sortFiles_perm (l : list File) : Permutation (sortFiles H l) l.
Proof.
  induction l as [|f l IH]; cbn [sortFiles]; [reflexivity|].
  rewrite insertFile_perm. now constructor.
Qed.

#[local] Abbreviation Total := (TotalOn H).
#[local] Abbreviation Transitive := (TransitiveOn H).
#[local] Abbreviation Separated := (SeparatedOn H).

Lemma insertFile_sorted (f : File) (l : list File) :
  Total (f :: l) -> Transitive (f :: l) ->
  StronglySorted le l -> StronglySorted le (insertFile H f l).
Proof.
  intros Htot Htr. induction l as [|g l IH]; intros Hs; cbn [insertFile].
  - repeat constructor.
  - inversion Hs as [|? ? Hl Hg]; subst.
    destruct (Z.gtb_spec (localeCompare H (originalname f) (originalname g)) 0)
      as [Hgt|Hle].
    + constructor.
      * apply IH; [| |assumption].
        -- intros a b Ha Hb. apply Htot; cbn in *; tauto.
        -- intros a b c Ha Hb Hc. apply Htr; cbn in *; tauto.
      * assert (Hgf : le g f).
        { destruct (Htot f g) as [Hfg|Hgf]; cbn; auto.
          unfold nameLe, compareNames in Hfg. lia. }
        apply Forall_forall. intros x Hx.
        apply (Permutation_in _ (insertFile_perm f l)) in Hx.
        destruct Hx as [<-|Hx]; [assumption|].
        rewrite Forall_forall in Hg. now apply Hg.
    + constructor; [assumption|].
      constructor; [exact Hle|].
      apply Forall_forall. intros x Hx.
      rewrite Forall_forall in Hg.
      apply (Htr f g x); cbn; auto.
Qed.

Lemma sortFiles_sorted (l : list File) :
  Total l -> Transitive l -> StronglySorted le (sortFiles H l).
Proof.
  induction l as [|f l IH]; intros Htot Htr; cbn [sortFiles]; [constructor|].
  assert (Hin : forall x, In x (f :: sortFiles H l) -> In x (f :: l)).
  { intros x [<-|Hx]; [now left|].
    right. exact (Permutation_in _ (sortFiles_perm l) Hx). }
  apply insertFile_sorted.
  - intros a b Ha Hb. apply Htot; auto.
  - intros a b c Ha Hb Hc. apply Htr; auto.
  - apply IH.
    + intros a b Ha Hb. apply Htot; cbn; auto.
    + intros a b c Ha Hb Hc. apply Htr; cbn; auto.
Qed.

(** Two sorted arrangements of the same separated files are equal. *)
Lemma sorted_unique (l1 l2 : list File) :
  Separated l1 -> Permutation l1 l2 ->
  StronglySorted le l1 -> StronglySorted le l2 -> l1 = l2.
Proof.
  revert l2. induction l1 as [|a l1 IH]; intros l2 Hsep Hp H1 H2.
  - now apply Permutation_nil in Hp.
  - destruct l2 as [|b l2]; [now apply Permutation_sym, Permutation_nil in Hp|].
    inversion H1 as [|? ? Hs1 Ha]; subst.
    inversion H2 as [|? ? Hs2 Hb]; subst.
    rewrite Forall_forall in Ha, Hb.
    assert (Eab : a = b).
    { assert (Ia : In a (b :: l2)) by (apply (Permutation_in _ Hp); now left).
      assert (Ib : In b (a :: l1))
        by (apply (Permutation_in _ (Permutation_sym Hp)); now left).
      destruct Ia as [->|Ia]; [reflexivity|].
      destruct Ib as [->|Ib]; [reflexivity|].
      apply Hsep; cbn; auto. }
    subst b. f_equal. apply IH; auto.
    + intros f g Hf Hg. apply Hsep; cbn; auto.
    + now apply Permutation_cons_inv in Hp.
Qed.

Lemma sortFiles_order_independent (fs1 fs2 : list File) :
  Permutation fs1 fs2 -> Total fs1 -> Transitive fs1 -> Separated fs1 ->
  sortFiles H fs1 = sortFiles H fs2.
Proof.
  intros Hp Htot Htr Hsep.
  assert (Hin : forall x, In x fs2 -> In x fs1)
    by (intros x; apply Permutation_in; now symmetry).
  apply sorted_unique.
  - intros f g Hf Hg. apply Hsep; apply (Permutation_in _ (sortFiles_perm fs1)); auto.
  - rewrite sortFiles_perm, Hp. symmetry. apply sortFiles_perm.
  - now apply sortFiles_sorted.
  - apply sortFiles_sorted.
    + intros f g Hf Hg. apply Htot; auto.
    + intros f g h Hf Hg Hh. apply Htr; auto.
Qed.

(** C3, as the code has it: the files are put in order by a stable sort
    under [localeCompare], the collation of the runtime.  When that
    collation is a total and transitive order on the names of an upload and
    tells any two of its files apart, every order of the upload gives the
    same sorted list, hence the same request to the API, the same caches
    and the same reply. *)
Theorem C3_corpus_does_not_depend_on_upload_order
  (fs1 fs2 : list File) (fields : list (string * Value)) (w : World) :
  Permutation fs1 fs2 ->
  (forall f g, In f fs1 -> In g fs1 ->
     compareNames H f g <= 0 \/ compareNames H g f <= 0) ->
  (forall f g h, In f fs1 -> In g fs1 -> In h fs1 ->
     compareNames H f g <= 0 -> compareNames H g h <= 0 -> compareNames H f h <= 0) ->
  (forall f g, In f fs1 -> In g fs1 ->
     compareNames H f g <= 0 -> compareNames H g f <= 0 -> f = g) ->
  sortFiles H fs1 = sortFiles H fs2
  /\ generateChart H (Multipart fields fs1) w
     = generateChart H (Multipart fields fs2) w.
Proof.
  intros Hp Htot Htr Hsep.
  assert (E : sortFiles H fs1 = sortFiles H fs2)
    by (now apply sortFiles_order_independent).
  split; [exact E|].
  rewrite !generateChart_steps. unfold extraction. cbn [files body].
  now rewrite E.
Qed.

End Sorting.

Section SortingWitnesses.
Import JS Server Spec Samples.

(** C3, counterexample: two files of one name and different contents (the
    comparator is 0 on a name and itself whatever the collation is) stay in
    the order of the upload, so the two orders of the upload leave
    different corpora. *)
Lemma C3_same_name_files_keep_upload_order :
  Permutation [notesTxt; notesTxt'] [notesTxt'; notesTxt]
  /\ researchTextCache
       (snd (generateChart offlineHost (upload [notesTxt; notesTxt']) freshWorld))
     <> researchTextCache
          (snd (generateChart offlineHost (upload [notesTxt'; notesTxt]) freshWorld)).
Proof.
  split; [apply perm_swap|]. vm_compute. discriminate.
Qed.

Lemma C3_corpus_order_witness :
  sortFiles offlineHost [notesTxt; agendaMd] = sortFiles offlineHost [agendaMd; notesTxt]
  /\ generateChart offlineHost (upload [notesTxt; agendaMd]) freshWorld
     = generateChart offlineHost (upload [agendaMd; notesTxt]) freshWorld.
Proof.
  apply (C3_corpus_does_not_depend_on_upload_order offlineHost
           [notesTxt; agendaMd] [agendaMd; notesTxt]).
  - apply perm_swap.
  - intros f g [<-|[<-|[]]] [<-|[<-|[]]]; vm_compute;
      (left; discriminate) || (right; discriminate).
  - intros f g h [<-|[<-|[]]] [<-|[<-|[]]] [<-|[<-|[]]]; vm_compute; intros A B C;
      solve [discriminate | exfalso; (now apply A) || (now apply B)].
  - intros f g [<-|[<-|[]]] [<-|[<-|[]]]; try reflexivity; vm_compute; intros A B;
      exfalso; (now apply A) || (now apply B).
Defined.

End SortingWitnesses.

(* ================================================================== *)
(** * The server: validation of the requests                           *)
(* ================================================================== *)

Section Validation.
Import JS Server Spec Samples.

Variable H : Host.

Lemma missingText_blank (v : Value) : Blank v -> missingText v = true.
Proof.
  unfold Blank, missingText. intros Hb.
  destruct v as [| |b|q|s|l|p]; cbn; rewrite ?orb_true_r; try reflexivity.
  rewrite (Hb s eq_refl). cbn. apply orb_true_r.
Qed.

Lemma missing_falsy (v : Value) : Missing v -> truthy v = false.
Proof. intros [->|[->| ->]]; reflexivity. Qed.

(** The pattern [const { ... } = req.body] throws for a missing body only. *)
Lemma destructure_body (v : Value) (source k : string) :
  (NoBody v -> exists e, destructure v source k = Throws e)
  /\ (~ NoBody v -> destructure v source k = Normal (field v k)).
Proof.
  unfold NoBody, field. split.
  - intros [-> | ->]; eexists; reflexivity.
  - intros Hv. destruct v; try reflexivity; exfalso; apply Hv; auto.
Qed.

(** The two validating handlers on a request that has a body. *)
Lemma askQuestion_checks (body : Value) (w : World) :
  ~ NoBody body ->
  askQuestion H body w =
  let taskName := field body "taskName" in
  let entity := field body "entity" in
  let question := field body "question" in
  if missingText question then
    (Normal (errorReply 400 "Question is required and must be non-empty"), w)
  else if missingText entity then
    (Normal (errorReply 400 "Entity is required"), w)
  else if missingText taskName then
    (Normal (errorReply 400 "Task name is required"), w)
  else if strlen (trim (asString question)) >? 1000 then
    (Normal (errorReply 400 "Question too long (max 1000 characters)"), w)
  else
    let payload :=
      mkPayload AskQuestion (researchTextCache w)
                [asString taskName; asString entity; asString question] in
    let s := retrySchedule payload (attemptText H payload (fetchCount w))
               (attemptText H payload (S (fetchCount w)))
               (attemptText H payload (S (S (fetchCount w)))) in
    (Normal match fst s with
            | Normal textResponse =>
                mkReply 200 (VObject [("answer", VString textResponse)])
            | Throws e => errorReply 500 ("Error generating answer: " ++ message e)
            end,
     after w (snd s)).
Proof.
  intros Hbody. unfold askQuestion.
  rewrite !(proj2 (destructure_body body "req.body" _) Hbody).
  unfold bind at 1 2 3. unfold settle. cbv zeta.
  destruct (missingText (field body "question")); [reflexivity|].
  destruct (missingText (field body "entity")); [reflexivity|].
  destruct (missingText (field body "taskName")); [reflexivity|].
  destruct (_ >? 1000); [reflexivity|].
  unfold bind at 1. unfold getText. unfold tryCatch, bind.
  rewrite callGeminiForText_schedule. cbv zeta.
  destruct (fst (retrySchedule _ _ _ _)); reflexivity.
Qed.

Lemma getTaskAnalysis_checks (body : Value) (w : World) :
  ~ NoBody body ->
  getTaskAnalysis H body w =
  let taskName := field body "taskName" in
  let entity := field body "entity" in
  if negb (truthy taskName) || negb (truthy entity) then
    (Normal (errorReply 400 "Missing taskName or entity"), w)
  else
    match ToString (numberText H) true entity with
    | Throws e => (Throws e, w)
    | Normal entityText =>
        match ToString (numberText H) true taskName with
        | Throws e => (Throws e, w)
        | Normal taskNameText =>
            let payload :=
              mkPayload GetTaskAnalysis (researchTextCache w)
                        [entityText; taskNameText] in
            let s := retrySchedule payload (attemptJson H payload (fetchCount w))
                       (attemptJson H payload (S (fetchCount w)))
                       (attemptJson H payload (S (S (fetchCount w)))) in
            (Normal match fst s with
                    | Normal analysisData => mkReply 200 analysisData
                    | Throws e =>
                        errorReply 500
                          ("Error generating task analysis: " ++ message e)
                    end,
             after w (snd s))
        end
    end.
Proof.
  intros Hbody. unfold getTaskAnalysis.
  rewrite !(proj2 (destructure_body body "req.body" _) Hbody).
  unfold bind at 1 2. unfold settle at 1 2. cbv zeta.
  destruct (negb (truthy (field body "taskName")) || negb (truthy (field body "entity")));
    [reflexivity|].
  unfold bind at 1. unfold getText. unfold bind at 1. unfold settle at 1.
  destruct (ToString (numberText H) true (field body "entity")) as [entityText|e];
    [|reflexivity].
  unfold bind at 1. unfold settle at 1.
  destruct (ToString (numberText H) true (field body "taskName")) as [taskNameText|e];
    [|reflexivity].
  unfold tryCatch, bind.
  rewrite callGeminiForJson_schedule. cbv zeta.
  destruct (fst (retrySchedule _ _ _ _)); reflexivity.
Qed.

(** Without a body both handlers throw at their first statement. *)
Lemma handlers_without_body (body : Value) (w : World) :
  NoBody body ->
  (exists e, askQuestion H body w = (Throws e, w))
  /\ (exists e, getTaskAnalysis H body w = (Throws e, w)).
Proof.
  intros [-> | ->]; split; eexists; reflexivity.
Qed.

(** C5, as the code has it: on a request that has a body, a question
    that is no string, is blank once trimmed or is longer than 1000
    characters once trimmed, and an entity or task name that is no string or
    blank, make [/ask-question] answer 400 with one of its four messages; a
    task name or entity that is absent, null or empty makes
    [/get-task-analysis] answer 400 with "Missing taskName or entity".  A
    request without a body is not answered by either handler, which throws
    at the destructuring of [req.body].  In each case the world is left as
    it was: no request has gone to the API and the caches are untouched. *)
Theorem C5_invalid_requests_never_reach_the_api (body : Value) (w : World) :
  (Blank (field body "question") \/ TooLong (field body "question")
   \/ Blank (field body "entity") \/ Blank (field body "taskName") ->
   snd (askQuestion H body w) = w
   /\ (~ NoBody body ->
       exists msg,
         In msg validationMessages
         /\ askQuestion H body w = (Normal (errorReply 400 msg), w))
   /\ (NoBody body -> exists e, askQuestion H body w = (Throws e, w)))
  /\ (Missing (field body "taskName") \/ Missing (field body "entity") ->
      snd (getTaskAnalysis H body w) = w
      /\ (~ NoBody body ->
          getTaskAnalysis H body w
          = (Normal (errorReply 400 "Missing taskName or entity"), w))
      /\ (NoBody body -> exists e, getTaskAnalysis H body w = (Throws e, w))).
Proof.
  assert (Hask : Blank (field body "question") \/ TooLong (field body "question")
                 \/ Blank (field body "entity") \/ Blank (field body "taskName") ->
                 ~ NoBody body ->
                 exists msg,
                   In msg validationMessages
                   /\ askQuestion H body w = (Normal (errorReply 400 msg), w)).
  { intros Hbad Hbody. rewrite (askQuestion_checks body w Hbody). cbv zeta.
    unfold validationMessages.
    destruct (missingText (field body "question")) eqn:Eq;
      [eexists; split; [|reflexivity]; cbn; tauto|].
    destruct (missingText (field body "entity")) eqn:Ee;
      [eexists; split; [|reflexivity]; cbn; tauto|].
    destruct (missingText (field body "taskName")) eqn:Et;
      [eexists; split; [|reflexivity]; cbn; tauto|].
    destruct Hbad as [Hb|[(s & Hs & Hlong)|[Hb|Hb]]];
      try (apply missingText_blank in Hb; congruence).
    rewrite Hs. cbn [asString].
    destruct (Z.gtb_spec (strlen (trim s)) 1000); [|lia].
    eexists; split; [|reflexivity]; cbn; tauto. }
  assert (Hanalysis : Missing (field body "taskName") \/ Missing (field body "entity") ->
                      ~ NoBody body ->
                      getTaskAnalysis H body w
                      = (Normal (errorReply 400 "Missing taskName or entity"), w)).
  { intros Hm Hbody. rewrite (getTaskAnalysis_checks body w Hbody). cbv zeta.
    destruct Hm as [Hm|Hm]; apply missing_falsy in Hm; rewrite Hm;
      cbn [negb orb]; rewrite ?orb_true_r; reflexivity. }
  assert (Hdec : NoBody body \/ ~ NoBody body).
  { unfold NoBody. destruct body; try (right; intros [E|E]; discriminate E); auto. }
  split.
  - intros Hbad. split; [|split].
    + destruct Hdec as [Hno|Hbody].
      * destruct (proj1 (handlers_without_body body w Hno)) as (e & ->). reflexivity.
      * destruct (Hask Hbad Hbody) as (msg & _ & ->). reflexivity.
    + exact (Hask Hbad).
    + intros Hno. exact (proj1 (handlers_without_body body w Hno)).
  - intros Hm. split; [|split].
    + destruct Hdec as [Hno|Hbody].
      * destruct (proj2 (handlers_without_body body w Hno)) as (e & ->). reflexivity.
      * now rewrite (Hanalysis Hm Hbody).
    + exact (Hanalysis Hm).
    + intros Hno. exact (proj2 (handlers_without_body body w Hno)).
Qed.

End Validation.

Section ValidationWitnesses.
Import JS Server Spec Samples.

(** C5, counterexample: a request that reaches the two handlers without
    a body lacks the question, the entity and the task name, and gets no
    answer of status 400 with a message: the handlers throw a [TypeError]
    where they take [req.body] apart. *)
Lemma C5_request_without_body_is_not_answered :
  Blank (field VUndefined "question")
  /\ Missing (field VUndefined "entity")
  /\ Missing (field VUndefined "taskName")
  /\ fst (askQuestion offlineHost VUndefined usedWorld)
     = Throws (mkError ("Cannot destructure property 'taskName' of 'req.body' "
                        ++ "as it is undefined."))
  /\ fst (getTaskAnalysis offlineHost VUndefined usedWorld)
     = Throws (mkError ("Cannot destructure property 'taskName' of 'req.body' "
                        ++ "as it is undefined."))
  /\ ~ (exists msg,
          fst (askQuestion offlineHost VUndefined usedWorld)
          = Normal (errorReply 400 msg))
  /\ ~ (exists msg,
          fst (getTaskAnalysis offlineHost VUndefined usedWorld)
          = Normal (errorReply 400 msg)).
Proof.
  split; [intros s E; discriminate E|].
  split; [left; reflexivity|]. split; [left; reflexivity|].
  split; [reflexivity|]. split; [reflexivity|].
  split; intros (msg & E); discriminate E.
Qed.

Lemma C5_invalid_requests_witness :
  (snd (askQuestion offlineHost
          (VObject [("taskName", VString "Vendor selection");
                    ("entity", VString "Procurement");
                    ("question", VString "   ")]) usedWorld) = usedWorld
   /\ exists msg,
        In msg validationMessages
        /\ askQuestion offlineHost
             (VObject [("taskName", VString "Vendor selection");
                       ("entity", VString "Procurement");
                       ("question", VString "   ")]) usedWorld
           = (Normal (errorReply 400 msg), usedWorld))
  /\ getTaskAnalysis offlineHost (VObject [("entity", VString "Procurement")]) usedWorld
     = (Normal (errorReply 400 "Missing taskName or entity"), usedWorld).
Proof.
  split.
  - destruct (proj1 (C5_invalid_requests_never_reach_the_api offlineHost
                       (VObject [("taskName", VString "Vendor selection");
                                 ("entity", VString "Procurement");
                                 ("question", VString "   ")]) usedWorld))
      as (Hw & Hmsg & _).
    + left. intros s [= <-]. reflexivity.
    + split; [exact Hw|]. apply Hmsg. intros [E|E]; discriminate E.
  - destruct (proj2 (C5_invalid_requests_never_reach_the_api offlineHost
                       (VObject [("entity", VString "Procurement")]) usedWorld))
      as (_ & Hreply & _).
    + left. left. reflexivity.
    + apply Hreply. intros [E|E]; discriminate E.
Defined.

End ValidationWitnesses.

(* ================================================================== *)
(** * The form page: what a submit shows                               *)
(* ================================================================== *)

Section FormPage.
Import JS Spec Samples Client.

Variable ToString : Value -> string.

Lemma validateChart_empty (props : list (string * Value)) (columns rows : list Value) :
  lookup "timeColumns" props = VArray columns ->
  lookup "data" props = VArray rows ->
  columns = [] \/ rows = [] ->
  validateChart (VObject props) = Throws nothingFound.
Proof.
  intros Hc Hr Hempty. unfold validateChart. cbn [truthy negb getProp andThen].
  rewrite Hc, Hr. cbn [truthy negb getProp andThen String.eqb Ascii.eqb Bool.eqb].
  destruct Hempty as [->| ->]; [reflexivity|].
  destruct columns; reflexivity.
Qed.

Lemma validateChart_missing (props : list (string * Value)) :
  truthy (lookup "timeColumns" props) = false \/ truthy (lookup "data" props) = false ->
  validateChart (VObject props) = Throws invalidStructure.
Proof.
  intros Hm. unfold validateChart. cbn [truthy negb getProp andThen].
  destruct (truthy (lookup "timeColumns" props)) eqn:Ec; cbn [negb]; [|reflexivity].
  destruct Hm as [Hm|Hm]; [discriminate|]. now rewrite Hm.
Qed.

Lemma serverErrorMessage_of_reply (response : FetchedResponse) (code : Z) (msg : string) :
  msg <> "" ->
  carries response (Server.errorReply code msg) ->
  serverErrorMessage ToString response = msg.
Proof.
  intros Hne (_ & _ & (ct & Hct & Hinc) & Hjson).
  unfold serverErrorMessage. rewrite Hct, Hinc, Hjson.
  assert (Hcttrue : truthy (VString ct) = true).
  { destruct ct; [discriminate Hinc|reflexivity]. }
  rewrite Hcttrue. cbn.
  destruct msg; [congruence|reflexivity].
Qed.

(** C9, as the code has it: for a chart that arrived well, a missing (or
    otherwise falsy) [timeColumns] or [data] shows "Invalid chart data
    structure received from server", and an empty [timeColumns] or [data]
    array shows the message that no tasks or time columns were found and
    that the files or the prompt should be revisited.  Both differ from
    what a failure of the API shows, which is the server's "Error
    generating chart data: ..." with the underlying message. *)
Theorem C9_empty_chart_has_its_own_message
  (fileCount : Z) (promptValue : string) (response : FetchedResponse)
  (props : list (string * Value)) :
  fileCount <> 0 -> trim promptValue <> "" ->
  ok response = true -> json response = Normal (VObject props) ->
  (forall columns rows,
      lookup "timeColumns" props = VArray columns ->
      lookup "data" props = VArray rows ->
      columns = [] \/ rows = [] ->
      handleChartGenerate ToString fileCount promptValue (Normal response)
      = ShowError ("Error: The AI was unable to find any tasks or time columns in the "
                   ++ "provided documents. Please check your files or try a different prompt."))
  /\ (truthy (lookup "timeColumns" props) = false \/ truthy (lookup "data" props) = false ->
      handleChartGenerate ToString fileCount promptValue (Normal response)
      = ShowError "Error: Invalid chart data structure received from server")
  /\ (forall failed cause,
        ok failed = false ->
        carries failed (Server.errorReply 500 ("Error generating chart data: " ++ cause)) ->
        handleChartGenerate ToString fileCount promptValue (Normal failed)
        = ShowError ("Error: Error generating chart data: " ++ cause)
        /\ ShowError ("Error: Error generating chart data: " ++ cause)
           <> ShowError ("Error: " ++ message nothingFound)
        /\ ShowError ("Error: Error generating chart data: " ++ cause)
           <> ShowError ("Error: " ++ message invalidStructure)).
Proof.
  intros Hfiles Hprompt Hok Hjson.
  assert (Hstart : forall fetched,
             handleChartGenerate ToString fileCount promptValue fetched =
             match
               andThen fetched (fun response =>
                 if negb (ok response)
                 then Throws (mkError (serverErrorMessage ToString response))
                 else andThen (json response) (fun ganttData =>
                        andThen (validateChart ganttData) (fun _ => Normal ganttData)))
             with
             | Normal ganttData => OpenChart ganttData
             | Throws error => ShowError ("Error: " ++ message error)
             end).
  { intros fetched. unfold handleChartGenerate.
    destruct (Z.eqb_spec fileCount 0); [contradiction|].
    destruct (trim promptValue); [contradiction|]. reflexivity. }
  split; [|split].
  - intros columns rows Hc Hr Hempty. rewrite Hstart. cbn [andThen].
    rewrite Hok, Hjson. cbn [negb andThen].
    now rewrite (validateChart_empty props columns rows Hc Hr Hempty).
  - intros Hm. rewrite Hstart. cbn [andThen].
    rewrite Hok, Hjson. cbn [negb andThen].
    now rewrite (validateChart_missing props Hm).
  - intros failed cause Hnok Hcarries. rewrite Hstart. cbn [andThen].
    rewrite Hnok. cbn [negb message].
    assert (Hne : ("Error generating chart data: " ++ cause)%string <> "")
      by (cbn; discriminate).
    rewrite (serverErrorMessage_of_reply failed 500 _ Hne Hcarries).
    split; [reflexivity|]. split; intros E; cbn in E; discriminate E.
Qed.

End FormPage.

Section FormPageWitnesses.
Import JS Spec Samples Client.

(** C9, counterexample: a chart without [timeColumns] is shown as an
    invalid structure, not with the message about revisiting the files or
    the prompt. *)
Lemma C9_missing_columns_shown_as_invalid_structure :
  handleChartGenerate (fun _ => "") 1 "Build the roadmap"
    (Normal (okResponse chartWithoutColumns))
  = ShowError "Error: Invalid chart data structure received from server"
  /\ handleChartGenerate (fun _ => "") 1 "Build the roadmap"
       (Normal (okResponse chartWithoutColumns))
     <> ShowError ("Error: " ++ message nothingFound).
Proof.
  split; [vm_compute; reflexivity | vm_compute; discriminate].
Qed.

Lemma C9_empty_chart_witness :
  handleChartGenerate (fun _ => "") 1 "Build the roadmap"
    (Normal (okResponse chartWithoutRows))
  = ShowError ("Error: The AI was unable to find any tasks or time columns in the "
               ++ "provided documents. Please check your files or try a different prompt.").
Proof.
  refine (proj1 (C9_empty_chart_has_its_own_message (fun _ => "") 1 "Build the roadmap"
                   (okResponse chartWithoutRows)
                   [("title", VString "Roadmap");
                    ("timeColumns", VArray [VString "2025"]);
                    ("data", VArray []);
                    ("legend", VArray [])] _ _ _ _)
                [VString "2025"] [] _ _ _).
  - discriminate.
  - vm_compute. discriminate.
  - reflexivity.
  - reflexivity.
  - reflexivity.
  - reflexivity.
  - now right.
Defined.

End FormPageWitnesses.

(* ================================================================== *)
(** * The completion client for any retry count                        *)
(* ================================================================== *)

Section RetryLoop.
Import JS Server Spec Samples Extra.

Variable H : Host.

Lemma after_nil (w : World) : after w [] = w.
Proof. destruct w. unfold after. cbn. now rewrite Nat.add_0_r, app_nil_r. Qed.

Lemma fetches_scheduleFrom (payload : Payload) (m : nat) (attempt : Z) :
  fetches (scheduleFrom payload attempt m) = m.
Proof.
  revert attempt. induction m as [|m IH]; intros attempt; [reflexivity|].
  destruct m as [|m]; [reflexivity|].
  change (scheduleFrom payload attempt (S (S m)))
    with (Fetch payload :: Sleep (1000 * (attempt + 1))
            :: scheduleFrom payload (attempt + 1) (S m)).
  unfold fetches in *. cbn [filter isFetch List.length]. now rewrite IH.
Qed.

Lemma scheduleFrom_next (payload : Payload) (attempt : Z) (m : nat) :
  (1 <= m)%nat ->
  scheduleFrom payload attempt (S m)
  = ([Fetch payload; Sleep (1000 * (attempt + 1))]
       ++ scheduleFrom payload (attempt + 1) m)%list.
Proof. destruct m; [lia | reflexivity]. Qed.

(** The loop of [callGeminiForJson] from any attempt on: it stops after
    [m] attempts, [m] being the first that succeeds or else the last one
    that is left, and ends as that attempt ends. *)
Lemma callGeminiForJsonFrom_run (payload : Payload) (retryCount : Z)
  (remaining : nat) (attempt : Z) (w : World) :
  (1 <= remaining)%nat ->
  attempt = retryCount - Z.of_nat remaining ->
  exists m,
    (1 <= m <= remaining)%nat
    /\ callGeminiForJsonFrom H payload retryCount remaining attempt w
       = (attemptJson H payload (fetchCount w + m - 1),
          after w (scheduleFrom payload attempt m))
    /\ (forall k, (k < m - 1)%nat -> ~ isNormal (attemptJson H payload (fetchCount w + k)))
    /\ ((m < remaining)%nat -> isNormal (attemptJson H payload (fetchCount w + m - 1))).
Proof.
  revert attempt w. induction remaining as [|remaining IH]; intros attempt w Hpos Hatt;
    [lia|].
  rewrite callGeminiForJsonFrom_step.
  destruct (attemptJson H payload (fetchCount w)) as [v|e] eqn:E.
  - exists 1%nat. replace (fetchCount w + 1 - 1)%nat with (fetchCount w) by lia.
    rewrite E. repeat split; try lia; try reflexivity; intros k Hk; lia.
  - destruct (Z.geb_spec attempt (retryCount - 1)) as [Hlast|Hmore].
    + assert (remaining = 0%nat) by lia. subst remaining.
      exists 1%nat. replace (fetchCount w + 1 - 1)%nat with (fetchCount w) by lia.
      rewrite E. repeat split; try lia; try reflexivity; intros k Hk; lia.
    + assert (Hrem : (1 <= remaining)%nat) by lia.
      destruct (IH (attempt + 1)
                   (after w [Fetch payload; Sleep (1000 * (attempt + 1))])
                   Hrem ltac:(lia)) as (m & Hm & Hrun & Hfail & Hok).
      rewrite fetchCount_after_fetch_sleep in Hrun, Hfail, Hok.
      exists (S m).
      replace (fetchCount w + S m - 1)%nat with (S (fetchCount w) + m - 1)%nat by lia.
      split; [lia|]. split; [|split].
      * rewrite Hrun, after_after, scheduleFrom_next by lia. reflexivity.
      * intros k Hk. destruct k as [|k].
        -- rewrite Nat.add_0_r, E. cbn. tauto.
        -- replace (fetchCount w + S k)%nat with (S (fetchCount w) + k)%nat by lia.
           apply Hfail. lia.
      * intros Hlt. apply Hok. lia.
Qed.

Lemma callGeminiForTextFrom_run (payload : Payload) (retryCount : Z)
  (remaining : nat) (attempt : Z) (w : World) :
  (1 <= remaining)%nat ->
  attempt = retryCount - Z.of_nat remaining ->
  exists m,
    (1 <= m <= remaining)%nat
    /\ callGeminiForTextFrom H payload retryCount remaining attempt w
       = (attemptText H payload (fetchCount w + m - 1),
          after w (scheduleFrom payload attempt m))
    /\ (forall k, (k < m - 1)%nat -> ~ isNormal (attemptText H payload (fetchCount w + k)))
    /\ ((m < remaining)%nat -> isNormal (attemptText H payload (fetchCount w + m - 1))).
Proof.
  revert attempt w. induction remaining as [|remaining IH]; intros attempt w Hpos Hatt;
    [lia|].
  rewrite callGeminiForTextFrom_step.
  destruct (attemptText H payload (fetchCount w)) as [v|e] eqn:E.
  - exists 1%nat. replace (fetchCount w + 1 - 1)%nat with (fetchCount w) by lia.
    rewrite E. repeat split; try lia; try reflexivity; intros k Hk; lia.
  - destruct (Z.geb_spec attempt (retryCount - 1)) as [Hlast|Hmore].
    + assert (remaining = 0%nat) by lia. subst remaining.
      exists 1%nat. replace (fetchCount w + 1 - 1)%nat with (fetchCount w) by lia.
      rewrite E. repeat split; try lia; try reflexivity; intros k Hk; lia.
    + assert (Hrem : (1 <= remaining)%nat) by lia.
      destruct (IH (attempt + 1)
                   (after w [Fetch payload; Sleep (1000 * (attempt + 1))])
                   Hrem ltac:(lia)) as (m & Hm & Hrun & Hfail & Hok).
      rewrite fetchCount_after_fetch_sleep in Hrun, Hfail, Hok.
      exists (S m).
      replace (fetchCount w + S m - 1)%nat with (S (fetchCount w) + m - 1)%nat by lia.
      split; [lia|]. split; [|split].
      * rewrite Hrun, after_after, scheduleFrom_next by lia. reflexivity.
      * intros k Hk. destruct k as [|k].
        -- rewrite Nat.add_0_r, E. cbn. tauto.
        -- replace (fetchCount w + S k)%nat with (S (fetchCount w) + k)%nat by lia.
           apply Hfail. lia.
      * intros Hlt. apply Hok. lia.
Qed.

(** X1: for every positive [retryCount], [callGeminiForJson] makes [m]
    attempts, where [m] is the number of the first attempt that succeeds,
    or [retryCount] when none does; it ends as the m-th attempt ends (with
    its parsed value, or with its error as thrown), has sent [m] requests
    and has paused [1000 * k] ms after each failed attempt [k < m]; the
    caches are untouched.  The same holds for [callGeminiForText]. *)
Theorem X1_retry_loop_for_any_count (payload : Payload) (retryCount : Z) (w : World) :
  1 <= retryCount ->
  (exists m,
     (1 <= m <= Z.to_nat retryCount)%nat
     /\ callGeminiForJson H payload retryCount w
        = (attemptJson H payload (fetchCount w + m - 1),
           after w (scheduleFrom payload 0 m))
     /\ (forall k, (k < m - 1)%nat -> ~ isNormal (attemptJson H payload (fetchCount w + k)))
     /\ ((m < Z.to_nat retryCount)%nat ->
         isNormal (attemptJson H payload (fetchCount w + m - 1))))
  /\ (exists m,
        (1 <= m <= Z.to_nat retryCount)%nat
        /\ callGeminiForText H payload retryCount w
           = (attemptText H payload (fetchCount w + m - 1),
              after w (scheduleFrom payload 0 m))
        /\ (forall k, (k < m - 1)%nat -> ~ isNormal (attemptText H payload (fetchCount w + k)))
        /\ ((m < Z.to_nat retryCount)%nat ->
            isNormal (attemptText H payload (fetchCount w + m - 1)))).
Proof.
  intros Hpos. split.
  - apply callGeminiForJsonFrom_run; lia.
  - apply callGeminiForTextFrom_run; lia.
Qed.

End RetryLoop.

Section RetryLoopWitnesses.
Import JS Server Spec Samples Extra.

Lemma X1_retry_loop_witness :
  (exists m,
     (1 <= m <= Z.to_nat 5)%nat
     /\ callGeminiForJson offlineHost (mkPayload AskQuestion "" []) 5 freshWorld
        = (attemptJson offlineHost (mkPayload AskQuestion "" []) (fetchCount freshWorld + m - 1),
           after freshWorld (scheduleFrom (mkPayload AskQuestion "" []) 0 m))
     /\ (forall k, (k < m - 1)%nat ->
           ~ isNormal (attemptJson offlineHost (mkPayload AskQuestion "" [])
                         (fetchCount freshWorld + k)))
     /\ ((m < Z.to_nat 5)%nat ->
         isNormal (attemptJson offlineHost (mkPayload AskQuestion "" [])
                     (fetchCount freshWorld + m - 1))))
  /\ (exists m,
        (1 <= m <= Z.to_nat 5)%nat
        /\ callGeminiForText offlineHost (mkPayload AskQuestion "" []) 5 freshWorld
           = (attemptText offlineHost (mkPayload AskQuestion "" []) (fetchCount freshWorld + m - 1),
              after freshWorld (scheduleFrom (mkPayload AskQuestion "" []) 0 m))
        /\ (forall k, (k < m - 1)%nat ->
              ~ isNormal (attemptText offlineHost (mkPayload AskQuestion "" [])
                            (fetchCount freshWorld + k)))
        /\ ((m < Z.to_nat 5)%nat ->
            isNormal (attemptText offlineHost (mkPayload AskQuestion "" [])
                        (fetchCount freshWorld + m - 1)))).
Proof.
  apply (X1_retry_loop_for_any_count offlineHost (mkPayload AskQuestion "" []) 5 freshWorld).
  lia.
Defined.

End RetryLoopWitnesses.

(* ================================================================== *)
(** * The server: answers of the API and replies of the handlers       *)
(* ================================================================== *)

Section Handlers.
Import JS Server Spec Samples Extra.

Variable H : Host.

(** X2: an attempt yields a text exactly when the response is [ok], its
    body parses, its first candidate has a content whose first part is
    that text, and no safety rating of that candidate is blocked.  A
    response that is not [ok] throws the status with the body text (or
    "Unknown error" when the body cannot be read), and a blocked rating
    throws even though the text is there. *)
Theorem X2_when_an_attempt_yields_text (r : Response) :
  (forall t,
      responseText r = Normal t <->
      ok r = true
      /\ exists rest ratings others,
           json r = Normal (mkApiResult
                       (Some (mkCandidate (Some (t :: rest)) ratings :: others)))
           /\ (forall l rating, ratings = Some l -> In rating l -> blocked rating = false))
  /\ (ok r = false ->
      responseText r =
        Throws (mkError ("API call failed with status: " ++ numberToString (status r)
                         ++ " - " ++ match text r with
                                     | Normal t => t
                                     | Throws _ => "Unknown error"
                                     end)))
  /\ (forall parts l others rating,
        ok r = true ->
        json r = Normal (mkApiResult (Some (mkCandidate (Some parts) (Some l) :: others))) ->
        In rating l -> blocked rating = true ->
        exists first,
          find blocked l = Some first
          /\ responseText r =
               Throws (mkError ("API call blocked due to safety rating: "
                                ++ category first))).
Proof.
  split; [|split].
  - intros t. unfold responseText. split.
    + destruct (ok r); cbn [negb]; [|discriminate]. intros Hr. split; [reflexivity|].
      destruct (json r) as [[[[|[[parts|] ratings] others]|]]|e]; try discriminate.
      cbn [candidates] in Hr. destruct ratings as [l|].
      * destruct (find blocked l) as [b|] eqn:Hfind; [discriminate|].
        destruct parts as [|t' rest]; [discriminate|].
        assert (t' = t) by congruence. subst t'.
        exists rest, (Some l), others. split; [reflexivity|].
        intros l' rating [= <-] Hin.
        pose proof (find_none _ _ Hfind rating Hin) as Hb. exact Hb.
      * destruct parts as [|t' rest]; [discriminate|].
        assert (t' = t) by congruence. subst t'.
        exists rest, None, others. split; [reflexivity|]. discriminate.
    + intros (-> & rest & ratings & others & -> & Hfree). cbn [negb candidates].
      destruct ratings as [l|]; [|reflexivity].
      destruct (find blocked l) as [b|] eqn:Hfind; [|reflexivity].
      apply find_some in Hfind. destruct Hfind as [Hin Hb].
      rewrite (Hfree l b eq_refl Hin) in Hb. discriminate.
  - intros Hok. unfold responseText. now rewrite Hok.
  - intros parts l others rating Hok Hjson Hin Hb. unfold responseText.
    rewrite Hok, Hjson. cbn [negb candidates].
    destruct (find blocked l) as [b|] eqn:Hfind.
    + exists b. split; reflexivity.
    + rewrite (find_none _ _ Hfind rating Hin) in Hb. discriminate.
Qed.

Lemma requests_retrySchedule {A} (payload : Payload) (o1 o2 o3 : Completion A) :
  Forall (eq payload) (requests (snd (retrySchedule payload o1 o2 o3))).
Proof. destruct o1, o2; cbn; repeat constructor. Qed.

(** A field that holds something comes from a body. *)
Lemma field_of_body (posted : Value) (k : string) :
  truthy (field posted k) = true -> ~ NoBody posted.
Proof. intros Ht [-> | ->]; discriminate Ht. Qed.

Lemma text_of_body (posted : Value) (k : string) :
  missingText (field posted k) = false -> ~ NoBody posted.
Proof. intros Ht [-> | ->]; discriminate Ht. Qed.

Lemma NoBody_dec (posted : Value) : NoBody posted \/ ~ NoBody posted.
Proof.
  unfold NoBody. destruct posted; try (right; intros [E|E]; discriminate E); auto.
Qed.

(** The store after an upload whose files all convert. *)
Lemma sortFiles_Forall (P : File -> Prop) (fs : list File) :
  Forall P fs -> Forall P (sortFiles H fs).
Proof.
  intros Hall. apply Forall_forall. intros f Hin.
  rewrite Forall_forall in Hall. apply Hall.
  exact (Permutation_in _ (sortFiles_perm H fs) Hin).
Qed.

Lemma generateChart_store_converting (req : ChartRequest) (fs : list File) (w : World) :
  files req = Some fs -> Forall (Converts H) fs ->
  store (snd (generateChart H req w)) =
    (concatBlocks H (sortFiles H fs), map originalname (sortFiles H fs)).
Proof.
  intros Hfs Hall.
  rewrite generateChart_steps.
  rewrite (proj2 (getProp_body (body req) "prompt") (multipart_has_body req fs Hfs)).
  unfold extraction. rewrite Hfs.
  rewrite (extractFiles_converting _ _ _ (sortFiles_Forall _ _ Hall)).
  destruct (ToString (numberText H) _ _) as [promptText|e]; [|reflexivity].
  rewrite callGeminiForJson_schedule. cbv zeta.
  match goal with
  | |- context [retrySchedule ?p ?a ?b ?c] =>
      destruct (retrySchedule p a b c) as [[?v|?e] ?evs]
  end; reflexivity.
Qed.

(** The extraction sends nothing to the API. *)
Lemma extraction_trace (req : ChartRequest) (w : World) :
  trace (snd (extraction H req (emptied w))) = trace w.
Proof.
  unfold emptied.
  destruct (extraction_frame H req "" []) as (r & t' & fl' & E).
  now rewrite E.
Qed.

(** X3: when an error leaves a handler.  [/generate-chart] throws
    exactly when the request has no body, or when the files were extracted
    and the prompt has no text (an object with a [toString] property of its
    own or without prototype, by itself or in an array);
    [/get-task-analysis] throws exactly when the request has no body, or
    when the task name and the entity passed the check and one of them has
    no text; [/ask-question] throws exactly when the request has no body.
    By then no request has gone to the API.  Every other run ends with a
    reply, of status 200 or 500 for [/generate-chart] and 200, 400 or 500
    for the other two, and a reply of 400 means that the world is as it was
    before the request.  A task name [{"toString": 1}] is a case of the
    second kind. *)
Theorem X3_when_an_error_leaves_a_handler
  (req : ChartRequest) (posted : Value) (w : World) :
  (((exists e, fst (generateChart H req w) = Throws e) <->
    NoBody (body req)
    \/ ((exists u, fst (extraction H req (emptied w)) = Normal u)
        /\ exists e, ToString (numberText H) (inherits req) (field (body req) "prompt") = Throws e))
   /\ (forall e, fst (generateChart H req w) = Throws e ->
         trace (snd (generateChart H req w)) = trace w)
   /\ (forall reply, fst (generateChart H req w) = Normal reply ->
         statusCode reply = 200 \/ statusCode reply = 500))
  /\ (((exists e, fst (getTaskAnalysis H posted w) = Throws e) <->
       NoBody posted
       \/ (truthy (field posted "taskName") = true
           /\ truthy (field posted "entity") = true
           /\ ((exists e, ToString (numberText H) true (field posted "entity") = Throws e)
               \/ exists e,
                    ToString (numberText H) true (field posted "taskName")
                    = Throws e)))
      /\ (forall e, fst (getTaskAnalysis H posted w) = Throws e ->
            snd (getTaskAnalysis H posted w) = w)
      /\ (forall reply, fst (getTaskAnalysis H posted w) = Normal reply ->
            (statusCode reply = 200 \/ statusCode reply = 400 \/ statusCode reply = 500)
            /\ (statusCode reply = 400 -> snd (getTaskAnalysis H posted w) = w)))
  /\ (((exists e, fst (askQuestion H posted w) = Throws e) <-> NoBody posted)
      /\ (forall e, fst (askQuestion H posted w) = Throws e ->
            snd (askQuestion H posted w) = w)
      /\ (forall reply, fst (askQuestion H posted w) = Normal reply ->
            (statusCode reply = 200 \/ statusCode reply = 400 \/ statusCode reply = 500)
            /\ (statusCode reply = 400 -> snd (askQuestion H posted w) = w)))
  /\ getTaskAnalysis H opaqueTaskName w = (Throws notPrimitive, w).
Proof.
  split; [|split; [|split]].
  - rewrite generateChart_steps.
    destruct (NoBody_dec (body req)) as [Hno|Hbody].
    { destruct (proj1 (getProp_body (body req) "prompt") Hno) as (e & ->).
      cbn [fst snd]. split; [|split].
      - split; [auto | intros _; now exists e].
      - reflexivity.
      - discriminate. }
    rewrite (proj2 (getProp_body (body req) "prompt") Hbody).
    pose proof (extraction_trace req w) as Htrace.
    destruct (extraction H req (emptied w)) as [[[]|e] w1]; cbn [fst snd] in *.
    + destruct (ToString (numberText H) (inherits req) (field (body req) "prompt"))
        as [promptText|e] eqn:Htext; cbn [fst snd].
      * destruct (callGeminiForJson H _ defaultRetryCount w1) as [[v|e] w2];
          cbn [fst snd].
        -- split; [|split].
           ++ split; [intros (e & E); discriminate E|].
              intros [Hno|(_ & e & E)]; [contradiction | discriminate E].
           ++ discriminate.
           ++ intros reply [= <-]. cbn. auto.
        -- split; [|split].
           ++ split; [intros (e' & E); discriminate E|].
              intros [Hno|(_ & e' & E)]; [contradiction | discriminate E].
           ++ discriminate.
           ++ intros reply [= <-]. cbn. auto.
      * split; [|split].
        -- split; [|intros _; now exists e].
           intros _. right. split; [now exists tt | now exists e].
        -- intros _ _. exact Htrace.
        -- discriminate.
    + split; [|split].
      * split; [intros (e' & E); discriminate E|].
        intros [Hno|((u & E) & _)]; [contradiction | discriminate E].
      * discriminate.
      * intros reply [= <-]. cbn. auto.
  - destruct (NoBody_dec posted) as [Hno|Hbody].
    { destruct (proj2 (handlers_without_body H posted w Hno)) as (e & ->).
      cbn [fst snd]. split; [|split].
      - split; [auto | intros _; now exists e].
      - reflexivity.
      - discriminate. }
    rewrite (getTaskAnalysis_checks H posted w Hbody). cbv zeta.
    destruct (truthy (field posted "taskName")) eqn:Ht;
      [destruct (truthy (field posted "entity")) eqn:He|]; cbn [negb orb].
    + destruct (ToString (numberText H) true (field posted "entity")) as [entityText|e]
        eqn:Hentity.
      * destruct (ToString (numberText H) true (field posted "taskName"))
          as [taskNameText|e] eqn:Hname; cbn [fst snd].
        -- split; [|split].
           ++ split; [intros (e & E); discriminate E|].
              intros [Hno|(_ & _ & [(e & E)|(e & E)])];
                [contradiction | discriminate E | discriminate E].
           ++ discriminate.
           ++ intros reply [= <-].
              destruct (fst (retrySchedule _ _ _ _)); cbn;
                (split; [auto | discriminate]).
        -- split; [|split].
           ++ split; [|intros _; now exists e].
              intros _. right. split; [reflexivity|]. split; [reflexivity|].
              right. now exists e.
           ++ reflexivity.
           ++ discriminate.
      * cbn [fst snd]. split; [|split].
        -- split; [|intros _; now exists e].
           intros _. right. split; [reflexivity|]. split; [reflexivity|].
           left. now exists e.
        -- reflexivity.
        -- discriminate.
    + cbn [fst snd]. split; [|split].
      * split; [intros (e & E); discriminate E|].
        intros [Hno|(_ & E & _)]; [contradiction | discriminate E].
      * discriminate.
      * intros reply [= <-]. cbn. auto.
    + cbn [fst snd]. split; [|split].
      * split; [intros (e & E); discriminate E|].
        intros [Hno|(E & _)]; [contradiction | discriminate E].
      * discriminate.
      * intros reply [= <-]. cbn. auto.
  - destruct (NoBody_dec posted) as [Hno|Hbody].
    { destruct (proj1 (handlers_without_body H posted w Hno)) as (e & ->).
      cbn [fst snd]. split; [|split].
      - split; [auto | intros _; now exists e].
      - reflexivity.
      - discriminate. }
    rewrite (askQuestion_checks H posted w Hbody). cbv zeta.
    destruct (missingText (field posted "question"));
      [cbn [fst snd]; split; [split; [intros (e & E); discriminate E | contradiction]|];
       split; [discriminate|]; intros reply [= <-]; cbn; auto|].
    destruct (missingText (field posted "entity"));
      [cbn [fst snd]; split; [split; [intros (e & E); discriminate E | contradiction]|];
       split; [discriminate|]; intros reply [= <-]; cbn; auto|].
    destruct (missingText (field posted "taskName"));
      [cbn [fst snd]; split; [split; [intros (e & E); discriminate E | contradiction]|];
       split; [discriminate|]; intros reply [= <-]; cbn; auto|].
    destruct (_ >? 1000);
      [cbn [fst snd]; split; [split; [intros (e & E); discriminate E | contradiction]|];
       split; [discriminate|]; intros reply [= <-]; cbn; auto|].
    cbn [fst snd]. split; [split; [intros (e & E); discriminate E | contradiction]|].
    split; [discriminate|]. intros reply [= <-].
    destruct (fst (retrySchedule _ _ _ _)); cbn; (split; [auto | discriminate]).
  - reflexivity.
Qed.

(** X4: the store is read at the time of the request.  After an upload
    whose files all convert, whatever the API answered to it, every request
    that a following accepted [/ask-question] sends, and every request that
    a following accepted [/get-task-analysis] whose task name and entity
    have a text sends, carries exactly the corpus of that upload, and at
    least one request is sent; the two handlers leave the store as it
    is. *)
Theorem X4_follow_up_requests_carry_the_uploaded_corpus
  (req : ChartRequest) (fs : list File) (posted : Value) (w : World) :
  files req = Some fs -> Forall (Converts H) fs ->
  let w1 := snd (generateChart H req w) in
  let corpus := concatBlocks H (sortFiles H fs) in
  (missingText (field posted "question") = false ->
   missingText (field posted "entity") = false ->
   missingText (field posted "taskName") = false ->
   strlen (trim (asString (field posted "question"))) <= 1000 ->
   exists events,
     snd (askQuestion H posted w1) = after w1 events
     /\ (1 <= fetches events)%nat
     /\ Forall (fun p => research p = corpus /\ endpoint p = AskQuestion)
               (requests events))
  /\ (forall entityText taskNameText,
        truthy (field posted "taskName") = true ->
        truthy (field posted "entity") = true ->
        ToString (numberText H) true (field posted "entity") = Normal entityText ->
        ToString (numberText H) true (field posted "taskName") = Normal taskNameText ->
        exists events,
          snd (getTaskAnalysis H posted w1) = after w1 events
          /\ (1 <= fetches events)%nat
          /\ Forall (fun p => research p = corpus /\ endpoint p = GetTaskAnalysis
                              /\ slots p = [entityText; taskNameText])
                    (requests events)).
Proof.
  intros Hfs Hall w1 corpus.
  assert (Hcache : researchTextCache w1 = corpus).
  { pose proof (generateChart_store_converting req fs w Hfs Hall) as Hstore.
    unfold store in Hstore.
    exact (f_equal fst Hstore). }
  split.
  - intros Hq He Ht Hlen.
    rewrite (askQuestion_checks H posted w1 (text_of_body posted _ Hq)).
    cbv zeta. rewrite Hq, He, Ht.
    destruct (Z.gtb_spec (strlen (trim (asString (field posted "question")))) 1000);
      [lia|].
    cbn [snd]. eexists. split; [reflexivity|].
    split; [apply retrySchedule_fetches|].
    eapply Forall_impl; [|apply requests_retrySchedule].
    intros p <-. cbn. auto.
  - intros entityText taskNameText Ht He Hentity Hname.
    rewrite (getTaskAnalysis_checks H posted w1 (field_of_body posted _ Ht)).
    cbv zeta. rewrite Ht, He, Hentity, Hname. cbn [negb orb snd].
    eexists. split; [reflexivity|].
    split; [apply retrySchedule_fetches|].
    eapply Forall_impl; [|apply requests_retrySchedule].
    intros p <-. cbn. auto.
Qed.

End Handlers.

(* ================================================================== *)
(** * More on the order of the files                                   *)
(* ================================================================== *)

Section SortingMore.
Import JS Server Spec Samples Extra.

Variable H : Host.

(** X5: the sort of the upload loses and repeats no file, and when the
    collation is a total and transitive order on the names of the upload
    no file is followed, anywhere later in the corpus, by one that the
    collation puts strictly before it. *)
Theorem X5_sorted_files_are_the_upload_in_order (fs : list File) :
  TotalOn H fs -> TransitiveOn H fs ->
  Permutation (sortFiles H fs) fs
  /\ List.length (sortFiles H fs) = List.length fs
  /\ StronglySorted (nameLe H) (sortFiles H fs).
Proof.
  intros Htot Htr. split; [apply sortFiles_perm|].
  split; [apply Permutation_length, sortFiles_perm|].
  now apply sortFiles_sorted.
Qed.

Lemma insertFile_head (f : File) (l : list File) :
  Forall (nameLe H f) l -> insertFile H f l = f :: l.
Proof.
  destruct l as [|g l]; [reflexivity|]. intros Hall.
  inversion Hall as [|? ? Hfg _]; subst. cbn [insertFile].
  unfold nameLe, compareNames in Hfg.
  destruct (Z.gtb_spec (localeCompare H (originalname f) (originalname g)) 0);
    [lia | reflexivity].
Qed.

(** X6: the sort is stable in that it leaves alone an upload that is in
    order already, ties included: files whose names the collation takes
    for equal stay in the order of the upload. *)
Theorem X6_an_upload_in_order_is_not_rearranged (fs : list File) :
  StronglySorted (nameLe H) fs -> sortFiles H fs = fs.
Proof.
  induction 1 as [|f l Hl IH Hf]; [reflexivity|].
  cbn [sortFiles]. rewrite IH. now apply insertFile_head.
Qed.

End SortingMore.

Section SortingMoreWitnesses.
Import JS Server Spec Samples Extra.

Lemma X5_sorted_files_witness :
  Permutation (sortFiles offlineHost [notesTxt; agendaMd]) [notesTxt; agendaMd]
  /\ List.length (sortFiles offlineHost [notesTxt; agendaMd])
     = List.length [notesTxt; agendaMd]
  /\ StronglySorted (nameLe offlineHost) (sortFiles offlineHost [notesTxt; agendaMd]).
Proof.
  apply (X5_sorted_files_are_the_upload_in_order offlineHost [notesTxt; agendaMd]).
  - intros f g [<-|[<-|[]]] [<-|[<-|[]]]; vm_compute;
      (left; discriminate) || (right; discriminate).
  - intros f g h [<-|[<-|[]]] [<-|[<-|[]]] [<-|[<-|[]]]; vm_compute; intros A B C;
      solve [discriminate | exfalso; (now apply A) || (now apply B)].
Defined.

Lemma X6_upload_in_order_witness :
  sortFiles offlineHost [agendaMd; notesTxt; notesTxt'] = [agendaMd; notesTxt; notesTxt'].
Proof.
  apply (X6_an_upload_in_order_is_not_rearranged offlineHost
           [agendaMd; notesTxt; notesTxt']).
  repeat constructor; vm_compute; discriminate.
Defined.

End SortingMoreWitnesses.

(* ================================================================== *)
(** * The marker line                                                  *)
(* ================================================================== *)

Section MarkerLine.
Import JS Renderer Spec Samples Extra Pages.

(** X7: for week columns the offset of the marker lies between 1/14 and
    13/14: the marker stands inside the bucket it was found in, never on
    or beyond an edge of it. *)
Theorem X7_week_marker_stays_inside_its_bucket
  (tz : Zone) (today : Date) (firstCol : string) (rest : list string) (p : Position) :
  reWeek firstCol = true ->
  findTodayColumnPosition tz today (firstCol :: rest) = Some p ->
  (1 # 14 <= percentage p)%Q /\ (percentage p <= 13 # 14)%Q
  /\ 0 <= index p < Z.of_nat (List.length (firstCol :: rest)).
Proof.
  intros Hw Hp.
  assert (Hidx : 0 <= index p < Z.of_nat (List.length (firstCol :: rest))).
  { assert (Hin : In ("W" ++ numberToString (getWeek tz today) ++ " "
                          ++ numberToString (getFullYear tz today))%string
                     (firstCol :: rest) /\ index p = indexOf (firstCol :: rest)
                        ("W" ++ numberToString (getWeek tz today) ++ " "
                             ++ numberToString (getFullYear tz today))%string).
    { rewrite findTodayColumnPosition_unfold, (granularity_week _ Hw) in Hp.
      cbv zeta in Hp. unfold soughtLabel in Hp.
      destruct (Z.eqb_spec (indexOf (firstCol :: rest)
                  ("W" ++ numberToString (getWeek tz today) ++ " "
                       ++ numberToString (getFullYear tz today))%string) (-1)) as [E|E];
        [discriminate|].
      split.
      - destruct (in_dec string_dec
                    ("W" ++ numberToString (getWeek tz today) ++ " "
                         ++ numberToString (getFullYear tz today))%string (firstCol :: rest))
          as [I|I]; [exact I | apply indexOf_absent in I; contradiction].
      - apply (f_equal (fun o => match o with Some x => index x | None => 0 end)) in Hp.
        cbn [index] in Hp. now symmetry. }
    destruct Hin as [Hin ->].
    pose proof (indexOfFrom_found _ _ 0 Hin). unfold indexOf. lia. }
  assert (Hpct : percentage p = ((inject_Z (getDay tz today) + (1 # 2)) / 7)%Q).
  { rewrite findTodayColumnPosition_unfold, (granularity_week _ Hw) in Hp.
    cbv zeta in Hp. destruct (_ =? -1); [discriminate|].
    apply (f_equal (fun o => match o with Some x => percentage x | None => 0%Q end)) in Hp.
    cbn [percentage] in Hp. now symmetry. }
  pose proof (WeekDay_range (LocalTime tz (timeValue today))) as Hd. fold (getDay tz today) in Hd.
  rewrite Hpct. split; [|split; [|exact Hidx]].
  - unfold Qle, Qdiv, Qmult, Qplus, Qinv, inject_Z. cbn. lia.
  - unfold Qle, Qdiv, Qmult, Qplus, Qinv, inject_Z. cbn. lia.
Qed.

(** The line by the position that was found. *)
Lemma addTodayLine_found (tz : Zone) (gridEl : Grid) (timeColumns : list string) (today : Date)
  (p : Position) (labelColWidth headerHeight : Q) :
  findTodayColumnPosition tz today timeColumns = Some p ->
  labelCol gridEl = Some labelColWidth -> headerRow gridEl = Some headerHeight ->
  parentElement gridEl = true ->
  addTodayLine tz gridEl timeColumns today =
  Some (mkTodayLine headerHeight
          (labelColWidth +
           (inject_Z (index p) + percentage p)
           * ((clientWidth gridEl - labelColWidth)
              / inject_Z (Z.of_nat (List.length timeColumns))))%Q).
Proof.
  intros Hp Hl Hh Hpar. unfold addTodayLine. now rewrite Hp, Hl, Hh, Hpar.
Qed.

(** X8: when the grid can be measured and is at least as wide as its
    label column, a marker whose offset lies between 0 and 1 is drawn
    within the column of its bucket: not left of the column's left edge
    and not right of its right edge, the columns sharing the width that
    the label column leaves. *)
Theorem X8_marker_line_lies_in_the_column_of_its_bucket
  (tz : Zone) (gridEl : Grid) (timeColumns : list string) (today : Date)
  (p : Position) (labelColWidth headerHeight : Q) :
  findTodayColumnPosition tz today timeColumns = Some p ->
  labelCol gridEl = Some labelColWidth -> headerRow gridEl = Some headerHeight ->
  parentElement gridEl = true ->
  (labelColWidth <= clientWidth gridEl)%Q ->
  (0 <= percentage p)%Q -> (percentage p <= 1)%Q ->
  exists line colWidth,
    addTodayLine tz gridEl timeColumns today = Some line
    /\ top line = headerHeight
    /\ (colWidth * inject_Z (Z.of_nat (List.length timeColumns))
        == clientWidth gridEl - labelColWidth)%Q
    /\ (labelColWidth + inject_Z (index p) * colWidth <= left line)%Q
    /\ (left line <= labelColWidth + (inject_Z (index p) + 1) * colWidth)%Q.
Proof.
  intros Hp Hl Hh Hpar Hwide Hlo Hhi.
  rewrite (addTodayLine_found tz gridEl timeColumns today p _ _ Hp Hl Hh Hpar).
  set (n := inject_Z (Z.of_nat (List.length timeColumns))).
  set (colWidth := ((clientWidth gridEl - labelColWidth) / n)%Q).
  assert (Hn : (0 < n)%Q).
  { subst n. destruct timeColumns as [|c l]; [discriminate Hp|].
    unfold Qlt, inject_Z. cbn. lia. }
  assert (Hcol : (0 <= colWidth)%Q).
  { subst colWidth. apply Qle_shift_div_l; [exact Hn|]. lra. }
  eexists. exists colWidth. split; [reflexivity|]. cbn [top left].
  split; [reflexivity|]. split.
  - subst colWidth. field. intros E. rewrite E in Hn. now apply Qlt_irrefl in Hn.
  - split; nra.
Qed.

End MarkerLine.

(* ================================================================== *)
(** * More on the form page                                            *)
(* ================================================================== *)

Section FormPageMore.
Import JS Spec Samples Client Pages.

Variable ToString : Value -> string.

Lemma validateChart_passes (g : Value) :
  validateChart g = Normal tt ->
  truthy g = true
  /\ exists timeColumns data,
       getProp g "timeColumns" = Normal timeColumns /\ truthy timeColumns = true
       /\ getProp g "data" = Normal data /\ truthy data = true
       /\ (forall l, timeColumns = VArray l -> l <> [])
       /\ (forall l, data = VArray l -> l <> []).
Proof.
  unfold validateChart.
  destruct (truthy g) eqn:Hg; cbn [negb]; [|discriminate].
  destruct (getProp g "timeColumns") as [tc|e] eqn:Htc; cbn [andThen]; [|discriminate].
  destruct (truthy tc) eqn:Htct; cbn [negb]; [|discriminate].
  destruct (getProp g "data") as [d|e] eqn:Hd; cbn [andThen]; [|discriminate].
  destruct (truthy d) eqn:Hdt; cbn [negb]; [|discriminate].
  destruct (getProp tc "length") as [tl|e] eqn:Htl; cbn [andThen]; [|discriminate].
  destruct (strictEqNumber tl 0) eqn:Etl; [discriminate|].
  destruct (getProp d "length") as [dl|e] eqn:Hdl; cbn [andThen]; [|discriminate].
  destruct (strictEqNumber dl 0) eqn:Edl; [discriminate|].
  intros _. split; [reflexivity|]. exists tc, d.
  repeat split; try assumption.
  - intros l ->. intros ->. cbn in Htl. injection Htl as <-. discriminate Etl.
  - intros l ->. intros ->. cbn in Hdl. injection Hdl as <-. discriminate Edl.
Qed.

(** X9: the form page opens a chart only for a selection of files, a
    prompt that is not blank and a response that is [ok], and only the
    chart of that response, whose [timeColumns] and [data] are then present
    and, if arrays, not empty: an empty chart is never stored or opened. *)
Theorem X9_only_a_chart_with_columns_and_rows_is_opened
  (fileCount : Z) (promptValue : string) (fetched : Completion FetchedResponse)
  (g : Value) :
  handleChartGenerate ToString fileCount promptValue fetched = OpenChart g ->
  fileCount <> 0 /\ trim promptValue <> ""
  /\ (exists response,
        fetched = Normal response /\ ok response = true /\ json response = Normal g)
  /\ exists timeColumns data,
       getProp g "timeColumns" = Normal timeColumns /\ truthy timeColumns = true
       /\ getProp g "data" = Normal data /\ truthy data = true
       /\ (forall l, timeColumns = VArray l -> l <> [])
       /\ (forall l, data = VArray l -> l <> []).
Proof.
  unfold handleChartGenerate.
  destruct (Z.eqb_spec fileCount 0) as [|Hf]; [discriminate|].
  destruct (trim promptValue) as [|c s] eqn:Hp; [discriminate|].
  cbn [truthy String.eqb negb].
  destruct fetched as [response|e]; cbn [andThen]; [|discriminate].
  destruct (ok response) eqn:Hok; cbn [negb]; [|discriminate].
  destruct (json response) as [g'|e] eqn:Hj; cbn [andThen]; [|discriminate].
  destruct (validateChart g') as [[]|e] eqn:Hv; cbn [andThen]; [|discriminate].
  intros [= ->]. split; [exact Hf|]. split; [discriminate|].
  split; [now exists response|].
  exact (proj2 (validateChart_passes g Hv)).
Qed.

Lemma substring_length (n : nat) (s : string) :
  (String.length (substring 0 n s) <= n)%nat.
Proof.
  revert s. induction n as [|n IH]; intros s.
  - destruct s; cbn; lia.
  - destruct s as [|c s]; cbn; [lia|]. specialize (IH s). lia.
Qed.

Lemma substring_prefix (n : nat) (s : string) :
  String.prefix (substring 0 n s) s = true.
Proof.
  revert s. induction n as [|n IH]; intros s.
  - destruct s; reflexivity.
  - destruct s as [|c s]; cbn; [reflexivity|].
    destruct (ascii_dec c c); [apply IH | contradiction].
Qed.

(** X10: for a response that is not [ok] and is not labelled as JSON the
    page shows the start of the body, at most 200 characters of it, after
    "Error: "; when the body is empty or cannot be read it shows "Server
    error: " with the status. *)
Theorem X10_error_body_is_cut_at_200_characters
  (promptValue : string) (fileCount : Z) (response : FetchedResponse) :
  fileCount <> 0 -> trim promptValue <> "" ->
  ok response = false ->
  (forall ct, contentType response = Some ct -> includes ct "application/json" = false) ->
  exists shown,
    handleChartGenerate ToString fileCount promptValue (Normal response)
    = ShowError ("Error: " ++ shown)
    /\ (forall t, text response = Normal t -> t <> "" ->
          shown = substring 0 200 t
          /\ strlen shown <= 200
          /\ String.prefix shown t = true)
    /\ ((text response = Normal "" \/ exists e, text response = Throws e) ->
        shown = ("Server error: " ++ numberToString (status response))%string).
Proof.
  intros Hf Hp Hok Hct.
  assert (Hmsg : serverErrorMessage ToString response =
                 match text response with
                 | Normal t =>
                     if truthy (VString (substring 0 200 t)) then substring 0 200 t
                     else ("Server error: " ++ numberToString (status response))%string
                 | Throws _ => ("Server error: " ++ numberToString (status response))%string
                 end).
  { unfold serverErrorMessage.
    destruct (contentType response) as [ct|] eqn:Ect; [|reflexivity].
    rewrite (Hct ct eq_refl), andb_false_r. reflexivity. }
  exists (serverErrorMessage ToString response). split; [|split].
  - unfold handleChartGenerate.
    destruct (Z.eqb_spec fileCount 0); [contradiction|].
    destruct (trim promptValue); [contradiction|].
    cbn [truthy String.eqb negb andThen]. now rewrite Hok.
  - intros t Ht Hne. rewrite Hmsg, Ht.
    destruct t as [|c t]; [contradiction|].
    change (substring 0 200 (String c t)) with (String c (substring 0 199 t)).
    cbn [truthy String.eqb negb].
    change (String c (substring 0 199 t)) with (substring 0 200 (String c t)).
    split; [reflexivity|]. split.
    + unfold strlen. pose proof (substring_length 200 (String c t)). lia.
    + apply substring_prefix.
  - intros [Ht|[e Ht]]; rewrite Hmsg, Ht; reflexivity.
Qed.

(** ** The file picker *)

Lemma filter_all {A} (f : A -> bool) (l : list A) :
  forallb f l = true -> filter f l = l.
Proof.
  induction l as [|x l IH]; cbn; [reflexivity|].
  intros Hx. apply andb_true_iff in Hx. destruct Hx as [-> Hl]. now rewrite IH.
Qed.

Lemma filter_none {A} (f : A -> bool) (l : list A) :
  forallb f l = true -> filter (fun x => negb (f x)) l = [].
Proof.
  induction l as [|x l IH]; cbn; [reflexivity|].
  intros Hx. apply andb_true_iff in Hx. destruct Hx as [-> Hl]. cbn. now apply IH.
Qed.

Lemma filter_some {A} (f : A -> bool) (l : list A) :
  forallb f l = false -> filter (fun x => negb (f x)) l <> [].
Proof.
  induction l as [|x l IH]; cbn; [discriminate|].
  destruct (f x); cbn; [exact IH | discriminate].
Qed.

Lemma processFiles_rejected (files : list PickedFile) (form : Form) :
  forallb isSupported files = false ->
  inputFiles (processFiles files form) = [].
Proof.
  intros Hsome. unfold processFiles.
  destruct files as [|f files]; [discriminate Hsome|].
  pose proof (filter_some _ _ Hsome) as Hbad.
  destruct (filter (fun f0 => negb (isSupported f0)) (f :: files)) as [|b bad];
    [contradiction | reflexivity].
Qed.

(** X11: a selection is taken over exactly when each of its files has
    one of the three supported types or a name that ends, in any case of
    letters, in [.md], [.txt] or [.docx]: the input then holds the whole
    selection in its order.  One unsupported file empties the input, so
    that nothing of the selection can be submitted, and the error names
    the unsupported files. *)
Theorem X11_one_unsupported_file_rejects_the_selection
  (files : list PickedFile) (form : Form) :
  files <> [] ->
  (forallb isSupported files = true ->
   processFiles files form =
     mkForm files (map name files) true false (errorText form) false)
  /\ (forallb isSupported files = false ->
      inputFiles (processFiles files form) = []
      /\ errorShown (processFiles files form) = true
      /\ errorText (processFiles files form) =
           ("The following files are not supported: "
            ++ join ", " (map name (filter (fun f => negb (isSupported f)) files))
            ++ ". Please upload only .md, .txt, .docx files.")%string
      /\ promptHidden (processFiles files form) = false
      /\ listHidden (processFiles files form) = true).
Proof.
  intros Hne. destruct files as [|f files]; [contradiction|]. split.
  - intros Hall. unfold processFiles.
    rewrite (filter_all _ _ Hall), (filter_none _ _ Hall). reflexivity.
  - intros Hsome. unfold processFiles.
    pose proof (filter_some _ _ Hsome) as Hbad.
    destruct (filter (fun f0 => negb (isSupported f0)) (f :: files)) as [|b bad];
      [contradiction|].
    cbn [map]. repeat split; reflexivity.
Qed.

(** X12: after a selection with an unsupported file a submit does not
    reach the server: the input is empty, and the page asks for a
    document whatever the prompt is. *)
Theorem X12_a_rejected_selection_cannot_be_submitted
  (files : list PickedFile) (form : Form) (promptValue : string)
  (fetched : Completion FetchedResponse) :
  forallb isSupported files = false ->
  handleChartGenerate ToString
    (Z.of_nat (List.length (inputFiles (processFiles files form))))
    promptValue fetched
  = ShowError "Error: Please upload at least one research document.".
Proof.
  intros Hsome.
  rewrite (processFiles_rejected files form Hsome). reflexivity.
Qed.

End FormPageMore.

(* ================================================================== *)
(** * The chart page at load, and the requests of the modal            *)
(* ================================================================== *)

Section ChartPage.
Import JS Spec Samples Client Pages.

Variable JSON_parse : string -> Completion Value.

Lemma loadChart_some (stored : option string) (g : Value) :
  chart (loadChart JSON_parse stored) = Some g <->
  exists s props,
    stored = Some s /\ s <> "" /\ JSON_parse s = Normal g /\ g = VObject props
    /\ isArray (lookup "data" props) = true
    /\ truthy (lookup "timeColumns" props) = true.
Proof.
  unfold loadChart. split.
  - destruct stored as [[|c s]|]; try discriminate.
    destruct (JSON_parse (String c s)) as [v|e] eqn:Hparse; [|discriminate].
    destruct v as [| |b|q|t|l|props]; cbn [truthy isObject negb orb getProp];
      try (rewrite ?orb_true_r; cbn [chart]; discriminate).
    + destruct (isArray (lookup "data" props)) eqn:Hd; cbn [negb orb]; [|discriminate].
      destruct (truthy (lookup "timeColumns" props)) eqn:Ht; cbn [negb]; [|discriminate].
      cbn [chart]. intros [= <-]. exists (String c s), props. repeat split; auto.
      discriminate.
  - intros (s & props & -> & Hne & Hparse & -> & Hd & Ht).
    destruct s as [|c s]; [contradiction|]. rewrite Hparse.
    cbn [truthy isObject negb orb getProp]. now rewrite Hd, Ht.
Qed.

(** X13: the chart page renders what is stored exactly when the stored
    text is not empty and parses to an object whose [data] is an array and
    whose [timeColumns] is present; any other non-empty stored text is
    removed from the storage, and the page then reports that no chart data
    was found, as it does when nothing is stored. *)
Theorem X13_chart_page_renders_only_a_well_formed_chart (stored : option string) :
  (forall g,
      chart (loadChart JSON_parse stored) = Some g <->
      exists s props,
        stored = Some s /\ s <> "" /\ JSON_parse s = Normal g /\ g = VObject props
        /\ isArray (lookup "data" props) = true
        /\ truthy (lookup "timeColumns" props) = true)
  /\ (removed (loadChart JSON_parse stored) = true <->
      chart (loadChart JSON_parse stored) = None
      /\ exists s, stored = Some s /\ s <> "").
Proof.
  split; [intros g; apply loadChart_some|].
  unfold loadChart. destruct stored as [[|c s]|].
  - cbn. split; [discriminate | intros (_ & s & [= <-] & Hne); contradiction].
  - assert (Hs : exists s0, Some (String c s) = Some s0 /\ s0 <> "")
      by (exists (String c s); split; [reflexivity | discriminate]).
    destruct (JSON_parse (String c s)) as [v|e]; [|cbn; tauto].
    destruct (negb (truthy v) || negb (isObject v)); [cbn; tauto|].
    destruct (getProp v "data") as [d|e]; [|cbn; tauto].
    destruct (getProp v "timeColumns") as [t|e]; [|cbn; tauto].
    destruct (negb (isArray d) || negb (truthy t)); cbn; [tauto|].
    split; [discriminate | intros [? _]; discriminate].
  - cbn. split; [discriminate | intros (_ & s & E & _); discriminate].
Qed.

(** X14: a chart that the form page opened is rendered by the chart page
    when its [data] is an array, and is refused and removed from the
    storage when its [data] is anything else (the form page asks only for
    a [data] with a length other than 0); [stored] stands for the text that
    the form page put into the storage, which parses back to the chart. *)
Theorem X14_the_chart_page_accepts_an_opened_chart_with_rows
  (ToString : Value -> string) (fileCount : Z) (promptValue : string)
  (fetched : Completion FetchedResponse) (g : Value) (stored : string) :
  handleChartGenerate ToString fileCount promptValue fetched = OpenChart g ->
  stored <> "" -> JSON_parse stored = Normal g ->
  exists props,
    g = VObject props
    /\ (isArray (lookup "data" props) = true ->
        loadChart JSON_parse (Some stored) = mkLoaded (Some g) false)
    /\ (isArray (lookup "data" props) = false ->
        loadChart JSON_parse (Some stored) = mkLoaded None true).
Proof.
  intros Hopen Hne Hparse.
  unfold handleChartGenerate in Hopen.
  destruct (fileCount =? 0); [discriminate|].
  destruct (negb (truthy (VString (trim promptValue)))); [discriminate|].
  destruct fetched as [response|e]; cbn [andThen] in Hopen; [|discriminate].
  destruct (negb (ok response)); [discriminate|].
  destruct (json response) as [g'|e]; cbn [andThen] in Hopen; [|discriminate].
  destruct (validateChart g') as [[]|e] eqn:Hv; cbn [andThen] in Hopen; [|discriminate].
  assert (g' = g) by congruence. subst g'. clear Hopen.
  destruct (validateChart_passes g Hv) as (Hg & tc & d & Htc & Htct & Hd & Hdt & _).
  destruct g as [| |b|q|t|l|props]; try discriminate;
    try (cbn in Htc; assert (tc = VUndefined) by congruence; subst tc;
         discriminate Htct).
  exists props. split; [reflexivity|].
  cbn in Htc, Hd.
  assert (tc = lookup "timeColumns" props) by congruence. subst tc.
  assert (d = lookup "data" props) by congruence. subst d.
  unfold loadChart. destruct stored as [|c s]; [contradiction|]. rewrite Hparse.
  cbn [truthy isObject negb orb getProp]. rewrite Htct.
  split; intros ->; reflexivity.
Qed.

End ChartPage.

Section ModalRequests.
Import JS Server Spec Samples Extra Pages.
Import Renderer.

Variable H : Host.

Lemma trimStart_clean (s : string) : startsClean (trimStart s).
Proof.
  induction s as [|c s IH]; cbn; [exact I|].
  destruct (isWhiteSpace c) eqn:E; [exact IH | exact E].
Qed.

Lemma trimStart_of_clean (s : string) : startsClean s -> trimStart s = s.
Proof. destruct s as [|c s]; cbn; [reflexivity|]. now intros ->. Qed.

Lemma trimEnd_clean (s : string) : startsClean s -> startsClean (trimEnd s).
Proof.
  destruct s as [|c s]; cbn; [auto|]. intros Hc.
  destruct (trimEnd s); [rewrite Hc|]; exact Hc.
Qed.

Lemma trimEnd_idempotent (s : string) : trimEnd (trimEnd s) = trimEnd s.
Proof.
  induction s as [|c s IH]; [reflexivity|].
  cbn [trimEnd]. destruct (trimEnd s) as [|d r] eqn:E.
  - destruct (isWhiteSpace c) eqn:Hc; [reflexivity|].
    cbn [trimEnd]. now rewrite Hc.
  - change (trimEnd (String c (String d r)))
      with (match trimEnd (String d r) with
            | EmptyString => if isWhiteSpace c then EmptyString else String c EmptyString
            | r0 => String c r0
            end).
    now rewrite IH.
Qed.

Lemma trim_idempotent (s : string) : trim (trim s) = trim s.
Proof.
  unfold trim.
  rewrite (trimStart_of_clean (trimEnd (trimStart s)))
    by apply trimEnd_clean, trimStart_clean.
  apply trimEnd_idempotent.
Qed.

Lemma missingText_string (s : string) :
  missingText (VString s) = false <-> trim s <> "".
Proof.
  unfold missingText. cbn [truthy].
  destruct s as [|c s].
  - cbn. split; [discriminate | congruence].
  - cbn [String.eqb negb orb]. destruct (trim (String c s)); cbn; split;
      congruence || discriminate.
Qed.

(** X15: what the modal sends and what the server makes of it.  A chat
    input that is blank once trimmed sends nothing.  Any other input sends
    the trimmed question, which the server never takes for a missing
    question: it answers 400 exactly when the task name or the entity of
    the row is blank or the trimmed question is longer than 1000
    characters, and otherwise asks the API.  The request for the analysis
    of a row is answered 400 exactly when the title or the entity of the
    row is empty. *)
Theorem X15_modal_requests_and_the_server_checks
  (taskIdentifier : TaskIdentifier) (inputValue : string) (w : World) :
  (questionBody taskIdentifier inputValue = None <-> trim inputValue = "")
  /\ (forall posted,
        questionBody taskIdentifier inputValue = Some posted ->
        fst (askQuestion H posted w)
          <> Normal (errorReply 400 "Question is required and must be non-empty")
        /\ ((exists msg, askQuestion H posted w = (Normal (errorReply 400 msg), w)) <->
            trim (taskName taskIdentifier) = "" \/ trim (taskEntity taskIdentifier) = ""
            \/ 1000 < strlen (trim inputValue)))
  /\ (getTaskAnalysis H (analysisBody taskIdentifier) w
        = (Normal (errorReply 400 "Missing taskName or entity"), w) <->
      taskName taskIdentifier = "" \/ taskEntity taskIdentifier = "").
Proof.
  split; [|split].
  - unfold questionBody. cbn [truthy].
    destruct (trim inputValue); cbn; split; congruence || discriminate.
  - intros posted Hbody. unfold questionBody in Hbody. cbn [truthy] in Hbody.
    destruct (trim inputValue) as [|c q] eqn:Hq; [discriminate|].
    cbn [String.eqb negb] in Hbody. injection Hbody as <-.
    assert (Hquestion : missingText (VString (String c q)) = false).
    { apply missingText_string. rewrite <- Hq, trim_idempotent, Hq. discriminate. }
    assert (Htrim : trim (String c q) = String c q)
      by (rewrite <- Hq; apply trim_idempotent).
    rewrite askQuestion_checks by (intros [E|E]; discriminate E). cbv zeta.
    change (field _ "question") with (VString (String c q)).
    change (field _ "entity") with (VString (taskEntity taskIdentifier)).
    change (field _ "taskName") with (VString (taskName taskIdentifier)).
    rewrite Hquestion. cbn [asString]. rewrite Htrim.
    destruct (missingText (VString (taskEntity taskIdentifier))) eqn:He.
    { split; [cbn; intros [= E]; discriminate E|].
      split; [intros _|intros _; eexists; reflexivity].
      right; left.
      destruct (string_dec (trim (taskEntity taskIdentifier)) "") as [E|E]; [exact E|].
      apply missingText_string in E. congruence. }
    apply missingText_string in He.
    destruct (missingText (VString (taskName taskIdentifier))) eqn:Ht.
    { split; [cbn; intros [= E]; discriminate E|].
      split; [intros _|intros _; eexists; reflexivity].
      left.
      destruct (string_dec (trim (taskName taskIdentifier)) "") as [E|E]; [exact E|].
      apply missingText_string in E. congruence. }
    apply missingText_string in Ht.
    destruct (Z.gtb_spec (strlen (String c q)) 1000) as [Hlong|Hshort].
    { split; [cbn; intros [= E]; discriminate E|].
      split; [intros _; right; right; exact Hlong|intros _; eexists; reflexivity]. }
    split.
    + destruct (fst (retrySchedule _ _ _ _)); cbn; intros [= E]; discriminate E.
    + split; [|intros [E|[E|E]]; [contradiction|contradiction|lia]].
      intros (msg & E). exfalso.
      destruct (fst (retrySchedule _ _ _ _)); cbn in E; injection E as E _;
        discriminate E.
  - rewrite getTaskAnalysis_checks by (intros [E|E]; discriminate E). cbv zeta.
    unfold analysisBody.
    change (field _ "taskName") with (VString (taskName taskIdentifier)).
    change (field _ "entity") with (VString (taskEntity taskIdentifier)).
    cbn [truthy ToString].
    destruct (taskName taskIdentifier) as [|c t]; [cbn; tauto|].
    destruct (taskEntity taskIdentifier) as [|d e]; [cbn; tauto|].
    cbn [String.eqb negb orb].
    split; [|intros [E|E]; discriminate E].
    intros E. exfalso.
    destruct (fst (retrySchedule _ _ _ _)); cbn in E; injection E as E _;
      discriminate E.
Qed.

End ModalRequests.

(* ================================================================== *)
(** * Dates: years, months and days of the host                        *)
(* ================================================================== *)

Section Calendar.
Import JS Extra.

Lemma DaysInYear_cases (y : Z) : DaysInYear y = 365 + InLeapYearOf y.
Proof.
  unfold InLeapYearOf, DaysInYear.
  destruct (negb (y mod 4 =? 0)); [reflexivity|].
  destruct (negb (y mod 100 =? 0)); [reflexivity|].
  destruct (negb (y mod 400 =? 0)); reflexivity.
Qed.

Lemma InLeapYearOf_cases (y : Z) : InLeapYearOf y = 0 \/ InLeapYearOf y = 1.
Proof. unfold InLeapYearOf. destruct (DaysInYear y =? 366); auto. Qed.

Lemma DayFromYear_mono (y y' : Z) : y <= y' -> DayFromYear y <= DayFromYear y'.
Proof.
  intros Hle. unfold DayFromYear. Z.to_euclidean_division_equations. lia.
Qed.

(** The year of a day is the one whose days include it. *)
Lemma YearFromDay_unique (y d : Z) :
  DayFromYear y <= d < DayFromYear (y + 1) -> YearFromDay d = y.
Proof.
  intros Hd. pose proof (YearFromDay_bounds d) as Hb.
  destruct (Z.lt_trichotomy (YearFromDay d) y) as [Hlt|[E|Hgt]]; [|exact E|].
  - pose proof (DayFromYear_mono (YearFromDay d + 1) y ltac:(lia)). lia.
  - pose proof (DayFromYear_mono (y + 1) (YearFromDay d) ltac:(lia)). lia.
Qed.

Lemma Day_MakeDate (d r : Z) : 0 <= r < msPerDay -> Day (MakeDate d r) = d.
Proof.
  intros Hr. unfold Day, MakeDate, msPerDay in *.
  Z.to_euclidean_division_equations. lia.
Qed.

Lemma DayWithinYear_range (t : Z) :
  0 <= DayWithinYear t < 365 + InLeapYear t.
Proof.
  unfold DayWithinYear, InLeapYear, YearFromTime.
  pose proof (YearFromDay_bounds (Day t)) as Hb.
  rewrite DayFromYear_step, DaysInYear_cases in Hb. lia.
Qed.

(** The fields of a time that lies [k] days into the year [y]. *)
Lemma fields_of_day (y k r : Z) :
  0 <= k < 365 + InLeapYearOf y -> 0 <= r < msPerDay ->
  let t := MakeDate (DayFromYear y + k) r in
  YearFromTime t = y /\ DayWithinYear t = k /\ InLeapYear t = InLeapYearOf y.
Proof.
  intros Hk Hr t.
  assert (Hy : YearFromTime t = y).
  { unfold YearFromTime, t. rewrite (Day_MakeDate _ _ Hr).
    apply YearFromDay_unique. rewrite DayFromYear_step, DaysInYear_cases. lia. }
  split; [exact Hy|]. unfold DayWithinYear, InLeapYear. rewrite Hy.
  unfold t. rewrite (Day_MakeDate _ _ Hr). split; [lia | reflexivity].
Qed.

Lemma MonthFromTime_range (t : Z) : 0 <= MonthFromTime t <= 11.
Proof.
  unfold MonthFromTime. cbv zeta.
  repeat match goal with
         | |- context [if ?a <? ?b then _ else _] => destruct (a <? b)
         end; lia.
Qed.

(** The month and the date of a time give its day back. *)
Lemma day_of_month_and_date (t : Z) :
  daysBeforeMonth (InLeapYear t) (MonthFromTime t) + DateFromTime t - 1
  = DayWithinYear t
  /\ 1 <= DateFromTime t <= daysInMonth (InLeapYear t) (MonthFromTime t).
Proof.
  pose proof (DayWithinYear_range t) as Hd.
  assert (Hleap : InLeapYear t = 0 \/ InLeapYear t = 1)
    by apply InLeapYearOf_cases.
  unfold DateFromTime, MonthFromTime. cbv zeta.
  set (d := DayWithinYear t) in *. set (leap := InLeapYear t) in *.
  clearbody d leap.
  repeat match goal with
         | |- context [if ?a <? ?b then _ else _] =>
             destruct (Z.ltb_spec a b)
         end; cbn [daysBeforeMonth daysInMonth]; lia.
Qed.

Lemma MakeDay_of_time (t k : Z) :
  MakeDay (YearFromTime t) (MonthFromTime t) (DateFromTime t + k) = Day t + k.
Proof.
  pose proof (MonthFromTime_range t) as Hm.
  pose proof (proj1 (day_of_month_and_date t)) as Hd.
  unfold MakeDay.
  replace (MonthFromTime t / 12) with 0
    by (symmetry; apply Z.div_small; lia).
  rewrite Z.mod_small by lia. rewrite Z.add_0_r.
  fold (InLeapYear t). unfold DayWithinYear in Hd. lia.
Qed.

Lemma fullYear_outside (y : Z) : ~ 0 <= y <= 99 -> fullYear y = y.
Proof.
  intros Hy. unfold fullYear.
  destruct (Z.leb_spec 0 y), (Z.leb_spec y 99); cbn; lia || reflexivity.
Qed.

End Calendar.

(* ================================================================== *)
(** * The marker in year, quarter and month columns                    *)
(* ================================================================== *)

Section MarkerOffsets.
Import JS Renderer Spec Samples Extra.

Lemma twelve_months (m : Z) :
  0 <= m <= 11 ->
  m = 0 \/ m = 1 \/ m = 2 \/ m = 3 \/ m = 4 \/ m = 5 \/ m = 6 \/ m = 7
  \/ m = 8 \/ m = 9 \/ m = 10 \/ m = 11.
Proof. lia. Qed.

(** [new Date(y, m, 1)]: the first day of a month, at local midnight. *)
Lemma newDate_first (tz : Zone) (y m : Z) :
  ~ 0 <= y <= 99 -> 0 <= m <= 11 ->
  timeValue (newDate tz y m 1)
  = UTC tz ((DayFromYear y + daysBeforeMonth (InLeapYearOf y) m) * msPerDay).
Proof.
  intros Hy Hm. unfold newDate, MakeDate, MakeDay. cbn [timeValue]. f_equal.
  rewrite (fullYear_outside y Hy).
  replace (m / 12) with 0 by (symmetry; apply Z.div_small; lia).
  rewrite Z.mod_small by lia. rewrite !Z.add_0_r. lia.
Qed.

(** [new Date(y, m + 1, 0)]: the last day of month [m], also for
    December, where the month carries into the next year. *)
Lemma newDate_last (tz : Zone) (y m : Z) :
  ~ 0 <= y <= 99 -> 0 <= m <= 11 ->
  timeValue (newDate tz y (m + 1) 0)
  = UTC tz ((DayFromYear y + daysBeforeMonth (InLeapYearOf y) m
             + daysInMonth (InLeapYearOf y) m - 1) * msPerDay).
Proof.
  intros Hy Hm. unfold newDate, MakeDate, MakeDay. cbn [timeValue]. f_equal.
  rewrite (fullYear_outside y Hy).
  pose proof (DayFromYear_step y) as Hstep. rewrite DaysInYear_cases in Hstep.
  destruct (twelve_months m Hm) as [E|[E|[E|[E|[E|[E|[E|[E|[E|[E|[E|E]]]]]]]]]]];
    subst m;
    match goal with
    | |- context [Z.div ?a 12] =>
        let q := eval vm_compute in (a / 12) in
        let r := eval vm_compute in (a mod 12) in
        change (a / 12) with q; change (a mod 12) with r
    end;
    cbn [daysBeforeMonth daysInMonth];
    rewrite ?Z.add_0_r; try rewrite Hstep; lia.
Qed.

(** A local time by its year, its day in the year and its time in the
    day. *)
Lemma time_of_today (t : Z) :
  t = (DayFromYear (YearFromTime t) + DayWithinYear t) * msPerDay + t mod msPerDay
  /\ 0 <= t mod msPerDay < msPerDay.
Proof.
  unfold DayWithinYear, Day.
  pose proof (Z.div_mod t msPerDay ltac:(discriminate)).
  pose proof (Z.mod_pos_bound t msPerDay ltac:(reflexivity)).
  lia.
Qed.

(** With one offset over the dates, the durations are those of local
    time. *)
Lemma steady_durations (tz : Zone) (today : Date) (start last : Z) :
  SteadyOffset tz today start last ->
  timeValue today - UTC tz start = LocalTime tz (timeValue today) - start
  /\ UTC tz last - UTC tz start = last - start.
Proof. unfold SteadyOffset, UTC, LocalTime. intros [-> ->]. lia. Qed.

(** A quotient of two durations is the quotient of their milliseconds. *)
Lemma ratio_of_durations (a b : Z) :
  0 < b -> (msToDays a / msToDays b == inject_Z a / inject_Z b)%Q.
Proof.
  intros Hb. unfold msToDays.
  assert (Hb' : ~ (inject_Z b == 0)%Q).
  { unfold Qeq, inject_Z. cbn. lia. }
  field. split; [exact Hb' | discriminate].
Qed.

Lemma ratio_nonneg (a b : Z) : 0 <= a -> 0 < b -> (0 <= inject_Z a / inject_Z b)%Q.
Proof.
  intros Ha Hb. apply Qle_shift_div_l.
  - unfold Qlt, inject_Z. cbn. lia.
  - rewrite Qmult_0_l. unfold Qle, inject_Z. cbn. lia.
Qed.

Lemma ratio_ge_1 (a b : Z) : 0 < b -> ((1 <= inject_Z a / inject_Z b)%Q <-> b <= a).
Proof.
  intros Hb.
  assert (Hb' : (0 < inject_Z b)%Q) by (unfold Qlt, inject_Z; cbn; lia).
  split.
  - intros H1. apply (Qmult_le_compat_r _ _ (inject_Z b)) in H1; [|now apply Qlt_le_weak].
    rewrite Qmult_1_l in H1.
    setoid_replace (inject_Z a / inject_Z b * inject_Z b)%Q with (inject_Z a) in H1
      by (field; intros E; rewrite E in Hb'; now apply Qlt_irrefl in Hb').
    rewrite Zle_Qle. exact H1.
  - intros Hab. apply Qle_shift_div_l; [exact Hb'|].
    rewrite Qmult_1_l. rewrite <- Zle_Qle. exact Hab.
Qed.

Lemma ratio_le_1 (a b : Z) : 0 < b -> a <= b -> (inject_Z a / inject_Z b <= 1)%Q.
Proof.
  intros Hb Hab. apply Qle_shift_div_r.
  - unfold Qlt, inject_Z. cbn. lia.
  - rewrite Qmult_1_l. rewrite <- Zle_Qle. exact Hab.
Qed.

Lemma ratio_pos (a b : Z) : 0 < a -> 0 < b -> (0 < inject_Z a / inject_Z b)%Q.
Proof.
  intros Ha Hb. apply Qlt_shift_div_l.
  - unfold Qlt, inject_Z. cbn. lia.
  - rewrite Qmult_0_l. unfold Qlt, inject_Z. cbn. lia.
Qed.

(** The position that is found, for a first label of a granularity. *)
Lemma position_found (tz : Zone) (today : Date) (firstCol : string)
  (rest : list string) (g : Granularity) (p : Position) :
  granularity firstCol = Some g ->
  findTodayColumnPosition tz today (firstCol :: rest) = Some p ->
  index p = indexOf (firstCol :: rest) (soughtLabel tz g today)
  /\ percentage p =
     match g with
     | Years =>
         (msToDays (dateDiff today (newDate tz (getFullYear tz today) 0 1))
          / msToDays (dateDiff (newDate tz (getFullYear tz today) 11 31)
                               (newDate tz (getFullYear tz today) 0 1)))%Q
     | Quarters =>
         let m := (getMonth tz today / 3 + 1 - 1) * 3 in
         (msToDays (dateDiff today (newDate tz (getFullYear tz today) m 1))
          / msToDays (dateDiff (newDate tz (getFullYear tz today) (m + 3)%Z 0)
                               (newDate tz (getFullYear tz today) m 1)))%Q
     | Months =>
         (inject_Z (getDate tz today)
          / inject_Z (getDate tz (newDate tz (getFullYear tz today)
                                          (getMonth tz today + 1)%Z 0)))%Q
     | Weeks => ((inject_Z (getDay tz today) + (1 # 2)) / 7)%Q
     end.
Proof.
  intros Hg Hp. rewrite findTodayColumnPosition_unfold, Hg in Hp. cbv zeta in Hp.
  destruct (_ =? -1); [discriminate|].
  split.
  - apply (f_equal (fun o => match o with Some x => index x | None => 0 end)) in Hp.
    cbn [index] in Hp. now symmetry.
  - apply (f_equal (fun o => match o with Some x => percentage x | None => 0%Q end)) in Hp.
    cbn [percentage] in Hp. now symmetry.
Qed.

(** X16: in year columns the marker's offset is the time since the
    instant of January 1st, 0:00 local time, over the time from that
    instant to the one of December 31st, 0:00.  Where the zone has one
    offset over these dates, the divisor is one day short of the year; the
    offset is then never negative, and it is 1 or more exactly on December
    31st, when the marker stands on or beyond the right edge of its
    column. *)
Theorem X16_year_marker_divides_by_a_day_less_than_the_year
  (tz : Zone) (today : Date) (firstCol : string) (rest : list string) (p : Position) :
  reYear firstCol = true ->
  ~ 0 <= getFullYear tz today <= 99 ->
  findTodayColumnPosition tz today (firstCol :: rest) = Some p ->
  let year := getFullYear tz today in
  let start := DayFromYear year * msPerDay in
  let last := (DayFromYear year + DaysInYear year - 1) * msPerDay in
  let elapsed := LocalTime tz (timeValue today) - start in
  percentage p = (msToDays (timeValue today - UTC tz start)
                  / msToDays (UTC tz last - UTC tz start))%Q
  /\ (SteadyOffset tz today start last ->
      (percentage p == inject_Z elapsed / inject_Z ((DaysInYear year - 1) * msPerDay))%Q
      /\ (0 <= percentage p)%Q
      /\ ((1 <= percentage p)%Q <->
          DayWithinYear (LocalTime tz (timeValue today)) = DaysInYear year - 1)).
Proof.
  intros Hw Hy Hp year start last elapsed.
  assert (Hg : granularity firstCol = Some Years)
    by (unfold granularity; now rewrite Hw).
  destruct (position_found tz today firstCol rest Years p Hg Hp) as [_ Hpct].
  pose proof (time_of_today (LocalTime tz (timeValue today))) as [Ht Hr].
  pose proof (DayWithinYear_range (LocalTime tz (timeValue today))) as Hk.
  unfold InLeapYear in Hk.
  fold (getFullYear tz today) in Hk, Ht. fold year in Hk, Ht.
  pose proof (InLeapYearOf_cases year) as Hleap.
  assert (Hstart : timeValue (newDate tz year 0 1) = UTC tz start).
  { rewrite (newDate_first tz year 0 Hy ltac:(lia)). cbn [daysBeforeMonth].
    subst start. f_equal. lia. }
  assert (Hend : timeValue (newDate tz year 11 31) = UTC tz last).
  { unfold newDate, MakeDate, MakeDay. cbn [timeValue]. subst last. f_equal.
    rewrite (fullYear_outside year Hy), DaysInYear_cases.
    change (11 / 12) with 0. change (11 mod 12) with 11.
    rewrite !Z.add_0_r. cbn [daysBeforeMonth]. lia. }
  assert (Hgen : percentage p = (msToDays (timeValue today - UTC tz start)
                                 / msToDays (UTC tz last - UTC tz start))%Q).
  { rewrite Hpct. fold year. unfold dateDiff. now rewrite Hstart, Hend. }
  split; [exact Hgen|]. intros Hsteady.
  destruct (steady_durations tz today start last Hsteady) as [Hnum Hden].
  assert (Hlen : last - start = (DaysInYear year - 1) * msPerDay)
    by (subst last start; lia).
  assert (Hpct' : (percentage p ==
                   inject_Z elapsed / inject_Z ((DaysInYear year - 1) * msPerDay))%Q).
  { rewrite Hgen, Hnum, Hden, Hlen.
    apply ratio_of_durations. rewrite DaysInYear_cases. unfold msPerDay. lia. }
  rewrite DaysInYear_cases in *.
  assert (Hb : 0 < (365 + InLeapYearOf year - 1) * msPerDay) by (unfold msPerDay; lia).
  split; [exact Hpct'|]. split.
  - rewrite Hpct'. apply ratio_nonneg; [|exact Hb].
    subst elapsed start. unfold msPerDay in *. lia.
  - rewrite Hpct', (ratio_ge_1 _ _ Hb). subst elapsed start. unfold msPerDay in *. lia.
Qed.

(** Evaluates the month and quarter numbers that have become closed. *)
Ltac calendar_numbers :=
  repeat match goal with
         | |- context [daysBeforeMonth _ ?a] =>
             let v := eval vm_compute in a in progress change a with v
         | |- context [daysInMonth _ ?a] =>
             let v := eval vm_compute in a in progress change a with v
         | |- context [daysInQuarter _ ?a] =>
             let v := eval vm_compute in a in progress change a with v
         end;
  cbn [daysBeforeMonth daysInMonth daysInQuarter].

Lemma reQuarter_only (s : string) : reQuarter s = true -> reYear s = false.
Proof.
  unfold reQuarter, reYear. intros H.
  apply matchClasses_cons in H. destruct H as (c & s' & -> & Hq & _).
  apply Ascii.eqb_eq in Hq. subst c. reflexivity.
Qed.

Lemma reMonth_only (s : string) :
  reMonth s = true -> reYear s = false /\ reQuarter s = false.
Proof.
  unfold reMonth, reYear, reQuarter. intros H.
  apply matchClasses_cons in H. destruct H as (c0 & s0 & -> & H0 & H).
  apply matchClasses_cons in H. destruct H as (c1 & s1 & -> & H1 & _).
  cbn [matchClasses].
  assert (Hd0 : isDigit c0 = false).
  { destruct (isDigit c0) eqn:E; [|reflexivity].
    apply digit_not_letter in E. congruence. }
  assert (Hd1 : inRange "1" "4" c1 = false).
  { destruct (inRange "1" "4" c1) eqn:E; [|reflexivity].
    assert (Hdig : isDigit c1 = true).
    { unfold inRange, isDigit in *. cbv zeta.
      change (code "1") with 49 in E. change (code "4") with 52 in E. lia. }
    apply digit_not_letter in Hdig. congruence. }
  rewrite Hd0, Hd1. cbn [andb]. now rewrite andb_false_r.
Qed.

(** X17: in quarter columns the marker's offset is the time since the
    instant of the first day of the quarter, 0:00 local time, over the time
    from that instant to the one of the last day of the quarter, 0:00.
    Where the zone has one offset over these dates, the divisor is one day
    short of the quarter (89 or 90, 90, 91 and 91 days); the offset is then
    never negative, and it is 1 or more exactly on the last day of the
    quarter. *)
Theorem X17_quarter_marker_divides_by_a_day_less_than_the_quarter
  (tz : Zone) (today : Date) (firstCol : string) (rest : list string) (p : Position) :
  reQuarter firstCol = true ->
  ~ 0 <= getFullYear tz today <= 99 ->
  findTodayColumnPosition tz today (firstCol :: rest) = Some p ->
  let year := getFullYear tz today in
  let leap := InLeapYearOf year in
  let quarter := getMonth tz today / 3 + 1 in
  let firstDay := daysBeforeMonth leap ((quarter - 1) * 3) in
  let start := (DayFromYear year + firstDay) * msPerDay in
  let last := (DayFromYear year + firstDay + daysInQuarter leap quarter - 1)
              * msPerDay in
  let elapsed := LocalTime tz (timeValue today) - start in
  1 <= quarter <= 4
  /\ percentage p = (msToDays (timeValue today - UTC tz start)
                     / msToDays (UTC tz last - UTC tz start))%Q
  /\ (SteadyOffset tz today start last ->
      (percentage p ==
       inject_Z elapsed / inject_Z ((daysInQuarter leap quarter - 1) * msPerDay))%Q
      /\ (0 <= percentage p)%Q
      /\ ((1 <= percentage p)%Q <->
          DayWithinYear (LocalTime tz (timeValue today))
          = firstDay + daysInQuarter leap quarter - 1)).
Proof.
  intros Hw Hy Hp year leap quarter firstDay start last elapsed.
  assert (Hg : granularity firstCol = Some Quarters)
    by (unfold granularity; now rewrite (reQuarter_only _ Hw), Hw).
  destruct (position_found tz today firstCol rest Quarters p Hg Hp) as [_ Hpct].
  cbv zeta in Hpct. fold year in Hpct.
  pose proof (time_of_today (LocalTime tz (timeValue today))) as [Ht Hr].
  fold (getFullYear tz today) in Ht. fold year in Ht.
  pose proof (day_of_month_and_date (LocalTime tz (timeValue today))) as [Hday Hdate].
  unfold InLeapYear in Hday, Hdate. fold (getFullYear tz today) in Hday, Hdate.
  fold year in Hday, Hdate. fold leap in Hday, Hdate.
  fold (getMonth tz today) in Hday, Hdate.
  pose proof (InLeapYearOf_cases year) as Hleap. fold leap in Hleap.
  pose proof (MonthFromTime_range (LocalTime tz (timeValue today))) as Hm.
  fold (getMonth tz today) in Hm.
  assert (Hq : 1 <= quarter <= 4)
    by (subst quarter; Z.to_euclidean_division_equations; lia).
  assert (Hm0 : 0 <= (quarter - 1) * 3 <= 9) by lia.
  set (m0 := (quarter - 1) * 3) in *.
  assert (Hstart : timeValue (newDate tz year m0 1) = UTC tz start).
  { rewrite (newDate_first tz year m0 Hy ltac:(lia)). reflexivity. }
  assert (Hend : timeValue (newDate tz year (m0 + 3) 0) = UTC tz last).
  { replace (m0 + 3) with ((m0 + 2) + 1) by lia.
    rewrite (newDate_last tz year (m0 + 2) Hy ltac:(lia)). fold leap.
    subst last. f_equal.
    assert (Hcases : quarter = 1 \/ quarter = 2 \/ quarter = 3 \/ quarter = 4) by lia.
    subst firstDay m0.
    destruct Hcases as [E|[E|[E|E]]]; rewrite E; calendar_numbers; lia. }
  assert (Hb : 0 < (daysInQuarter leap quarter - 1) * msPerDay).
  { assert (Hcases : quarter = 1 \/ quarter = 2 \/ quarter = 3 \/ quarter = 4) by lia.
    destruct Hcases as [E|[E|[E|E]]]; rewrite E; cbn [daysInQuarter];
      unfold msPerDay; lia. }
  assert (Hgen : percentage p = (msToDays (timeValue today - UTC tz start)
                                 / msToDays (UTC tz last - UTC tz start))%Q).
  { rewrite Hpct. fold quarter. fold m0. unfold dateDiff. now rewrite Hstart, Hend. }
  split; [exact Hq|]. split; [exact Hgen|]. intros Hsteady.
  destruct (steady_durations tz today start last Hsteady) as [Hnum Hden].
  assert (Hlen : last - start = (daysInQuarter leap quarter - 1) * msPerDay)
    by (subst last start; lia).
  assert (Hpct' : (percentage p ==
                   inject_Z elapsed
                   / inject_Z ((daysInQuarter leap quarter - 1) * msPerDay))%Q).
  { rewrite Hgen, Hnum, Hden, Hlen. apply (ratio_of_durations _ _ Hb). }
  assert (Hk : firstDay <= DayWithinYear (LocalTime tz (timeValue today))
               < firstDay + daysInQuarter leap quarter).
  { subst firstDay m0 quarter.
    destruct (twelve_months _ Hm) as [E|[E|[E|[E|[E|[E|[E|[E|[E|[E|[E|E]]]]]]]]]]];
      rewrite E in *; cbn [daysBeforeMonth daysInMonth] in Hday, Hdate;
      calendar_numbers; lia. }
  split; [exact Hpct'|]. split.
  - rewrite Hpct'. apply ratio_nonneg; [|exact Hb].
    subst elapsed start. unfold msPerDay in *. lia.
  - rewrite Hpct', (ratio_ge_1 _ _ Hb). subst elapsed start.
    unfold msPerDay in *. lia.
Qed.

(** The date of a time is that of its day. *)
Lemma DateFromTime_of_day (a b : Z) : Day a = Day b -> DateFromTime a = DateFromTime b.
Proof.
  intros E. unfold DateFromTime, MonthFromTime, DayWithinYear, InLeapYear, YearFromTime.
  now rewrite E.
Qed.

(** The last day of a month has the number of days of the month as its
    date, where the host keeps the midnight that starts it on its day. *)
Lemma getDate_of_last_day (tz : Zone) (y m : Z) :
  ~ 0 <= y <= 99 -> 0 <= m <= 11 ->
  KeepsDay tz ((DayFromYear y + daysBeforeMonth (InLeapYearOf y) m
                + daysInMonth (InLeapYearOf y) m - 1) * msPerDay) ->
  getDate tz (newDate tz y (m + 1) 0) = daysInMonth (InLeapYearOf y) m.
Proof.
  intros Hy Hm Hkeeps. unfold getDate.
  rewrite (newDate_last tz y m Hy Hm).
  rewrite (DateFromTime_of_day _ _ Hkeeps).
  pose proof (InLeapYearOf_cases y) as Hleap.
  set (leap := InLeapYearOf y) in *.
  set (k := daysBeforeMonth leap m + daysInMonth leap m - 1).
  assert (Hk : 0 <= k < 365 + leap).
  { subst k.
    destruct (twelve_months m Hm) as [E|[E|[E|[E|[E|[E|[E|[E|[E|[E|[E|E]]]]]]]]]]];
      subst m; cbn [daysBeforeMonth daysInMonth]; lia. }
  replace ((DayFromYear y + daysBeforeMonth leap m + daysInMonth leap m - 1) * msPerDay)
    with (MakeDate (DayFromYear y + k) 0) by (unfold MakeDate; subst k; lia).
  destruct (fields_of_day y k 0 Hk ltac:(unfold msPerDay; lia)) as (HY & HD & HL).
  fold leap in HL.
  unfold DateFromTime, MonthFromTime. rewrite HD, HL. clear HY HD HL.
  subst k.
  destruct (twelve_months m Hm) as [E|[E|[E|[E|[E|[E|[E|[E|[E|[E|[E|E]]]]]]]]]]];
    subst m; cbn [daysBeforeMonth daysInMonth];
    destruct Hleap as [-> | ->]; reflexivity.
Qed.

(** X18: in month columns the marker's offset is the day of the month
    over the date of the last day of the month, which is the number of days
    of the month where the host keeps the midnight that starts that day on
    its day: the offset is then above 0 and at most 1, and 1 on the last
    day of the month only. *)
Theorem X18_month_marker_divides_by_the_days_of_the_month
  (tz : Zone) (today : Date) (firstCol : string) (rest : list string) (p : Position) :
  reMonth firstCol = true ->
  ~ 0 <= getFullYear tz today <= 99 ->
  findTodayColumnPosition tz today (firstCol :: rest) = Some p ->
  let year := getFullYear tz today in
  let leap := InLeapYearOf year in
  let days := daysInMonth leap (getMonth tz today) in
  let lastDay :=
    DayFromYear year + daysBeforeMonth leap (getMonth tz today) + days - 1 in
  percentage p
  = (inject_Z (getDate tz today)
     / inject_Z (getDate tz (newDate tz year (getMonth tz today + 1) 0)))%Q
  /\ 1 <= getDate tz today <= days
  /\ 28 <= days <= 31
  /\ (KeepsDay tz (lastDay * msPerDay) ->
      percentage p = (inject_Z (getDate tz today) / inject_Z days)%Q
      /\ (0 < percentage p)%Q /\ (percentage p <= 1)%Q
      /\ ((1 <= percentage p)%Q <-> getDate tz today = days)).
Proof.
  intros Hw Hy Hp year leap days lastDay.
  assert (Hg : granularity firstCol = Some Months).
  { unfold granularity. destruct (reMonth_only _ Hw) as [-> ->]. now rewrite Hw. }
  destruct (position_found tz today firstCol rest Months p Hg Hp) as [_ Hpct].
  pose proof (MonthFromTime_range (LocalTime tz (timeValue today))) as Hm.
  fold (getMonth tz today) in Hm.
  pose proof (proj2 (day_of_month_and_date (LocalTime tz (timeValue today)))) as Hdate.
  unfold InLeapYear in Hdate. fold (getFullYear tz today) in Hdate.
  fold (getMonth tz today) in Hdate. fold (getDate tz today) in Hdate.
  fold year in Hdate. fold leap in Hdate. fold days in Hdate.
  assert (Hdays : 28 <= days <= 31).
  { subst days leap. pose proof (InLeapYearOf_cases year).
    destruct (twelve_months _ Hm) as [E|[E|[E|[E|[E|[E|[E|[E|[E|[E|[E|E]]]]]]]]]]];
      rewrite E; cbn [daysInMonth]; lia. }
  split; [exact Hpct|].
  split; [exact Hdate|]. split; [exact Hdays|]. intros Hkeeps.
  rewrite (getDate_of_last_day tz _ _ Hy Hm Hkeeps) in Hpct.
  fold year in Hpct. fold leap in Hpct. fold days in Hpct.
  split; [exact Hpct|].
  rewrite Hpct. split; [apply ratio_pos; lia|].
  split; [apply ratio_le_1; lia|].
  rewrite ratio_ge_1 by lia. lia.
Qed.

End MarkerOffsets.

(* ================================================================== *)
(** * The week number                                                  *)
(* ================================================================== *)

Section WeekNumber.
Import JS Renderer Spec Samples Extra.

Lemma Qceiling_of_days (k : Z) :
  Qceiling ((inject_Z (k * msPerDay) / inject_Z 86400000 + 1) / 7) = k / 7 + 1.
Proof.
  assert (E : ((inject_Z (k * msPerDay) / inject_Z 86400000 + 1) / 7 == (k + 1) # 7)%Q).
  { unfold msPerDay. rewrite inject_Z_mult.
    setoid_replace ((k + 1) # 7)%Q with ((inject_Z k + 1) / 7)%Q.
    - field.
    - unfold Qeq, Qdiv, Qmult, Qplus, Qinv, inject_Z. cbn. lia. }
  rewrite E. unfold Qceiling, Qfloor, Qopp. cbn [Qnum Qden].
  Z.to_euclidean_division_equations. lia.
Qed.

(** The week number in closed form: the Thursday of the date's week, by
    its place in its own year. *)
Lemma getWeek_closed (tz : Zone) (date : Date) :
  let thursday := mondayOf (Day (LocalTime tz (timeValue date))) + 3 in
  ~ 0 <= getFullYear tz date <= 99 ->
  ~ 0 <= YearFromDay thursday <= 99 ->
  getWeek tz date = (thursday - DayFromYear (YearFromDay thursday)) / 7 + 1.
Proof.
  intros thursday Hy Hth. unfold getWeek.
  set (t := LocalTime tz (timeValue date)) in *.
  assert (Hd0 : Date_UTC (getFullYear tz date) (getMonth tz date) (getDate tz date)
                = MakeDate (Day t) 0).
  { unfold Date_UTC. rewrite (fullYear_outside _ Hy).
    unfold getFullYear, getMonth, getDate. fold t.
    replace (DateFromTime t) with (DateFromTime t + 0) by lia.
    now rewrite MakeDay_of_time, Z.add_0_r. }
  rewrite Hd0. cbv zeta.
  assert (Hday0 : Day (MakeDate (Day t) 0) = Day t)
    by (apply Day_MakeDate; unfold msPerDay; lia).
  assert (Hmod0 : MakeDate (Day t) 0 mod msPerDay = 0).
  { unfold MakeDate. rewrite Z.add_0_r. apply Z.mod_mul. discriminate. }
  set (d0 := MakeDate (Day t) 0) in *.
  set (dayNum := if WeekDay d0 =? 0 then 7 else WeekDay d0).
  assert (HdayNum : dayNum = (Day t + 3) mod 7 + 1).
  { subst dayNum. unfold WeekDay. rewrite Hday0.
    destruct (Z.eqb_spec ((Day t + 4) mod 7) 0);
      Z.to_euclidean_division_equations; lia. }
  replace (DateFromTime d0 + 4 - dayNum) with (DateFromTime d0 + (4 - dayNum)) by lia.
  rewrite MakeDay_of_time, Hday0, Hmod0.
  assert (Hthu : Day t + (4 - dayNum) = thursday)
    by (subst thursday; unfold mondayOf; lia).
  rewrite Hthu.
  assert (Hdayth : Day (MakeDate thursday 0) = thursday)
    by (apply Day_MakeDate; unfold msPerDay; lia).
  unfold YearFromTime at 1. rewrite Hdayth.
  unfold Date_UTC. rewrite (fullYear_outside _ Hth).
  unfold MakeDay. change (0 / 12) with 0. change (0 mod 12) with 0.
  cbn [daysBeforeMonth]. rewrite !Z.add_0_r.
  unfold MakeDate. rewrite !Z.add_0_r.
  replace (thursday * msPerDay - (DayFromYear (YearFromDay thursday) + 1 - 1) * msPerDay)
    with ((thursday - DayFromYear (YearFromDay thursday)) * msPerDay) by lia.
  apply Qceiling_of_days.
Qed.

(** X19: the week number is the ISO 8601 one: it is fixed by the Thursday
    of the Monday-to-Sunday week of the local date, as the number of the
    week of that Thursday in the Thursday's own year; it lies between 1 and
    53, and the seven days from a Monday to the next Sunday share it. *)
Theorem X19_week_number_is_that_of_the_thursday (tz : Zone) (date : Date) :
  let thursday := mondayOf (Day (LocalTime tz (timeValue date))) + 3 in
  ~ 0 <= getFullYear tz date <= 99 ->
  ~ 0 <= YearFromDay thursday <= 99 ->
  getWeek tz date = (thursday - DayFromYear (YearFromDay thursday)) / 7 + 1
  /\ 1 <= getWeek tz date <= 53
  /\ (forall other,
        ~ 0 <= getFullYear tz other <= 99 ->
        mondayOf (Day (LocalTime tz (timeValue other)))
        = mondayOf (Day (LocalTime tz (timeValue date))) ->
        getWeek tz other = getWeek tz date).
Proof.
  intros thursday Hy Hth.
  pose proof (getWeek_closed tz date Hy Hth) as Hw. fold thursday in Hw.
  split; [exact Hw|]. split.
  - rewrite Hw. pose proof (YearFromDay_bounds thursday) as Hb.
    rewrite DayFromYear_step, DaysInYear_cases in Hb.
    pose proof (InLeapYearOf_cases (YearFromDay thursday)).
    Z.to_euclidean_division_equations. lia.
  - intros other Hyo Hsame. rewrite Hw.
    rewrite (getWeek_closed tz other Hyo); rewrite Hsame; [reflexivity | exact Hth].
Qed.

End WeekNumber.

(* ================================================================== *)
(** * The bucket of a date                                             *)
(* ================================================================== *)

Section Buckets.
Import JS Renderer Spec Samples Extra.

(** The label that is looked for is the label of the date's bucket, for
    week columns when the week belongs to the year of the date. *)
Lemma soughtLabel_of_bucket (tz : Zone) (g : Granularity) (today : Date) :
  (g = Weeks -> WeekOfItsYear tz today) ->
  soughtLabel tz g today = bucketLabel tz g today.
Proof.
  intros Hweek. destruct g; try reflexivity.
  destruct (Hweek eq_refl) as [Hy Hsame].
  unfold soughtLabel, bucketLabel.
  assert (Hth : ~ 0 <= YearFromDay (mondayOf (Day (LocalTime tz (timeValue today))) + 3)
                     <= 99).
  { unfold isoWeekYear, isoThursday in Hsame. unfold mondayOf. now rewrite Hsame. }
  rewrite (getWeek_closed tz today Hy Hth).
  unfold isoWeek, isoWeekYear, isoThursday, mondayOf in *.
  now rewrite Hsame.
Qed.

Lemma position_or_none (tz : Zone) (today : Date) (firstCol : string)
  (rest : list string) (g : Granularity) :
  granularity firstCol = Some g ->
  (findTodayColumnPosition tz today (firstCol :: rest) = None <->
   ~ In (soughtLabel tz g today) (firstCol :: rest)).
Proof.
  intros Hg. rewrite findTodayColumnPosition_unfold, Hg. cbv zeta.
  rewrite <- indexOf_absent.
  destruct (Z.eqb_spec (indexOf (firstCol :: rest) (soughtLabel tz g today)) (-1));
    split; intros; congruence.
Qed.

(** C8, the code against the claim.  [findTodayColumnPosition] returns
    [null] for an empty [timeColumns] and for a first label of no known
    format; for year, quarter and month columns, and for week columns when
    the ISO week of the date belongs to the calendar year of the date, it
    returns [null] exactly when no column carries the label of the date's
    bucket, and a position it returns points at a column.  For week columns
    it looks for the ISO week number with the calendar year, which around
    New Year is the label of another week: whenever that label is among
    the columns and the label of the date's own week is not, a position is
    returned where the claim has none.  So it is on Monday 2024-12-30, the
    first day of week 1 of 2025, for the columns "W1 2024" and "W2 2024":
    the marker is put into the first week of January 2024, at 1.5/7. *)
Theorem C8_week_of_new_year_is_sought_in_the_old_year :
  (forall tz today, findTodayColumnPosition tz today [] = None)
  /\ (forall tz today firstCol rest,
        granularity firstCol = None ->
        findTodayColumnPosition tz today (firstCol :: rest) = None)
  /\ (forall tz today timeColumns,
        (forall firstCol rest,
           timeColumns = firstCol :: rest -> granularity firstCol = Some Weeks ->
           WeekOfItsYear tz today) ->
        (findTodayColumnPosition tz today timeColumns = None <->
         NoMarker tz today timeColumns))
  /\ (forall tz today timeColumns p,
        findTodayColumnPosition tz today timeColumns = Some p ->
        0 <= index p < Z.of_nat (List.length timeColumns))
  /\ (forall tz today firstCol rest,
        reWeek firstCol = true ->
        In (soughtLabel tz Weeks today) (firstCol :: rest) ->
        ~ In (bucketLabel tz Weeks today) (firstCol :: rest) ->
        NoMarker tz today (firstCol :: rest)
        /\ exists p, findTodayColumnPosition tz today (firstCol :: rest) = Some p)
  /\ (bucketLabel newYork Weeks (monday2024 newYork) = "W1 2025"
      /\ soughtLabel newYork Weeks (monday2024 newYork) = "W1 2024"
      /\ NoMarker newYork (monday2024 newYork) ["W1 2024"; "W2 2024"]
      /\ exists p,
           findTodayColumnPosition newYork (monday2024 newYork) ["W1 2024"; "W2 2024"]
           = Some p
           /\ index p = 0 /\ percentage p == 3 # 14).
Proof.
  split; [reflexivity|]. split; [|split; [|split; [|split]]].
  - intros tz today firstCol rest Hg.
    now rewrite findTodayColumnPosition_unfold, Hg.
  - intros tz today [|firstCol rest] Hweek; [cbn; tauto|].
    unfold NoMarker.
    destruct (granularity firstCol) as [g|] eqn:Hg.
    + rewrite (position_or_none tz today firstCol rest g Hg).
      rewrite soughtLabel_of_bucket; [reflexivity|].
      intros ->. exact (Hweek firstCol rest eq_refl Hg).
    + rewrite findTodayColumnPosition_unfold, Hg. tauto.
  - intros tz today [|firstCol rest] p; [discriminate|].
    destruct (granularity firstCol) as [g|] eqn:Hg.
    + intros Hp.
      destruct (position_found tz today firstCol rest g p Hg Hp) as [Hidx _].
      assert (Hin : In (soughtLabel tz g today) (firstCol :: rest)).
      { destruct (in_dec string_dec (soughtLabel tz g today) (firstCol :: rest))
          as [I|I]; [exact I|].
        apply (position_or_none tz today firstCol rest g Hg) in I. congruence. }
      pose proof (indexOfFrom_found _ _ 0 Hin) as B. unfold indexOf in Hidx. lia.
    + rewrite findTodayColumnPosition_unfold, Hg. discriminate.
  - intros tz today firstCol rest Hw Hsought Hbucket.
    pose proof (granularity_week _ Hw) as Hg. split.
    + unfold NoMarker. now rewrite Hg.
    + destruct (findTodayColumnPosition tz today (firstCol :: rest)) as [p|] eqn:Hp;
        [now exists p|].
      apply (position_or_none tz today firstCol rest Weeks Hg) in Hp. contradiction.
  - assert (Hlabel : bucketLabel newYork Weeks (monday2024 newYork) = "W1 2025")
      by (vm_compute; reflexivity).
    split; [exact Hlabel|]. split; [vm_compute; reflexivity|]. split.
    + unfold NoMarker.
      replace (granularity "W1 2024") with (Some Weeks) by (vm_compute; reflexivity).
      rewrite Hlabel. intros [E|[E|[]]]; discriminate E.
    + eexists. split; [vm_compute; reflexivity|].
      split; vm_compute; reflexivity.
Qed.

End Buckets.

(* ================================================================== *)
(** * The rows of the grid                                             *)
(* ================================================================== *)

Section Rows.
Import JS Renderer Spec Samples Extra.

Lemma children_after_cells (cells : list Element) (e : Element) :
  children (fold_left (fun e c => appendChild c e) cells e)
  = (children e ++ cells)%list.
Proof.
  revert e. induction cells as [|c cells IH]; intros e; cbn [fold_left].
  - now rewrite app_nil_r.
  - rewrite IH. destruct e. cbn. now rewrite <- app_assoc.
Qed.

(** X20: the bar area of every row holds one cell per time column,
    numbered from 1, and after them the bar, which is there exactly for a
    task row with a bar whose [startCol] is not null: it spans
    "startCol / endCol" of the grid and carries the color of the bar, or
    "default" when the bar has none.  A swimlane row never gets a bar,
    whatever bar data it carries. *)
Theorem X20_bar_area_holds_the_cells_and_the_bar (numCols : nat) (row : Row) :
  exists bars,
    children (snd (renderRow numCols row)) = (gridCells numCols ++ bars)%list
    /\ List.length (gridCells numCols) = numCols
    /\ (forall i, (i < numCols)%nat ->
          nth_error (gridCells numCols) i
          = Some (mkElement "span" "" ""
                    [("data-col", numberToString (Z.of_nat (S i)))] [] [] []))
    /\ (isSwimlane row = true -> bars = [])
    /\ (forall b, isSwimlane row = false -> bar row = Some b ->
          bars = match startCol b with
                 | None => []
                 | Some _ =>
                     [mkElement "div" "gantt-bar" ""
                        [("data-color", colorOrDefault (color b))]
                        [("gridColumn",
                          colToString (startCol b) ++ " / " ++ colToString (endCol b))]
                        [] []]
                 end)
    /\ (isSwimlane row = false -> bar row = None -> bars = []).
Proof.
  assert (Hlen : List.length (gridCells numCols) = numCols)
    by (unfold gridCells; now rewrite length_map, length_seq).
  assert (Hnth : forall i, (i < numCols)%nat ->
            nth_error (gridCells numCols) i
            = Some (mkElement "span" "" ""
                      [("data-col", numberToString (Z.of_nat (S i)))] [] [] [])).
  { intros i Hi. unfold gridCells.
    rewrite nth_error_map.
    assert (Hseq : nth_error (seq 1 numCols) i = Some (S i)).
    { rewrite nth_error_nth' with (d := 0%nat) by (rewrite length_seq; lia).
      now rewrite seq_nth by lia. }
    rewrite Hseq. reflexivity. }
  unfold renderRow.
  destruct (isSwimlane row) eqn:Hs.
  - exists []. cbn [snd]. rewrite children_after_cells. cbn.
    rewrite app_nil_r. repeat split; auto; discriminate.
  - destruct (bar row) as [b|] eqn:Hb.
    + destruct (startCol b) as [c|] eqn:Hc.
      * eexists. cbn [snd]. cbn. rewrite children_after_cells. cbn.
        split; [reflexivity|]. split; [exact Hlen|]. split; [exact Hnth|].
        split; [discriminate|]. split; [|discriminate].
        intros b' _ [= <-]. now rewrite Hc.
      * exists []. cbn [snd]. rewrite children_after_cells. cbn.
        rewrite app_nil_r. split; [reflexivity|]. split; [exact Hlen|].
        split; [exact Hnth|]. split; [discriminate|]. split; [|reflexivity].
        intros b' _ [= <-]. now rewrite Hc.
    + exists []. cbn [snd]. rewrite children_after_cells. cbn.
      rewrite app_nil_r. repeat split; auto; discriminate.
Qed.

End Rows.

(* ================================================================== *)
(** * The theorems at sample inputs                                    *)
(* ================================================================== *)

Section MoreWitnesses.
Import JS Renderer Server Spec Samples Extra.

Lemma X4_follow_up_witness :
  let w1 := snd (generateChart offlineHost (upload [notesTxt; agendaMd]) usedWorld) in
  let corpus := concatBlocks offlineHost (sortFiles offlineHost [notesTxt; agendaMd]) in
  (missingText (field sampleQuestion "question") = false ->
   missingText (field sampleQuestion "entity") = false ->
   missingText (field sampleQuestion "taskName") = false ->
   strlen (trim (asString (field sampleQuestion "question"))) <= 1000 ->
   exists events,
     snd (askQuestion offlineHost sampleQuestion w1) = after w1 events
     /\ (1 <= fetches events)%nat
     /\ Forall (fun p => research p = corpus /\ endpoint p = AskQuestion)
               (requests events))
  /\ (forall entityText taskNameText,
        truthy (field sampleQuestion "taskName") = true ->
        truthy (field sampleQuestion "entity") = true ->
        ToString (numberText offlineHost) true (field sampleQuestion "entity")
        = Normal entityText ->
        ToString (numberText offlineHost) true (field sampleQuestion "taskName")
        = Normal taskNameText ->
        exists events,
          snd (getTaskAnalysis offlineHost sampleQuestion w1) = after w1 events
          /\ (1 <= fetches events)%nat
          /\ Forall (fun p => research p = corpus /\ endpoint p = GetTaskAnalysis
                              /\ slots p = [entityText; taskNameText])
                    (requests events)).
Proof.
  apply (X4_follow_up_requests_carry_the_uploaded_corpus offlineHost
           (upload [notesTxt; agendaMd]) [notesTxt; agendaMd] sampleQuestion usedWorld).
  - reflexivity.
  - repeat constructor; eexists; vm_compute; reflexivity.
Defined.

Lemma X7_week_marker_witness :
  let p := mkPosition 1 ((inject_Z 5 + (1 # 2)) / 7) in
  (1 # 14 <= percentage p)%Q /\ (percentage p <= 13 # 14)%Q
  /\ 0 <= index p < Z.of_nat (List.length weeks2025).
Proof.
  intro p.
  apply (X7_week_marker_stays_inside_its_bucket newYork (today2025 newYork) "W45 2025"
           ["W46 2025"; "W47 2025"] p); vm_compute; reflexivity.
Defined.

Lemma X8_marker_line_witness :
  let p := mkPosition 1 ((inject_Z 5 + (1 # 2)) / 7) in
  exists line colWidth,
    Pages.addTodayLine newYork measuredGrid weeks2025 (today2025 newYork) = Some line
    /\ Pages.top line = 40 # 1
    /\ (colWidth * inject_Z (Z.of_nat (List.length weeks2025))
        == Pages.clientWidth measuredGrid - (400 # 1))%Q
    /\ ((400 # 1) + inject_Z (index p) * colWidth <= Pages.left line)%Q
    /\ (Pages.left line <= (400 # 1) + (inject_Z (index p) + 1) * colWidth)%Q.
Proof.
  intro p.
  apply (X8_marker_line_lies_in_the_column_of_its_bucket newYork measuredGrid weeks2025
           (today2025 newYork) p (400 # 1) (40 # 1));
    try (vm_compute; reflexivity); vm_compute; discriminate.
Defined.

(** In New York the first and the last day of 2025 and the sample date
    have one offset. *)
Lemma X16_year_marker_witness :
  exists p,
    findTodayColumnPosition newYork (today2025 newYork) ["2024"; "2025"; "2026"] = Some p
    /\ let today := today2025 newYork in
       let year := getFullYear newYork today in
       let start := DayFromYear year * msPerDay in
       let last := (DayFromYear year + DaysInYear year - 1) * msPerDay in
       let elapsed := LocalTime newYork (timeValue today) - start in
       SteadyOffset newYork today start last
       /\ percentage p = (msToDays (timeValue today - UTC newYork start)
                          / msToDays (UTC newYork last - UTC newYork start))%Q
       /\ (SteadyOffset newYork today start last ->
           (percentage p ==
            inject_Z elapsed / inject_Z ((DaysInYear year - 1) * msPerDay))%Q
           /\ (0 <= percentage p)%Q
           /\ ((1 <= percentage p)%Q <->
               DayWithinYear (LocalTime newYork (timeValue today))
               = DaysInYear year - 1)).
Proof.
  eexists. split; [vm_compute; reflexivity|].
  cbv zeta. split; [split; vm_compute; reflexivity|].
  apply (X16_year_marker_divides_by_a_day_less_than_the_year newYork
           (today2025 newYork) "2024" ["2025"; "2026"]).
  - reflexivity.
  - vm_compute. intros [_ H]. now apply H.
  - vm_compute. reflexivity.
Defined.

(** A zone an hour ahead of UTC all year. *)
Lemma X17_quarter_marker_witness :
  let tz := fixedZone msPerHour in
  exists p,
    findTodayColumnPosition tz (today2025 tz) quarters2025 = Some p
    /\ let today := today2025 tz in
       let year := getFullYear tz today in
       let leap := InLeapYearOf year in
       let quarter := getMonth tz today / 3 + 1 in
       let firstDay := daysBeforeMonth leap ((quarter - 1) * 3) in
       let start := (DayFromYear year + firstDay) * msPerDay in
       let last := (DayFromYear year + firstDay + daysInQuarter leap quarter - 1)
                   * msPerDay in
       let elapsed := LocalTime tz (timeValue today) - start in
       SteadyOffset tz today start last
       /\ 1 <= quarter <= 4
       /\ percentage p = (msToDays (timeValue today - UTC tz start)
                          / msToDays (UTC tz last - UTC tz start))%Q
       /\ (SteadyOffset tz today start last ->
           (percentage p ==
            inject_Z elapsed / inject_Z ((daysInQuarter leap quarter - 1) * msPerDay))%Q
           /\ (0 <= percentage p)%Q
           /\ ((1 <= percentage p)%Q <->
               DayWithinYear (LocalTime tz (timeValue today))
               = firstDay + daysInQuarter leap quarter - 1)).
Proof.
  intro tz. eexists. split; [vm_compute; reflexivity|].
  cbv zeta. split; [split; reflexivity|].
  apply (X17_quarter_marker_divides_by_a_day_less_than_the_quarter tz (today2025 tz)
           "Q1 2025" ["Q2 2025"; "Q3 2025"; "Q4 2025"]).
  - reflexivity.
  - vm_compute. intros [_ H]. now apply H.
  - vm_compute. reflexivity.
Defined.

Lemma X18_month_marker_witness :
  exists p,
    findTodayColumnPosition newYork (today2025 newYork)
      ["Oct 2025"; "Nov 2025"; "Dec 2025"] = Some p
    /\ let today := today2025 newYork in
       let year := getFullYear newYork today in
       let leap := InLeapYearOf year in
       let days := daysInMonth leap (getMonth newYork today) in
       let lastDay :=
         DayFromYear year + daysBeforeMonth leap (getMonth newYork today) + days - 1 in
       KeepsDay newYork (lastDay * msPerDay)
       /\ percentage p
          = (inject_Z (getDate newYork today)
             / inject_Z (getDate newYork
                           (newDate newYork year (getMonth newYork today + 1) 0)))%Q
       /\ 1 <= getDate newYork today <= days
       /\ 28 <= days <= 31
       /\ (KeepsDay newYork (lastDay * msPerDay) ->
           percentage p = (inject_Z (getDate newYork today) / inject_Z days)%Q
           /\ (0 < percentage p)%Q /\ (percentage p <= 1)%Q
           /\ ((1 <= percentage p)%Q <-> getDate newYork today = days)).
Proof.
  eexists. split; [vm_compute; reflexivity|].
  cbv zeta. split; [vm_compute; reflexivity|].
  apply (X18_month_marker_divides_by_the_days_of_the_month newYork (today2025 newYork)
           "Oct 2025" ["Nov 2025"; "Dec 2025"]).
  - reflexivity.
  - vm_compute. intros [_ H]. now apply H.
  - vm_compute. reflexivity.
Defined.

Lemma X19_week_number_witness :
  let today := today2025 newYork in
  let thursday := mondayOf (Day (LocalTime newYork (timeValue today))) + 3 in
  getWeek newYork today = (thursday - DayFromYear (YearFromDay thursday)) / 7 + 1
  /\ 1 <= getWeek newYork today <= 53
  /\ (forall other,
        ~ 0 <= getFullYear newYork other <= 99 ->
        mondayOf (Day (LocalTime newYork (timeValue other)))
        = mondayOf (Day (LocalTime newYork (timeValue today))) ->
        getWeek newYork other = getWeek newYork today).
Proof.
  intro today.
  apply (X19_week_number_is_that_of_the_thursday newYork today).
  - vm_compute. intros [_ H]. now apply H.
  - vm_compute. intros [_ H]. now apply H.
Defined.

End MoreWitnesses.

Section PageWitnesses.
Import JS Spec Samples Extra Client Pages.

Lemma X9_opened_chart_witness :
  1 <> 0 /\ trim "Build the roadmap" <> ""
  /\ (exists response,
        Normal (okResponse chartWithRows) = Normal response
        /\ ok response = true /\ json response = Normal chartWithRows)
  /\ exists timeColumns data,
       getProp chartWithRows "timeColumns" = Normal timeColumns
       /\ truthy timeColumns = true
       /\ getProp chartWithRows "data" = Normal data /\ truthy data = true
       /\ (forall l, timeColumns = VArray l -> l <> [])
       /\ (forall l, data = VArray l -> l <> []).
Proof.
  apply (X9_only_a_chart_with_columns_and_rows_is_opened (fun _ => "") 1
           "Build the roadmap" (Normal (okResponse chartWithRows)) chartWithRows).
  vm_compute. reflexivity.
Defined.

Lemma X10_error_body_witness :
  exists shown,
    handleChartGenerate (fun _ => "") 1 "Build the roadmap" (Normal badGateway)
    = ShowError ("Error: " ++ shown)
    /\ (forall t, text badGateway = Normal t -> t <> "" ->
          shown = substring 0 200 t
          /\ strlen shown <= 200
          /\ String.prefix shown t = true)
    /\ ((text badGateway = Normal "" \/ exists e, text badGateway = Throws e) ->
        shown = ("Server error: " ++ numberToString (status badGateway))%string).
Proof.
  apply (X10_error_body_is_cut_at_200_characters (fun _ => "") "Build the roadmap" 1
           badGateway).
  - discriminate.
  - vm_compute. discriminate.
  - reflexivity.
  - intros ct [= <-]. vm_compute. reflexivity.
Defined.

Lemma X11_rejected_selection_witness :
  (forallb isSupported pickedFiles = true ->
   processFiles pickedFiles emptyForm =
     mkForm pickedFiles (map name pickedFiles) true false (errorText emptyForm) false)
  /\ (forallb isSupported pickedFiles = false ->
      inputFiles (processFiles pickedFiles emptyForm) = []
      /\ errorShown (processFiles pickedFiles emptyForm) = true
      /\ errorText (processFiles pickedFiles emptyForm) =
           ("The following files are not supported: "
            ++ join ", " (map name (filter (fun f => negb (isSupported f)) pickedFiles))
            ++ ". Please upload only .md, .txt, .docx files.")%string
      /\ promptHidden (processFiles pickedFiles emptyForm) = false
      /\ listHidden (processFiles pickedFiles emptyForm) = true).
Proof.
  apply (X11_one_unsupported_file_rejects_the_selection pickedFiles emptyForm).
  discriminate.
Defined.

Lemma X12_rejected_selection_witness :
  handleChartGenerate (fun _ => "")
    (Z.of_nat (List.length (inputFiles (processFiles pickedFiles emptyForm))))
    "Build the roadmap" (Normal (okResponse chartWithRows))
  = ShowError "Error: Please upload at least one research document.".
Proof.
  apply (X12_a_rejected_selection_cannot_be_submitted (fun _ => "") pickedFiles
           emptyForm "Build the roadmap" (Normal (okResponse chartWithRows))).
  vm_compute. reflexivity.
Defined.

Lemma X14_opened_chart_loads_witness :
  exists props,
    chartWithRows = VObject props
    /\ (isArray (lookup "data" props) = true ->
        loadChart parseStoredChart (Some "{chart}") = mkLoaded (Some chartWithRows) false)
    /\ (isArray (lookup "data" props) = false ->
        loadChart parseStoredChart (Some "{chart}") = mkLoaded None true).
Proof.
  apply (X14_the_chart_page_accepts_an_opened_chart_with_rows parseStoredChart
           (fun _ => "") 1 "Build the roadmap" (Normal (okResponse chartWithRows))
           chartWithRows "{chart}").
  - vm_compute. reflexivity.
  - discriminate.
  - reflexivity.
Defined.

End PageWitnesses.
